(** * Naumachia manager: a shallow embedding of [manager/app/naum.py]

    The manager is the control plane of a VPN challenge platform: it keeps a
    registry of challenges, and per challenge a registry of users, each with a
    VLAN id, a docker-compose cluster and a set of live connections.

    The embedding follows the Python source method by method.  Python objects
    are records, dicts are [gmap]s, sets are [gset]s, a [str] is a list of
    code points and a [bytes] a list of bytes; exceptions, the side effects on
    the host (subprocesses, netlink, docker, logging) and the unbounded retry
    loop of the VLAN allocator are threaded through a small state-and-error
    monad.  The host is a type class: the theorems hold whatever the
    subprocesses, netlink and docker answer.  No property depends on the
    order in which a dict is iterated.  The code is modelled as run by one
    thread: the [RLock]s of the source are reentrant and never block a single
    thread, so they do not appear. *)

From Stdlib Require Import ZArith NArith List String Ascii Strings.Byte DecimalString Lia.
From Stdlib Require DecimalZ.
From stdpp Require Import gmap sets list.

Local Open Scope Z_scope.

(* ===================================================================== *)
(** * The Python runtime: text, bytes and the library calls of naum.py    *)
(* ===================================================================== *)

Module Py.

(** A Python [str] is a sequence of Unicode code points; [len] and slicing
    count code points, not bytes.  A [bytes] object is a sequence of bytes. *)
Abbreviation str := (list N) (only parsing).
Abbreviation bytes := (list byte) (only parsing).

(** An ASCII literal of the source as a [str]. *)
Definition pystr (s : string) : str :=
  map N_of_ascii (list_ascii_of_string s).

(** [a[:n]] for an [n] that may be negative, as Python slices. *)
Definition slice_to (s : str) (n : Z) : str :=
  if 0 <=? n then take (Z.to_nat n) s
  else take (length s - Z.to_nat (- n)) s.

(** [c * n] for a one-character string [c]. *)
Definition str_repeat (c : str) (n : nat) : str := concat (replicate n c).

(** [sep.join(l)] *)
Fixpoint join (sep : str) (l : list str) : str :=
  match l with
  | [] => []
  | [x] => x
  | x :: r => x ++ sep ++ join sep r
  end.

(** [str(i)] and ['{}'.format(i)] for an [int]. *)
Definition str_of_int (z : Z) : str :=
  pystr (NilZero.string_of_int (Z.to_int z)).

(** [str.lower] on the ASCII letters; other code points are kept (the source
    lower-cases base32 common names, which are ASCII). *)
Definition lower_cp (c : N) : N :=
  if ((65 <=? c) && (c <=? 90))%N then (c + 32)%N else c.
Definition lower (s : str) : str := map lower_cp s.

(** The code points [str.strip] removes. *)
Definition isspace (c : N) : bool :=
  (((9 <=? c) && (c <=? 13)) || ((28 <=? c) && (c <=? 32))
   || (c =? 133) || (c =? 160) || (c =? 5760)
   || ((8192 <=? c) && (c <=? 8202)) || (c =? 8232) || (c =? 8233)
   || (c =? 8239) || (c =? 8287) || (c =? 12288))%N.

Fixpoint lstrip (s : str) : str :=
  match s with
  | c :: r => if isspace c then lstrip r else s
  | [] => []
  end.
Definition rstrip (s : str) : str := rev (lstrip (rev s)).
Definition strip (s : str) : str := rstrip (lstrip s).

(** ** UTF-8 *)

Definition byte_of_N (n : N) : byte :=
  match Byte.of_N (n mod 256) with Some b => b | None => x00 end.

(** [s.encode('utf-8')]; [None] is [UnicodeEncodeError] (lone surrogates). *)
Definition utf8_encode_cp (c : N) : option bytes :=
  (if c <? 128 then Some [byte_of_N c]
   else if c <? 2048 then
     Some [byte_of_N (192 + c / 64); byte_of_N (128 + c mod 64)]
   else if (55296 <=? c) && (c <=? 57343) then None
   else if c <? 65536 then
     Some [byte_of_N (224 + c / 4096); byte_of_N (128 + (c / 64) mod 64);
           byte_of_N (128 + c mod 64)]
   else if c <? 1114112 then
     Some [byte_of_N (240 + c / 262144); byte_of_N (128 + (c / 4096) mod 64);
           byte_of_N (128 + (c / 64) mod 64); byte_of_N (128 + c mod 64)]
   else None)%N.

Fixpoint utf8_encode (s : str) : option bytes :=
  match s with
  | [] => Some []
  | c :: r =>
      match utf8_encode_cp c, utf8_encode r with
      | Some b, Some br => Some (b ++ br)
      | _, _ => None
      end
  end.

Definition in_range (lo hi : N) (b : byte) : bool :=
  ((lo <=? Byte.to_N b) && (Byte.to_N b <=? hi))%N.
Definition low6 (b : byte) : N := (Byte.to_N b mod 64)%N.

(** [b.decode('utf-8')] with the default strict error handler; [None] is
    [UnicodeDecodeError]. *)
Fixpoint utf8_decode (bs : bytes) : option str :=
  match bs with
  | [] => Some []
  | b0 :: r0 =>
      let n0 := Byte.to_N b0 in
      if (n0 <? 128)%N then cons n0 <$> utf8_decode r0
      else if in_range 194 223 b0 then
        match r0 with
        | b1 :: r1 =>
            if in_range 128 191 b1
            then cons ((n0 - 192) * 64 + low6 b1)%N <$> utf8_decode r1
            else None
        | _ => None
        end
      else if in_range 224 239 b0 then
        match r0 with
        | b1 :: b2 :: r2 =>
            let lo := if (n0 =? 224)%N then 160%N else 128%N in
            let hi := if (n0 =? 237)%N then 159%N else 191%N in
            if in_range lo hi b1 && in_range 128 191 b2
            then cons ((n0 - 224) * 4096 + low6 b1 * 64 + low6 b2)%N
                   <$> utf8_decode r2
            else None
        | _ => None
        end
      else if in_range 240 244 b0 then
        match r0 with
        | b1 :: b2 :: b3 :: r3 =>
            let lo := if (n0 =? 240)%N then 144%N else 128%N in
            let hi := if (n0 =? 244)%N then 143%N else 191%N in
            if in_range lo hi b1 && in_range 128 191 b2 && in_range 128 191 b3
            then cons ((n0 - 240) * 262144 + low6 b1 * 4096
                       + low6 b2 * 64 + low6 b3)%N <$> utf8_decode r3
            else None
        | _ => None
        end
      else None
  end.

(** ** [base64.b32decode] (standard alphabet, no case folding) *)

Definition b32rev (c : byte) : option N :=
  if in_range 65 90 c then Some (Byte.to_N c - 65)%N
  else if in_range 50 55 c then Some (Byte.to_N c - 24)%N
  else None.

(** [acc.to_bytes(5)], big endian *)
Definition to_bytes5 (acc : N) : bytes :=
  [byte_of_N (acc / 4294967296); byte_of_N (acc / 16777216);
   byte_of_N (acc / 65536); byte_of_N (acc / 256); byte_of_N acc]%N.

(** [s[i:i+8] for i in range(0, len(s), 8)] *)
Fixpoint quanta (n : nat) (s : bytes) : list bytes :=
  match n with
  | O => []
  | S n' =>
      match s with
      | [] => []
      | _ => take 8 s :: quanta n' (drop 8 s)
      end
  end.

(** [for c in quanta: acc = (acc << 5) + b32rev[c]]; [None] when a byte is
    outside the alphabet. *)
Fixpoint quantum_acc (q : bytes) (acc : N) : option N :=
  match q with
  | [] => Some acc
  | c :: r =>
      match b32rev c with
      | Some d => quantum_acc r (acc * 32 + d)%N
      | None => None
      end
  end.

(** The loop over the quanta: the decoded bytes so far and the accumulator of
    the last quantum. *)
Fixpoint b32_quanta (qs : list bytes) (decoded : bytes) (acc : N)
  : option (bytes * N) :=
  match qs with
  | [] => Some (decoded, acc)
  | q :: r =>
      match quantum_acc q 0%N with
      | Some acc' => b32_quanta r (decoded ++ to_bytes5 acc') acc'
      | None => None
      end
  end.

(** [s.rstrip(b'=')] *)
Fixpoint lstrip_pad (s : bytes) : bytes :=
  match s with
  | "="%byte :: r => lstrip_pad r
  | _ => s
  end.
Definition rstrip_pad (s : bytes) : bytes := rev (lstrip_pad (rev s)).

(** [base64.b32decode(s)] for a [bytes] argument; [None] is
    [binascii.Error]. *)
Definition b32decode (s0 : bytes) : option bytes :=
  if negb (length s0 mod 8 =? 0)%nat then None
  else
    let l := length s0 in
    let s := rstrip_pad s0 in
    let padchars := (l - length s)%nat in
    match b32_quanta (quanta (length s) s) [] 0%N with
    | None => None
    | Some (decoded, acc) =>
        if negb (bool_decide (padchars ∈ [0; 1; 3; 4; 6]%nat)) then None
        else if negb (padchars =? 0)%nat && negb (length decoded =? 0)%nat then
          let acc := (acc * 2 ^ (5 * N.of_nat padchars))%N in
          let last := to_bytes5 acc in
          let leftover := ((43 - 5 * padchars) / 8)%nat in
          Some (take (length decoded - 5) decoded ++ take leftover last)
        else Some decoded
    end.

(** ** [os.path] (POSIX) *)

Definition startswith_slash (s : str) : bool :=
  match s with c :: _ => (c =? 47)%N | [] => false end.
Definition endswith_slash (s : str) : bool := startswith_slash (rev s).

(** [path.join(a, b)] *)
Definition path_join (a b : str) : str :=
  if startswith_slash b then b
  else if (length a =? 0)%nat || endswith_slash a then a ++ b
  else a ++ pystr "/" ++ b.

(** [s.split('/')]; [cur] is the component being read, reversed. *)
Fixpoint split_slash (s : str) (cur : str) : list str :=
  match s with
  | [] => [rev cur]
  | c :: r =>
      if (c =? 47)%N then rev cur :: split_slash r []
      else split_slash r (c :: cur)
  end.

(** The loop of [normpath] over the components; [new_comps] is kept with its
    last element first. *)
Fixpoint norm_comps (initial_slashes : nat) (comps : list str)
    (new_comps : list str) : list str :=
  match comps with
  | [] => rev new_comps
  | comp :: r =>
      if bool_decide (comp = []) || bool_decide (comp = pystr ".")
      then norm_comps initial_slashes r new_comps
      else if negb (bool_decide (comp = pystr ".."))
              || ((initial_slashes =? 0)%nat && bool_decide (new_comps = []))
              || bool_decide (head new_comps = Some (pystr ".."))
      then norm_comps initial_slashes r (comp :: new_comps)
      else norm_comps initial_slashes r (tail new_comps)
  end.

(** [path.normpath(path)] *)
Definition normpath (path : str) : str :=
  if (length path =? 0)%nat then pystr "."
  else
    let initial_slashes :=
      match path with
      | 47%N :: 47%N :: 47%N :: _ => 1%nat
      | 47%N :: 47%N :: _ => 2%nat
      | 47%N :: _ => 1%nat
      | _ => 0%nat
      end in
    let comps := norm_comps initial_slashes (split_slash path []) [] in
    let path := str_repeat (pystr "/") initial_slashes ++ join (pystr "/") comps in
    if (length path =? 0)%nat then pystr "." else path.

End Py.
Import Py.

(* ===================================================================== *)
(** * Exceptions, outcomes and the monad                                  *)
(* ===================================================================== *)

(** The exceptions naum.py can raise or let through.  [ManagerException] is
    the only class the module declares; nothing in it raises one. *)
Inductive exn : Type :=
| ManagerException
| KeyError (key : str)
| AttributeError (type attr : string)
| ValueError (msg : str)
| BinasciiError
| UnicodeDecodeError
| UnicodeEncodeError
| HostError (cls : string).

(** The name of the Python class of an exception. *)
Definition exn_class (e : exn) : string :=
  match e with
  | ManagerException => "ManagerException"
  | KeyError _ => "KeyError"
  | AttributeError _ _ => "AttributeError"
  | ValueError _ => "ValueError"
  | BinasciiError => "binascii.Error"
  | UnicodeDecodeError => "UnicodeDecodeError"
  | UnicodeEncodeError => "UnicodeEncodeError"
  | HostError cls => cls
  end.

(** What a call does: it returns, it raises, or it does not come back (a
    loop that used up its iteration budget, or a host call that hangs). *)
Inductive outcome (A : Type) : Type :=
| Ret (a : A)
| Raise (e : exn)
| Diverge.
Arguments Ret {A} a.
Arguments Raise {A} e.
Arguments Diverge {A}.

(** State is kept whatever the outcome: a Python exception does not undo the
    mutations made before it. *)
Definition M (S A : Type) : Type := S -> outcome A * S.

Definition ret {S A} (a : A) : M S A := fun s => (Ret a, s).
Definition raise {S A} (e : exn) : M S A := fun s => (Raise e, s).
Definition diverge {S A} : M S A := fun s => (Diverge, s).
Definition bind {S A B} (m : M S A) (k : A -> M S B) : M S B :=
  fun s =>
    match m s with
    | (Ret a, s') => k a s'
    | (Raise e, s') => (Raise e, s')
    | (Diverge, s') => (Diverge, s')
    end.
Definition of_outcome {S A} (o : outcome A) : M S A := fun s => (o, s).

Declare Scope py_scope.
Delimit Scope py_scope with py.
Notation "x <- m ;; k" := (bind m (fun x => k))
  (at level 100, m at next level, right associativity) : py_scope.
Notation "m ;; k" := (bind m (fun _ => k))
  (at level 100, right associativity) : py_scope.
Notation "'when' b 'then' m" := (if b then m else ret tt)
  (at level 100, b at next level, m at next level) : py_scope.
Local Open Scope py_scope.

(** [for x in l: body(x)] *)
Fixpoint for_each {S X} (l : list X) (body : X -> M S unit) : M S unit :=
  match l with
  | [] => ret tt
  | x :: r => body x ;; for_each r body
  end.

(** Run [m] on a component of the state: the object [get x] denotes is
    mutated in place, whatever the outcome; [e] is raised when there is no
    such component. *)
Definition zoom {X Y T A} (get : X -> option Y) (set : X -> Y -> X) (e : exn)
    (m : M (Y * T) A) : M (X * T) A :=
  fun '(x, t) =>
    match get x with
    | None => (Raise e, (x, t))
    | Some y => let '(r, (y', t')) := m (y, t) in (r, (set x y', t'))
    end.

(* ===================================================================== *)
(** * The host: everything naum.py reaches outside the interpreter         *)
(* ===================================================================== *)

(** A pyroute2 interface object, as far as the manager reads it. *)
Record Iface : Type := {
  ifname : str;
  index : Z;
  master : option Z;
  ipaddr : list (str * Z)
}.

(** A docker network object. *)
Record Network : Type := { net_id : str }.

(** The handles [Manager.__init__] opens and [Manager._stop] closes. *)
Inductive handle : Type := DockerClient | Ipdb | HostNs.

Inductive level : Type := DEBUG | INFO | WARNING.

(** What the manager does to the outside, in the order it does it. *)
Inductive event : Type :=
| Log (lvl : level) (msg : str) (args : list str)
| CheckCall (cmd : list str)
| CheckOutput (cmd : list str)
| IpdbLookup (name : str)
| IpdbCreateVlan (name : str) (link : Iface) (vlan_id : Z)
| IfaceUp (i : Iface)
| IfaceDelIp (i : Iface) (addr : str) (mask : Z)
| IfaceAddPort (bridge port : Iface)
| IfaceRemove (i : Iface)
| NetworksList (names : list str)
| Close (h : handle).

Definition is_compose (e : event) : bool :=
  match e with CheckCall _ | CheckOutput _ => true | _ => false end.


Definition is_warning (e : event) : bool :=
  match e with Log WARNING _ _ => true | _ => false end.

(** The host as the manager sees it: a world [W] and the calls that read or
    change it.  Nothing is assumed of the calls but the range of
    [random.randint]. *)
Class Host (W : Type) : Type := {
  (** [random.randint(a, b)] *)
  randint : Z -> Z -> W -> Z * W;
  randint_range : forall a b w, a <= b -> a <= (randint a b w).1 <= b;
  (** [subprocess.check_call(cmd)] and [subprocess.check_output(cmd)] *)
  check_call : list str -> W -> outcome unit * W;
  check_output : list str -> W -> outcome bytes * W;
  (** [ipdb.interfaces]: the interface of a name, if there is one *)
  ipdb_interfaces : str -> W -> option Iface;
  (** [ipdb.create(kind='vlan', ifname, link, vlan_id).commit()] *)
  ipdb_create_vlan : str -> Iface -> Z -> W -> outcome Iface * W;
  (** [i.up().commit()]; the interface as it is afterwards *)
  iface_up : Iface -> W -> outcome Iface * W;
  (** [i.del_ip(addr, mask)] *)
  iface_del_ip : Iface -> str -> Z -> W -> outcome unit * W;
  (** [bridge.add_port(port).commit()] *)
  iface_add_port : Iface -> Iface -> W -> outcome unit * W;
  (** [with i: i.remove()] *)
  iface_remove : Iface -> W -> outcome unit * W;
  (** [dockerc.networks.list(names=names)] *)
  networks_list : list str -> W -> outcome (list Network) * W;
  (** [dockerc.close()], [ipdb.release()], [host_ns.close()] *)
  close : handle -> W -> outcome unit * W
}.

(** The world and the trace of what was done to it. *)
Record sys (W : Type) : Type := Sys { world : W; trace : list event }.
Arguments Sys {W} world trace.
Arguments world {W} s.
Arguments trace {W} s.

(* ===================================================================== *)
(** * The objects of naum.py                                              *)
(* ===================================================================== *)

Definition CHALLENGE_FOLDER : str := pystr "./challenges".
Definition COMPOSE_CMD : str := pystr "docker-compose".

(** What a [User] reads through its back reference [self.challenge]: fields
    of the [Challenge] that are set in [Challenge.__init__] and never
    assigned again. *)
Record ChallengeRef : Type := {
  ref_name : str;
  ref_host_veth : Iface;
  ref_compose_files : list str
}.

Record User : Type := {
  connections : gset str;
  cn : str;
  name : str;
  vlan : Z;
  challenge : ChallengeRef;
  id : str
}.

Record Challenge : Type := {
  c_host_veth : Iface;
  c_name : str;
  c_compose_files : list str;
  vlans : gset Z;
  users : gmap str User
}.

Record Manager : Type := { challenges : gmap str Challenge }.

Definition set_connections (u : User) (c : gset str) : User :=
  {| connections := c; cn := cn u; name := name u; vlan := vlan u;
     challenge := challenge u; id := id u |}.

Definition set_vlans (c : Challenge) (v : gset Z) : Challenge :=
  {| c_host_veth := c_host_veth c; c_name := c_name c;
     c_compose_files := c_compose_files c; vlans := v; users := users c |}.

Definition set_users (c : Challenge) (us : gmap str User) : Challenge :=
  {| c_host_veth := c_host_veth c; c_name := c_name c;
     c_compose_files := c_compose_files c; vlans := vlans c; users := us |}.

Definition Challenge_ref (c : Challenge) : ChallengeRef :=
  {| ref_name := c_name c; ref_host_veth := c_host_veth c;
     ref_compose_files := c_compose_files c |}.

(** ** Pure helpers of [User] *)

(** [User.decode_cn] *)
Definition User_decode_cn (cn : str) : outcome str :=
  let missing_padding := (length cn mod 8)%nat in
  let cn :=
    if negb (missing_padding =? 0)%nat
    then cn ++ str_repeat (pystr "=") (8 - missing_padding)
    else cn in
  match utf8_encode cn with
  | None => Raise UnicodeEncodeError
  | Some b =>
      match b32decode b with
      | None => Raise BinasciiError
      | Some d =>
          match utf8_decode d with
          | None => Raise UnicodeDecodeError
          | Some s => Ret s
          end
      end
  end.

(** [User._fmt_address] *)
Definition User__fmt_address (address : str) (port : Z) : str :=
  address ++ pystr ":" ++ str_of_int port.

(** [User.__init__] *)
Definition User_init (cn : str) (vlan : Z) (challenge : ChallengeRef)
  : outcome User :=
  match User_decode_cn cn with
  | Ret name =>
      Ret {| connections := ∅; cn := cn; name := name; vlan := vlan;
             challenge := challenge;
             id := lower cn ++ pystr "_" ++ ref_name challenge |}
  | Raise e => Raise e
  | Diverge => Diverge
  end.

(** The body of [User._vlan_ifname], on the interface name and the VLAN id. *)
Definition vlan_ifname (host_ifname : str) (vlan : Z) : str :=
  let suffix := pystr "." ++ str_of_int vlan in
  slice_to host_ifname (15 - Z.of_nat (length suffix)) ++ suffix.

(** [User._vlan_ifname] *)
Definition User__vlan_ifname (self : User) : str :=
  vlan_ifname (ifname (ref_host_veth (challenge self))) (vlan self).

(** The command list [User._get_compose_cmd] builds. *)
Definition compose_cmd (self : User) (args : list str) : list str :=
  [COMPOSE_CMD; pystr "--project-name"; id self]
  ++ flat_map (fun conf =>
       [pystr "--file"; normpath (path_join CHALLENGE_FOLDER conf)])
       (ref_compose_files (challenge self))
  ++ args.

(** [k in d] for a dict. *)
Definition dict_contains {V} (k : str) (d : gmap str V) : bool :=
  bool_decide (is_Some (d !! k)).

(** Attribute lookup of a method that [str] does not have. *)
Definition str_getattr {S A} (attr : string) : M S A :=
  raise (AttributeError "str" attr).

Section Methods.
Context {W : Type} `{Host W}.

(** ** Access to the host and to [self] *)

Definition self {X} : M (X * sys W) X := fun '(x, s) => (Ret x, (x, s)).

Definition modify_self {X} (f : X -> X) : M (X * sys W) unit :=
  fun '(x, s) => (Ret tt, (f x, s)).

(** A host call that is recorded in the trace. *)
Definition call {X A} (ev : event) (op : W -> outcome A * W)
  : M (X * sys W) A :=
  fun '(x, s) =>
    let '(r, w) := op (world s) in (r, (x, Sys w (trace s ++ [ev]))).

(** A read of the host that is recorded in the trace. *)
Definition query {X A} (ev : event) (f : W -> A) : M (X * sys W) A :=
  fun '(x, s) => (Ret (f (world s)), (x, Sys (world s) (trace s ++ [ev]))).

(** A draw of the random generator (not recorded). *)
Definition draw {X} (op : W -> Z * W) : M (X * sys W) Z :=
  fun '(x, s) => let '(r, w) := op (world s) in (Ret r, (x, Sys w (trace s))).

(** [logging.debug], [logging.info], [logging.warn]: [log] for a message
    that is computed, [logging] for a literal one. *)
Definition log {X} (lvl : level) (msg : str) (args : list str)
  : M (X * sys W) unit :=
  fun '(x, s) => (Ret tt, (x, Sys (world s) (trace s ++ [Log lvl msg args]))).

Definition logging {X} (lvl : level) (msg : string) (args : list str)
  : M (X * sys W) unit :=
  log lvl (pystr msg) args.

(** [name in ipdb.interfaces] *)
Definition ipdb_contains {X} (name : str) : M (X * sys W) bool :=
  i <- query (IpdbLookup name) (ipdb_interfaces name) ;;
  ret (bool_decide (is_Some i)).

(** [ipdb.interfaces[name]] *)
Definition ipdb_getitem {X} (name : str) : M (X * sys W) Iface :=
  i <- query (IpdbLookup name) (ipdb_interfaces name) ;;
  match i with
  | Some i => ret i
  | None => raise (KeyError name)
  end.

(** ** class User *)

Definition User__get_compose_cmd (args : list str)
  : M (User * sys W) (list str) :=
  u <- self ;;
  let command := compose_cmd u args in
  log DEBUG (join (pystr " ") command) [] ;;
  ret command.

Definition User_is_running : M (User * sys W) bool :=
  cmd <- User__get_compose_cmd [pystr "top"] ;;
  out <- call (CheckOutput cmd) (check_output cmd) ;;
  match utf8_decode out with
  | None => raise UnicodeDecodeError
  | Some text => ret (0 <? length (strip text))%nat
  end.

Definition User_stop_compose (timeout : Z) : M (User * sys W) unit :=
  u <- self ;;
  cmd <- User__get_compose_cmd
           [pystr "down"; pystr "--timeout"; str_of_int timeout] ;;
  call (CheckCall cmd) (check_call cmd) ;;
  logging DEBUG "cluster down for %s's %s challenge"
    [name u; ref_name (challenge u)].

Definition User__get_bridge_iface : M (User * sys W) Iface :=
  u <- self ;;
  let names := [id u ++ pystr "_default"] in
  nets <- call (NetworksList names) (networks_list names) ;;
  match nets with
  | [] => raise (ValueError (pystr "No default network up for " ++ id u))
  | net0 :: _ => ipdb_getitem (pystr "br-" ++ slice_to (net_id net0) 12)
  end.

Definition User_ensure_vlan_bridged : M (User * sys W) unit :=
  u <- self ;;
  let vlan_ifname := User__vlan_ifname u in
  present <- ipdb_contains vlan_ifname ;;
  vlan_if <-
    (if negb present then
       logging INFO "creating vlan %s" [vlan_ifname] ;;
       let link := ref_host_veth (challenge u) in
       call (IpdbCreateVlan vlan_ifname link (vlan u))
            (ipdb_create_vlan vlan_ifname link (vlan u))
     else ipdb_getitem vlan_ifname) ;;
  vlan_if <- call (IfaceUp vlan_if) (iface_up vlan_if) ;;
  bridge_if <- User__get_bridge_iface ;;
  when negb (bool_decide (master vlan_if = Some (index bridge_if))) then
    (logging INFO "adding vlan %s to bridge %s"
       [vlan_ifname; ifname bridge_if] ;;
     for_each (ipaddr bridge_if) (fun '(addr, mask) =>
       call (IfaceDelIp bridge_if addr mask)
            (iface_del_ip bridge_if addr mask)) ;;
     call (IfaceAddPort bridge_if vlan_if) (iface_add_port bridge_if vlan_if)).

Definition User_ensure_vlan_gone : M (User * sys W) unit :=
  u <- self ;;
  let vlan_ifname := User__vlan_ifname u in
  present <- ipdb_contains vlan_ifname ;;
  when present then
    (logging INFO "removing vlan %s" [vlan_ifname] ;;
     vlan_if <- ipdb_getitem vlan_ifname ;;
     call (IfaceRemove vlan_if) (iface_remove vlan_if)).

Definition User_add_connection (address : str) (port : Z)
  : M (User * sys W) unit :=
  u <- self ;;
  (when (size (connections u) =? 0)%nat then
     (logging INFO
        "first connection of user %s to challenge %s, booting cluster..."
        [name u; ref_name (challenge u)] ;;
      running <- User_is_running ;;
      (when running then
         (logging WARNING
            "cluster for user %s's %s challenge is already running, stopping it now..."
            [name u; ref_name (challenge u)] ;;
          User_stop_compose 3)) ;;
      cmd <- User__get_compose_cmd [pystr "up"; pystr "--detach"] ;;
      call (CheckCall cmd) (check_call cmd) ;;
      logging DEBUG "cluster up for %s's %s challenge"
        [name u; ref_name (challenge u)] ;;
      User_ensure_vlan_bridged)) ;;
  let address := User__fmt_address address port in
  logging INFO "user %s connected from %s to challenge %s"
    [name u; address; ref_name (challenge u)] ;;
  modify_self (fun u => set_connections u ({[address]} ∪ connections u)).

Definition User_remove_connection (address : str) (port : Z)
  : M (User * sys W) unit :=
  u <- self ;;
  let address := User__fmt_address address port in
  if negb (bool_decide (address ∈ connections u)) then
    logging WARNING
      "attempting to remove non-existent connection of user %s to challenge %s (from %s)"
      [name u; ref_name (challenge u); address]
  else
    logging INFO "user %s (at %s) disconnected from challenge %s "
      [name u; address; ref_name (challenge u)] ;;
    modify_self (fun u => set_connections u (connections u ∖ {[address]})) ;;
    u <- self ;;
    when (size (connections u) =? 0)%nat then
      (running <- User_is_running ;;
       if negb running then
         logging WARNING
           "last connection of user %s to challenge %s removed, but the cluster isn't running"
           [name u; ref_name (challenge u)]
       else
         logging INFO
           "no connections remain of user %s to challenge %s, shutting cluster down..."
           [name u; ref_name (challenge u)] ;;
         User_stop_compose 10 ;;
         User_ensure_vlan_gone).

Definition User_stop : M (User * sys W) unit := User_stop_compose 2.

(** ** class Challenge *)

Definition Challenge_init {X} (name host_veth : str) (compose_files : list str)
  : M (X * sys W) Challenge :=
  veth <- ipdb_getitem host_veth ;;
  veth <- call (IfaceUp veth) (iface_up veth) ;;
  ret {| c_host_veth := veth; c_name := name;
         c_compose_files := compose_files; vlans := ∅; users := ∅ |}.

(** The [while not vlan] loop of [_next_vlan], run for at most [fuel]
    iterations; [vlan] is the loop variable ([None] or an [int], falsy when
    it is [None] or [0]). *)
Fixpoint Challenge__next_vlan_loop (fuel : nat) (vlan : option Z)
  : M (Challenge * sys W) Z :=
  let iterate : M (Challenge * sys W) Z :=
    match fuel with
    | O => diverge
    | S fuel' =>
        p_vlan <- draw (randint 10 4000) ;;
        c <- self ;;
        if negb (bool_decide (p_vlan ∈ vlans c)) then
          modify_self (fun c => set_vlans c ({[p_vlan]} ∪ vlans c)) ;;
          Challenge__next_vlan_loop fuel' (Some p_vlan)
        else Challenge__next_vlan_loop fuel' vlan
    end in
  match vlan with
  | None => iterate
  | Some v => if v =? 0 then iterate else ret v
  end.

Definition Challenge__next_vlan (fuel : nat) : M (Challenge * sys W) Z :=
  Challenge__next_vlan_loop fuel None.

Definition Challenge__ensure_user_exists (fuel : nat) (cn : str)
  : M (Challenge * sys W) unit :=
  c <- self ;;
  when negb (dict_contains cn (users c)) then
    (c <- self ;;
     when negb (dict_contains cn (users c)) then
       (vlan <- Challenge__next_vlan fuel ;;
        c <- self ;;
        user <- of_outcome (User_init cn vlan (Challenge_ref c)) ;;
        modify_self (fun c => set_users c (<[cn := user]> (users c))))).

(** [self.users[cn]] as the state of a [User] method. *)
Definition on_user {A} (cn : str) (m : M (User * sys W) A)
  : M (Challenge * sys W) A :=
  zoom (fun c => users c !! cn)
       (fun c u => set_users c (<[cn := u]> (users c)))
       (KeyError cn) m.

Definition Challenge_connect_user (fuel : nat) (cn address : str) (port : Z)
  : M (Challenge * sys W) Z :=
  Challenge__ensure_user_exists fuel cn ;;
  on_user cn
    (User_add_connection address port ;;
     user <- self ;;
     ret (vlan user)).

Definition Challenge_disconnect_user (fuel : nat) (cn address : str) (port : Z)
  : M (Challenge * sys W) unit :=
  Challenge__ensure_user_exists fuel cn ;;
  on_user cn (User_remove_connection address port).

(** [for u in self.users] runs over the keys of the dict, which are [str]. *)
Definition Challenge_disconnect_all : M (Challenge * sys W) unit :=
  c <- self ;;
  for_each (map fst (map_to_list (users c))) (fun u : str =>
    str_getattr "stop").

(** ** class Manager *)

Definition Manager_init : Manager := {| challenges := ∅ |}.

Definition Manager_register_challenge (name host_veth : str)
    (compose_files : list str) : M (Manager * sys W) unit :=
  m <- self ;;
  if dict_contains name (challenges m) then
    logging WARNING "challenge %s is already registered" [name]
  else
    logging INFO "registering challenge %s" [name] ;;
    c <- Challenge_init name host_veth compose_files ;;
    modify_self (fun m => {| challenges := <[name := c]> (challenges m) |}).

(** [self.challenges[name]] as the state of a [Challenge] method. *)
Definition on_challenge {A} (name : str) (m : M (Challenge * sys W) A)
  : M (Manager * sys W) A :=
  zoom (fun m => challenges m !! name)
       (fun m c => {| challenges := <[name := c]> (challenges m) |})
       (KeyError name) m.

Definition Manager_connect_user (fuel : nat) (name cn address : str)
    (port : Z) : M (Manager * sys W) Z :=
  on_challenge name (Challenge_connect_user fuel cn address port).

Definition Manager_disconnect_user (fuel : nat) (name cn address : str)
    (port : Z) : M (Manager * sys W) unit :=
  on_challenge name (Challenge_disconnect_user fuel cn address port).

Definition Manager__stop : M (Manager * sys W) unit :=
  m <- self ;;
  for_each (map fst (map_to_list (challenges m))) (fun name =>
    on_challenge name Challenge_disconnect_all) ;;
  call (Close DockerClient) (close DockerClient) ;;
  call (Close Ipdb) (close Ipdb) ;;
  call (Close HostNs) (close HostNs).

End Methods.

(* ===================================================================== *)
(** * A simulated host                                                    *)
(* ===================================================================== *)

(** A small executable host, used to run the manager on concrete inputs:
    the random generator replays a script, docker-compose keeps a set of
    running projects, and netlink keeps a list of interfaces. *)
Module Sim.

Record world : Type := World {
  draws : list Z;
  running : gset str;
  ifaces : list Iface
}.

Definition clamp (a b d : Z) : Z := Z.max a (Z.min b d).

Definition sim_randint (a b : Z) (w : world) : Z * world :=
  match draws w with
  | d :: r => (clamp a b d, World r (running w) (ifaces w))
  | [] => (a, w)
  end.

Definition hex_digit (n : N) : N :=
  (if n <? 10 then 48 + n else 87 + n)%N.
Definition net_id_of (project : str) : str :=
  flat_map (fun c => [hex_digit ((c / 16) mod 16); hex_digit (c mod 16)])
    project.
Definition bridge_name (project : str) : str :=
  pystr "br-" ++ take 12 (net_id_of project).

Definition has_arg (a : string) (cmd : list str) : bool :=
  bool_decide (pystr a ∈ cmd).
Definition project_of (cmd : list str) : str := default [] (cmd !! 2%nat).

Definition find_iface (n : str) (l : list Iface) : option Iface :=
  List.find (fun i => bool_decide (ifname i = n)) l.
Definition drop_iface (n : str) (l : list Iface) : list Iface :=
  List.filter (fun i => negb (bool_decide (ifname i = n))) l.
Definition next_index (l : list Iface) : Z :=
  1 + foldr (fun i m => Z.max (index i) m) 0 l.
Definition update_iface (n : str) (f : Iface -> Iface) (l : list Iface)
  : list Iface :=
  map (fun i => if bool_decide (ifname i = n) then f i else i) l.

Definition sim_check_call (cmd : list str) (w : world) : outcome unit * world :=
  let p := project_of cmd in
  if has_arg "up" cmd then
    let br := {| ifname := bridge_name p; index := next_index (ifaces w);
                 master := None; ipaddr := [(pystr "172.18.0.1", 16)] |} in
    (Ret tt, World (draws w) ({[p]} ∪ running w)
               (drop_iface (bridge_name p) (ifaces w) ++ [br]))
  else if has_arg "down" cmd then
    (Ret tt, World (draws w) (running w ∖ {[p]})
               (drop_iface (bridge_name p) (ifaces w)))
  else (Raise (HostError "CalledProcessError"), w).

Definition sim_check_output (cmd : list str) (w : world)
  : outcome bytes * world :=
  if bool_decide (project_of cmd ∈ running w)
  then (Ret (default [] (utf8_encode (pystr "web_1  UID  PID  CMD"))), w)
  else (Ret [], w).

Definition sim_create_vlan (n : str) (link : Iface) (vid : Z) (w : world)
  : outcome Iface * world :=
  let i := {| ifname := n; index := next_index (ifaces w); master := None;
              ipaddr := [] |} in
  (Ret i, World (draws w) (running w) (ifaces w ++ [i])).

Definition sim_del_ip (i : Iface) (addr : str) (mask : Z) (w : world)
  : outcome unit * world :=
  (Ret tt, World (draws w) (running w)
     (update_iface (ifname i)
        (fun j => {| ifname := ifname j; index := index j; master := master j;
                     ipaddr := List.filter
                       (fun a => negb (bool_decide (a = (addr, mask))))
                       (ipaddr j) |})
        (ifaces w))).

Definition sim_add_port (bridge port : Iface) (w : world)
  : outcome unit * world :=
  (Ret tt, World (draws w) (running w)
     (update_iface (ifname port)
        (fun j => {| ifname := ifname j; index := index j;
                     master := Some (index bridge); ipaddr := ipaddr j |})
        (ifaces w))).

Definition sim_remove (i : Iface) (w : world) : outcome unit * world :=
  (Ret tt, World (draws w) (running w) (drop_iface (ifname i) (ifaces w))).

Definition sim_networks_list (names : list str) (w : world)
  : outcome (list Network) * world :=
  (Ret (map (fun p => {| net_id := net_id_of p |})
          (List.filter (fun p => bool_decide (p ++ pystr "_default" ∈ names))
             (elements (running w)))), w).

Lemma sim_randint_range a b w : a <= b -> a <= (sim_randint a b w).1 <= b.
Proof.
  intros Hab. unfold sim_randint, clamp.
  destruct (draws w); simpl; lia.
Qed.

#[global] Instance host : Host world := {|
  randint := sim_randint;
  randint_range := sim_randint_range;
  check_call := sim_check_call;
  check_output := sim_check_output;
  ipdb_interfaces := fun n w => find_iface n (ifaces w);
  ipdb_create_vlan := sim_create_vlan;
  iface_up := fun i w => (Ret i, w);
  iface_del_ip := sim_del_ip;
  iface_add_port := sim_add_port;
  iface_remove := sim_remove;
  networks_list := sim_networks_list;
  close := fun _ w => (Ret tt, w)
|}.

(** A host with one VETH device, [host0], and a script for the generator. *)
Definition host0 : Iface :=
  {| ifname := pystr "host0"; index := 1; master := None; ipaddr := [] |}.
Definition boot (script : list Z) : sys world :=
  Sys (World script ∅ [host0]) [].

End Sim.

(* ===================================================================== *)
(** * Notions the properties are stated with                              *)
(* ===================================================================== *)

(** The two states of a user's lifecycle, read off its connection set. *)
Inductive user_state : Type := IDLE | LIVE.

Definition User_state (u : User) : user_state :=
  if decide (connections u = ∅) then IDLE else LIVE.

(** Allocator consistency: the VLAN of every user is in [vlans], and every
    id in [vlans] is the VLAN of some user. *)
Definition allocator_consistent (c : Challenge) : Prop :=
  (forall k u, users c !! k = Some u -> vlan u ∈ vlans c)
  /\ (forall v, v ∈ vlans c -> exists k u, users c !! k = Some u /\ vlan u = v).

(** The length in bytes of the UTF-8 encoding of a name. *)
Definition byte_length (s : str) : option nat := length <$> utf8_encode s.

Definition is_ascii (s : str) : Prop := Forall (fun c => (c < 128)%N) s.

Section Draws.
Context {W : Type} `{Host W}.

(** The world after [k] draws of [random.randint(10, 4000)], and the draw
    made then. *)
Fixpoint after_draws (k : nat) (w : W) : W :=
  match k with
  | O => w
  | S k' => after_draws k' (randint 10 4000 w).2
  end.

Definition nth_draw (k : nat) (w : W) : Z :=
  (randint 10 4000 (after_draws k w)).1.

End Draws.

(** Every id of the range [10, 4000]. *)
Definition all_vlans : gset Z := list_to_set (seqZ 10 3991).

(** The suffix [".<vlan>"] of a sub-interface name has 3 to 5 characters, all
    ASCII (a check that is run on every id of the range). *)
Definition suffix_ok (v : Z) : bool :=
  let suffix := pystr "." ++ str_of_int v in
  (3 <=? length suffix)%nat && (length suffix <=? 5)%nat
  && forallb (fun c => (c <? 128)%N) suffix.

(** A method of [User] that may touch the host, but not the fields of
    [self]. *)
Definition keeps_self (W : Type) {A} (m : M (User * sys W) A) : Prop :=
  forall u s, (m (u, s)).2.1 = u.

(* ===================================================================== *)
(** * Concrete managers, on the simulated host                            *)
(* ===================================================================== *)

Definition example_ref : ChallengeRef :=
  {| ref_name := pystr "example"; ref_host_veth := Sim.host0;
     ref_compose_files := [pystr "ex.yml"] |}.

(** The user of common name [MFRGG] (base32 of [abc]), connected once. *)
Definition alice : User :=
  {| connections := {[pystr "10.8.0.2:49152"]};
     cn := pystr "MFRGG"; name := pystr "abc"; vlan := 1234;
     challenge := example_ref; id := pystr "mfrgg_example" |}.

(** The challenge [example] as registered, without and with [alice]. *)
Definition empty_challenge : Challenge :=
  {| c_host_veth := Sim.host0; c_name := pystr "example";
     c_compose_files := [pystr "ex.yml"]; vlans := ∅; users := ∅ |}.

Definition example_challenge : Challenge :=
  {| c_host_veth := Sim.host0; c_name := pystr "example";
     c_compose_files := [pystr "ex.yml"]; vlans := {[1234]};
     users := {[pystr "MFRGG" := alice]} |}.

Definition fresh_manager : Manager :=
  {| challenges := {[pystr "example" := empty_challenge]} |}.

Definition example_manager : Manager :=
  {| challenges := {[pystr "example" := example_challenge]} |}.

(** The host while the cluster of [alice] is up and her VLAN is bridged. *)
Definition live_world : Sim.world :=
  Sim.World [] {[pystr "mfrgg_example"]}
    [Sim.host0;
     {| ifname := pystr "br-6d667267675f"; index := 2; master := None;
        ipaddr := [] |};
     {| ifname := pystr "host0.1234"; index := 3; master := Some 2;
        ipaddr := [] |}].

(** A challenge whose allocator has given out 3990 of the 3991 ids: all but
    4000.  ([_next_vlan] reads nothing of a challenge but [vlans].) *)
Definition crowded : Challenge :=
  set_vlans empty_challenge (list_to_set (seqZ 10 3990)).

(** The same challenge once 4000 is given out too. *)
Definition exhausted : Challenge :=
  set_vlans crowded ({[4000]} ∪ vlans crowded).

(** A VETH name of seven two-byte characters (U+00E9): 14 bytes. *)
Definition accented_veth : str := replicate 7 233%N.

(** The first connection of [MFRGG] to [example]. *)
Definition first_connect : outcome Z * (Manager * sys Sim.world) :=
  Manager_connect_user 1 (pystr "example") (pystr "MFRGG") (pystr "10.8.0.2")
    49152 (fresh_manager, Sim.boot [1234]).

(** A connection with a common name that is not base32. *)
Definition undecodable_connect : outcome Z * (Manager * sys Sim.world) :=
  Manager_connect_user 1 (pystr "example") (pystr "1") (pystr "10.8.0.2")
    49152 (example_manager, Sim.boot [77]).

(** A disconnection of a common name the challenge has not seen. *)
Definition unknown_disconnect : outcome unit * (Manager * sys Sim.world) :=
  Manager_disconnect_user 1 (pystr "example") (pystr "MFRGGZDF")
    (pystr "1.2.3.4") 9 (example_manager, Sim.boot [77]).

(* ===================================================================== *)
(** * Properties                                                          *)
(* ===================================================================== *)

(** ** The monad *)

Lemma bind_Ret {S A B} (m : M S A) (k : A -> M S B) s a s1 :
  m s = (Ret a, s1) -> bind m k s = k a s1.
Proof. unfold bind. intros ->. reflexivity. Qed.

Lemma bind_Raise {S A B} (m : M S A) (k : A -> M S B) s e s1 :
  m s = (Raise e, s1) -> bind m k s = (Raise e, s1).
Proof. unfold bind. intros ->. reflexivity. Qed.

Lemma bind_Diverge {S A B} (m : M S A) (k : A -> M S B) s s1 :
  m s = (Diverge, s1) -> bind m k s = (Diverge, s1).
Proof. unfold bind. intros ->. reflexivity. Qed.

Lemma bind_Ret_inv {S A B} (m : M S A) (k : A -> M S B) s b s2 :
  bind m k s = (Ret b, s2) ->
  exists a s1, m s = (Ret a, s1) /\ k a s1 = (Ret b, s2).
Proof.
  unfold bind. destruct (m s) as [[a | e |] s1]; intros Hk; try discriminate.
  exists a, s1. split; [reflexivity | exact Hk].
Qed.

Lemma dict_contains_true {V} (k : str) (d : gmap str V) (v : V) :
  d !! k = Some v -> dict_contains k d = true.
Proof.
  intros Hk. unfold dict_contains. apply bool_decide_eq_true. eauto.
Qed.

Lemma dict_contains_false {V} (k : str) (d : gmap str V) :
  d !! k = None -> dict_contains k d = false.
Proof.
  intros Hk. unfold dict_contains. apply bool_decide_eq_false.
  rewrite Hk. intros [v Hv]. discriminate.
Qed.

Section Manager_properties.
Context {W : Type} `{Host W}.

(** ** Lookup of a challenge *)

Lemma on_challenge_unknown {A} (name : str) (body : M (Challenge * sys W) A) m s :
  challenges m !! name = None ->
  on_challenge name body (m, s) = (Raise (KeyError name), (m, s)).
Proof. intros Hn. unfold on_challenge, zoom. rewrite Hn. reflexivity. Qed.

(** C2 (as the code has it): [connect_user] and [disconnect_user] with a
    challenge name that is not registered raise the dict's [KeyError] for
    that name, and leave the manager and the host as they were. *)
Theorem unknown_challenge_raises_KeyError
    (fuel : nat) (name cn address : str) (port : Z)
    (m : Manager) (s : sys W) :
  challenges m !! name = None ->
  Manager_connect_user fuel name cn address port (m, s)
    = (Raise (KeyError name), (m, s))
  /\ Manager_disconnect_user fuel name cn address port (m, s)
    = (Raise (KeyError name), (m, s)).
Proof.
  intros Hn. split.
  - unfold Manager_connect_user. apply on_challenge_unknown, Hn.
  - unfold Manager_disconnect_user. apply on_challenge_unknown, Hn.
Qed.

(** ** Registration *)

(** C6: [register_challenge] with a name that is already registered returns
    [None], logs one warning and changes neither the challenges map nor the
    registered [Challenge]; the host is not touched. *)
Theorem register_challenge_duplicate_noop
    (name host_veth : str) (compose_files : list str)
    (m : Manager) (s : sys W) (c : Challenge) :
  challenges m !! name = Some c ->
  Manager_register_challenge name host_veth compose_files (m, s)
    = (Ret tt,
       (m, Sys (world s)
             (trace s ++ [Log WARNING
                            (pystr "challenge %s is already registered")
                            [name]]))).
Proof.
  intros Hc. unfold Manager_register_challenge, bind, self. simpl.
  rewrite (dict_contains_true _ _ _ Hc). reflexivity.
Qed.

(** ** Shutdown *)

Lemma for_each_raise_first {S X} (l : list X) (body : X -> M S unit) e s :
  l <> [] -> (forall x, body x s = (Raise e, s)) ->
  for_each l body s = (Raise e, s).
Proof.
  intros Hl Hb. destruct l as [| x r]; [congruence |].
  simpl. apply bind_Raise, Hb.
Qed.

Lemma map_to_list_keys_nonempty {V} (d : gmap str V) :
  d <> ∅ -> map fst (map_to_list d) <> [].
Proof.
  intros Hd Hl. apply Hd, map_to_list_empty_iff.
  destruct (map_to_list d); [reflexivity | discriminate].
Qed.

(** As soon as a challenge has a user, [disconnect_all] raises on the first
    key of [users]. *)
Lemma disconnect_all_some_user (c : Challenge) (s : sys W) :
  users c <> ∅ ->
  Challenge_disconnect_all (c, s)
    = (Raise (AttributeError "str" "stop"), (c, s)).
Proof.
  intros Hu. unfold Challenge_disconnect_all, bind, self. simpl.
  apply for_each_raise_first.
  - apply map_to_list_keys_nonempty, Hu.
  - intros x. reflexivity.
Qed.

End Manager_properties.

(** ** The VLAN allocator *)

Section Allocator.
Context {W : Type} `{Host W}.

Lemma after_draws_S (k : nat) (w : W) :
  after_draws (S k) w = (randint 10 4000 (after_draws k w)).2.
Proof.
  revert w. induction k as [| k IH]; intros w; [reflexivity |].
  change (after_draws (S (S k)) w)
    with (after_draws (S k) (randint 10 4000 w).2).
  rewrite IH. reflexivity.
Qed.

Lemma nth_draw_range (k : nat) (w : W) : 10 <= nth_draw k w <= 4000.
Proof. unfold nth_draw. apply randint_range. lia. Qed.

Lemma elem_of_all_vlans (v : Z) : v ∈ all_vlans <-> 10 <= v <= 4000.
Proof.
  unfold all_vlans. rewrite elem_of_list_to_set, elem_of_seqZ. lia.
Qed.

(** One iteration of the loop while [vlan] is still falsy. *)
Lemma next_vlan_loop_step (fuel : nat) (vlan : option Z) c (s : sys W) :
  vlan = None \/ vlan = Some 0 ->
  Challenge__next_vlan_loop (S fuel) vlan (c, s)
  = let p := (randint 10 4000 (world s)).1 in
    let s' := Sys (randint 10 4000 (world s)).2 (trace s) in
    if bool_decide (p ∈ vlans c)
    then Challenge__next_vlan_loop fuel vlan (c, s')
    else Challenge__next_vlan_loop fuel (Some p)
           (set_vlans c ({[p]} ∪ vlans c), s').
Proof.
  intros [-> | ->]; simpl; unfold bind, draw, self, modify_self; simpl;
    destruct (randint 10 4000 (world s)) as [p w'] eqn:Hr; simpl;
    destruct (bool_decide (p ∈ vlans c)); reflexivity.
Qed.

(** Draws that are in use are skipped, one iteration each. *)
Lemma next_vlan_loop_skip (k fuel : nat) (vlan : option Z) c (s : sys W) :
  vlan = None \/ vlan = Some 0 ->
  (forall j, (j < k)%nat -> nth_draw j (world s) ∈ vlans c) ->
  Challenge__next_vlan_loop (k + fuel) vlan (c, s)
  = Challenge__next_vlan_loop fuel vlan
      (c, Sys (after_draws k (world s)) (trace s)).
Proof.
  intros Hv. revert s. induction k as [| k IH]; intros s Hused.
  - destruct s; reflexivity.
  - change (S k + fuel)%nat with (S (k + fuel)).
    rewrite next_vlan_loop_step by exact Hv. simpl.
    rewrite bool_decide_eq_true_2 by (apply (Hused O); lia).
    rewrite IH; [reflexivity |].
    intros j Hj. apply (Hused (S j)). lia.
Qed.

(** The allocator returns the first draw that is not in use, and records
    it. *)
Lemma next_vlan_returns (k fuel : nat) c (s : sys W) :
  (forall j, (j < k)%nat -> nth_draw j (world s) ∈ vlans c) ->
  nth_draw k (world s) ∉ vlans c ->
  (k < fuel)%nat ->
  Challenge__next_vlan fuel (c, s)
  = (Ret (nth_draw k (world s)),
     (set_vlans c ({[nth_draw k (world s)]} ∪ vlans c),
      Sys (after_draws (S k) (world s)) (trace s))).
Proof.
  intros Hused Hfree Hfuel. unfold Challenge__next_vlan.
  rewrite after_draws_S.
  replace fuel with (k + S (fuel - S k))%nat by lia.
  rewrite next_vlan_loop_skip by (auto).
  rewrite next_vlan_loop_step by auto. simpl.
  fold (nth_draw k (world s)).
  rewrite bool_decide_eq_false_2 by exact Hfree.
  pose proof (nth_draw_range k (world s)) as Hr.
  destruct (fuel - S k)%nat; simpl;
    destruct (Z.eqb_spec (nth_draw k (world s)) 0); try lia; reflexivity.
Qed.

(** When every id of the range is in use, no number of iterations makes the
    allocator return or raise. *)
Lemma next_vlan_diverges (fuel : nat) c (s : sys W) :
  all_vlans ⊆ vlans c ->
  Challenge__next_vlan fuel (c, s)
  = (Diverge, (c, Sys (after_draws fuel (world s)) (trace s))).
Proof.
  intros Hfull. unfold Challenge__next_vlan.
  replace fuel with (fuel + 0)%nat at 1 by lia.
  rewrite next_vlan_loop_skip; [reflexivity | auto |].
  intros j _. apply Hfull, elem_of_all_vlans, nth_draw_range.
Qed.

(** If the allocator returns, what it returns is a fresh id of the range, and
    only [vlans] and the random generator have changed. *)
Lemma next_vlan_loop_Ret_inv (fuel : nat) (vlan : option Z) c (s : sys W)
    v c' s' :
  vlan = None \/ vlan = Some 0 ->
  Challenge__next_vlan_loop fuel vlan (c, s) = (Ret v, (c', s')) ->
  10 <= v <= 4000 /\ (v ∉ vlans c) /\ c' = set_vlans c ({[v]} ∪ vlans c)
  /\ trace s' = trace s.
Proof.
  revert s. induction fuel as [| fuel IH]; intros s Hv Hrun.
  - destruct Hv as [-> | ->]; discriminate.
  - rewrite next_vlan_loop_step in Hrun by exact Hv. simpl in Hrun.
    pose proof (randint_range 10 4000 (world s)) as Hr.
    destruct (randint 10 4000 (world s)) as [p w'] eqn:Hp. simpl in *.
    destruct (bool_decide (p ∈ vlans c)) eqn:Hin.
    + apply IH in Hrun; [exact Hrun | exact Hv].
    + apply bool_decide_eq_false in Hin.
      assert (Hp0 : (p =? 0) = false) by (apply Z.eqb_neq; lia).
      destruct fuel; simpl in Hrun; rewrite Hp0 in Hrun;
        inversion Hrun; subst; (split; [lia | auto]).
Qed.

End Allocator.

#[global] Arguments pystr : simpl never.
#[global] Arguments join : simpl never.
#[global] Arguments str_of_int : simpl never.
#[global] Arguments compose_cmd : simpl never.
#[global] Arguments User__fmt_address : simpl never.
#[global] Arguments User__vlan_ifname : simpl never.
#[global] Arguments utf8_decode : simpl never.
#[global] Arguments strip : simpl never.
#[global] Arguments User_is_running : simpl never.
#[global] Arguments User_stop_compose : simpl never.
#[global] Arguments User_ensure_vlan_gone : simpl never.
#[global] Arguments User_ensure_vlan_bridged : simpl never.
#[global] Arguments User__get_compose_cmd : simpl never.
#[global] Arguments Challenge__next_vlan : simpl never.
#[global] Arguments User_add_connection : simpl never.
#[global] Arguments User_remove_connection : simpl never.
#[global] Arguments Challenge__ensure_user_exists : simpl never.

(** ** Methods of [User] that leave the object as it is *)

Section User_properties.
Context {W : Type} `{Host W}.

Lemma keeps_ret {A} (a : A) : keeps_self W (ret a).
Proof. intros u s. reflexivity. Qed.

Lemma keeps_raise {A} e : keeps_self W (A:=A) (raise e).
Proof. intros u s. reflexivity. Qed.

Lemma keeps_get : keeps_self W self.
Proof. intros u s. reflexivity. Qed.

Lemma keeps_bind {A B} (m : M (User * sys W) A) (k : A -> M (User * sys W) B) :
  keeps_self W m -> (forall a, keeps_self W (k a)) -> keeps_self W (bind m k).
Proof.
  intros Hm Hk u s. unfold bind. specialize (Hm u s).
  destruct (m (u, s)) as [[a | e |] [u1 s1]]; simpl in *; subst;
    [apply Hk | reflexivity | reflexivity].
Qed.

Lemma keeps_call {A} ev (op : W -> outcome A * W) : keeps_self W (call ev op).
Proof. intros u s. unfold call. destruct (op (world s)). reflexivity. Qed.

Lemma keeps_query {A} ev (f : W -> A) : keeps_self W (query ev f).
Proof. intros u s. reflexivity. Qed.

Lemma keeps_log lvl msg args : keeps_self W (log lvl msg args).
Proof. intros u s. reflexivity. Qed.

Lemma keeps_logging lvl msg args : keeps_self W (logging lvl msg args).
Proof. intros u s. reflexivity. Qed.

Lemma keeps_for_each {X} (l : list X) (body : X -> M (User * sys W) unit) :
  (forall x, keeps_self W (body x)) -> keeps_self W (for_each l body).
Proof.
  intros Hb. induction l as [| x r IH]; simpl.
  - apply keeps_ret.
  - apply keeps_bind; [apply Hb | intros _; exact IH].
Qed.

Create HintDb keeps.
#[local] Hint Resolve keeps_ret keeps_raise keeps_get keeps_call keeps_query
  keeps_log keeps_logging : keeps.

Ltac keeps :=
  repeat first
    [ progress auto with keeps
    | apply keeps_bind; [| intros ?]
    | apply keeps_for_each; intros [? ?]
    | match goal with
      | |- keeps_self _ (if ?b then _ else _) => destruct b
      | |- keeps_self _ (match ?x with _ => _ end) => destruct x
      end ].

Lemma keeps_ipdb_contains n : keeps_self W (ipdb_contains n).
Proof. unfold ipdb_contains. keeps. Qed.

Lemma keeps_ipdb_getitem n : keeps_self W (ipdb_getitem n).
Proof. unfold ipdb_getitem. keeps. Qed.

#[local] Hint Resolve keeps_ipdb_contains keeps_ipdb_getitem : keeps.

Lemma keeps__get_compose_cmd args : keeps_self W (User__get_compose_cmd args).
Proof. unfold User__get_compose_cmd. keeps. Qed.

#[local] Hint Resolve keeps__get_compose_cmd : keeps.

Lemma keeps_is_running : keeps_self W User_is_running.
Proof. unfold User_is_running. keeps. Qed.

Lemma keeps_stop_compose t : keeps_self W (User_stop_compose t).
Proof. unfold User_stop_compose. keeps. Qed.

Lemma keeps__get_bridge_iface : keeps_self W User__get_bridge_iface.
Proof. unfold User__get_bridge_iface. keeps. Qed.

#[local] Hint Resolve keeps_is_running keeps_stop_compose
  keeps__get_bridge_iface : keeps.

Lemma keeps_ensure_vlan_bridged : keeps_self W User_ensure_vlan_bridged.
Proof. unfold User_ensure_vlan_bridged. keeps. Qed.

Lemma keeps_ensure_vlan_gone : keeps_self W User_ensure_vlan_gone.
Proof. unfold User_ensure_vlan_gone. keeps. Qed.

#[local] Hint Resolve keeps_ensure_vlan_bridged keeps_ensure_vlan_gone : keeps.

(** ** What the methods of [User] do to the host *)

Lemma is_running_spec (u : User) (s : sys W) out w1 text :
  check_output (compose_cmd u [pystr "top"]) (world s) = (Ret out, w1) ->
  utf8_decode out = Some text ->
  User_is_running (u, s)
  = (Ret (0 <? length (strip text))%nat,
     (u, Sys w1 (trace s
                 ++ [Log DEBUG (join (pystr " ") (compose_cmd u [pystr "top"])) [];
                     CheckOutput (compose_cmd u [pystr "top"])]))).
Proof.
  intros Hout Htext.
  unfold User_is_running, User__get_compose_cmd, bind, self, log, call, ret.
  simpl. rewrite Hout. simpl. rewrite Htext. simpl.
  rewrite <- !app_assoc. reflexivity.
Qed.

Lemma stop_compose_spec (u : User) (s : sys W) (timeout : Z) w2 :
  let cmd := compose_cmd u
               [pystr "down"; pystr "--timeout"; str_of_int timeout] in
  check_call cmd (world s) = (Ret tt, w2) ->
  User_stop_compose timeout (u, s)
  = (Ret tt,
     (u, Sys w2 (trace s
                 ++ [Log DEBUG (join (pystr " ") cmd) [];
                     CheckCall cmd;
                     Log DEBUG (pystr "cluster down for %s's %s challenge")
                       [name u; ref_name (challenge u)]]))).
Proof.
  intros cmd Hcall.
  unfold User_stop_compose, User__get_compose_cmd, bind, self, log, logging,
    log, call, ret.
  simpl. fold cmd. rewrite Hcall. simpl. rewrite <- !app_assoc. reflexivity.
Qed.




(** ** Adding and removing connections *)

(** With a connection already recorded, [add_connection] only logs and
    records the address. *)
Lemma add_connection_live (address : str) (port : Z) (u : User) (s : sys W) :
  connections u <> ∅ ->
  User_add_connection address port (u, s)
  = (Ret tt,
     (set_connections u ({[User__fmt_address address port]} ∪ connections u),
      Sys (world s)
        (trace s
         ++ [Log INFO (pystr "user %s connected from %s to challenge %s")
               [name u; User__fmt_address address port;
                ref_name (challenge u)]]))).
Proof.
  intros Hlive. unfold User_add_connection.
  unfold bind at 1. simpl.
  replace (size (connections u) =? 0)%nat with false; [reflexivity |].
  symmetry. apply Nat.eqb_neq. intros Hsize.
  apply Hlive, leibniz_equiv, size_empty_iff, Hsize.
Qed.

(** However the boot sequence goes, an [add_connection] that returns has
    recorded the address and changed nothing else of the user. *)
Lemma add_connection_Ret_inv (address : str) (port : Z) (u : User)
    (s : sys W) x u' s' :
  User_add_connection address port (u, s) = (Ret x, (u', s')) ->
  u' = set_connections u ({[User__fmt_address address port]} ∪ connections u).
Proof.
  unfold User_add_connection. unfold bind at 1. simpl. intros Hrun.
  apply bind_Ret_inv in Hrun as (a & [u1 s1] & Hboot & Hrest).
  assert (Hkeep : u1 = u).
  { change u1 with ((Ret a, (u1, s1)).2.1). rewrite <- Hboot.
    revert u s Hboot Hrest. intros u s _ _.
    assert (Hk : keeps_self W
      (when (size (connections u) =? 0)%nat then
         (logging INFO
            "first connection of user %s to challenge %s, booting cluster..."
            [name u; ref_name (challenge u)] ;;
          running <- User_is_running ;;
          (when running then
             (logging WARNING
                "cluster for user %s's %s challenge is already running, stopping it now..."
                [name u; ref_name (challenge u)] ;;
              User_stop_compose 3)) ;;
          cmd <- User__get_compose_cmd [pystr "up"; pystr "--detach"] ;;
          call (CheckCall cmd) (check_call cmd) ;;
          logging DEBUG "cluster up for %s's %s challenge"
            [name u; ref_name (challenge u)] ;;
          User_ensure_vlan_bridged))) by keeps.
    apply Hk. }
  subst u1. unfold bind, logging, log, modify_self in Hrest. simpl in Hrest.
  inversion Hrest. reflexivity.
Qed.

(** An address that is not recorded: [remove_connection] logs a warning and
    returns. *)
Lemma remove_connection_unknown (address : str) (port : Z) (u : User)
    (s : sys W) :
  User__fmt_address address port ∉ connections u ->
  User_remove_connection address port (u, s)
  = (Ret tt,
     (u, Sys (world s)
           (trace s
            ++ [Log WARNING
                  (pystr "attempting to remove non-existent connection of user %s to challenge %s (from %s)")
                  [name u; ref_name (challenge u);
                   User__fmt_address address port]]))).
Proof.
  intros Hnot. unfold User_remove_connection. unfold bind at 1. simpl.
  rewrite bool_decide_eq_false_2 by exact Hnot. reflexivity.
Qed.

End User_properties.

(** ** Get-or-create of a user *)

Lemma set_users_id (c : Challenge) : set_users c (users c) = c.
Proof. destruct c; reflexivity. Qed.

Lemma User_init_Ret_inv (cn : str) (v : Z) (r : ChallengeRef) (u : User) :
  User_init cn v r = Ret u ->
  connections u = ∅ /\ vlan u = v /\ challenge u = r
  /\ User_decode_cn cn = Ret (name u).
Proof.
  unfold User_init. destruct (User_decode_cn cn) as [nm | e |];
    intros Hu; inversion Hu; subst; simpl; auto.
Qed.

Lemma User_init_Raise (cn : str) (v : Z) (r : ChallengeRef) (e : exn) :
  User_decode_cn cn = Raise e -> User_init cn v r = Raise e.
Proof. unfold User_init. intros ->. reflexivity. Qed.

Section Challenge_properties.
Context {W : Type} `{Host W}.

Lemma next_vlan_Ret_inv (fuel : nat) (c : Challenge) (s : sys W) v c' s' :
  Challenge__next_vlan fuel (c, s) = (Ret v, (c', s')) ->
  10 <= v <= 4000 /\ (v ∉ vlans c) /\ c' = set_vlans c ({[v]} ∪ vlans c)
  /\ trace s' = trace s.
Proof.
  unfold Challenge__next_vlan. apply next_vlan_loop_Ret_inv. auto.
Qed.

Lemma ensure_user_exists_known (fuel : nat) (cn : str) (c : Challenge)
    (s : sys W) (u : User) :
  users c !! cn = Some u ->
  Challenge__ensure_user_exists fuel cn (c, s) = (Ret tt, (c, s)).
Proof.
  intros Hu. unfold Challenge__ensure_user_exists. unfold bind at 1. simpl.
  rewrite (dict_contains_true _ _ _ Hu). reflexivity.
Qed.

Lemma ensure_user_exists_new (fuel : nat) (cn : str) (c : Challenge)
    (s : sys W) v c1 s1 :
  users c !! cn = None ->
  Challenge__next_vlan fuel (c, s) = (Ret v, (c1, s1)) ->
  Challenge__ensure_user_exists fuel cn (c, s)
  = match User_init cn v (Challenge_ref c) with
    | Ret u => (Ret tt, (set_users c1 (<[cn := u]> (users c)), s1))
    | Raise e => (Raise e, (c1, s1))
    | Diverge => (Diverge, (c1, s1))
    end.
Proof.
  intros Hnew Hvlan.
  destruct (next_vlan_Ret_inv _ _ _ _ _ _ Hvlan) as (_ & _ & Hc1 & _).
  unfold Challenge__ensure_user_exists. unfold bind at 1. simpl.
  rewrite (dict_contains_false _ _ Hnew). simpl.
  unfold bind at 1. simpl.
  rewrite (dict_contains_false _ _ Hnew). simpl.
  rewrite (bind_Ret _ _ _ _ _ Hvlan).
  unfold bind at 1. simpl. subst c1.
  change (Challenge_ref (set_vlans c ({[v]} ∪ vlans c)))
    with (Challenge_ref c).
  unfold bind, of_outcome, modify_self.
  destruct (User_init cn v (Challenge_ref c)); reflexivity.
Qed.

(** The new vlan is allocated before [User.__init__] runs. *)
Lemma ensure_user_exists_stuck (fuel : nat) (cn : str) (c : Challenge)
    (s : sys W) c1 s1 :
  users c !! cn = None ->
  Challenge__next_vlan fuel (c, s) = (Diverge, (c1, s1)) ->
  Challenge__ensure_user_exists fuel cn (c, s) = (Diverge, (c1, s1)).
Proof.
  intros Hnew Hvlan.
  unfold Challenge__ensure_user_exists. unfold bind at 1. simpl.
  rewrite (dict_contains_false _ _ Hnew). simpl.
  unfold bind at 1. simpl.
  rewrite (dict_contains_false _ _ Hnew). simpl.
  apply bind_Diverge, Hvlan.
Qed.

Lemma ensure_user_exists_Ret_inv (fuel : nat) (cn : str) (c : Challenge)
    (s : sys W) x c' s' :
  Challenge__ensure_user_exists fuel cn (c, s) = (Ret x, (c', s')) ->
  (exists u, users c !! cn = Some u /\ c' = c /\ s' = s)
  \/ (users c !! cn = None
      /\ exists v u, User_init cn v (Challenge_ref c) = Ret u
         /\ c' = set_users (set_vlans c ({[v]} ∪ vlans c))
                   (<[cn := u]> (users c))).
Proof.
  intros Hrun. destruct (users c !! cn) as [u |] eqn:Hu.
  - left. exists u. rewrite (ensure_user_exists_known _ _ _ _ _ Hu) in Hrun.
    inversion Hrun. auto.
  - right. split; [reflexivity |].
    destruct (Challenge__next_vlan fuel (c, s)) as [[v | e |] [c1 s1]] eqn:Hv.
    + rewrite (ensure_user_exists_new _ _ _ _ _ _ _ Hu Hv) in Hrun.
      destruct (next_vlan_Ret_inv _ _ _ _ _ _ Hv) as (_ & _ & Hc1 & _).
      destruct (User_init cn v (Challenge_ref c)) as [u | e |] eqn:Hinit;
        inversion Hrun; subst. eauto.
    + exfalso. revert Hrun.
      unfold Challenge__ensure_user_exists. unfold bind at 1. simpl.
      rewrite (dict_contains_false _ _ Hu). simpl.
      unfold bind at 1. simpl.
      rewrite (dict_contains_false _ _ Hu). simpl.
      rewrite (bind_Raise _ _ _ _ _ Hv). discriminate.
    + rewrite (ensure_user_exists_stuck _ _ _ _ _ _ Hu Hv) in Hrun.
      discriminate.
Qed.

Lemma on_user_known {A} (cn : str) (body : M (User * sys W) A)
    (c : Challenge) (s : sys W) (u : User) r u' s' :
  users c !! cn = Some u ->
  body (u, s) = (r, (u', s')) ->
  on_user cn body (c, s) = (r, (set_users c (<[cn := u']> (users c)), s')).
Proof.
  intros Hu Hbody. unfold on_user, zoom. rewrite Hu, Hbody. reflexivity.
Qed.

Lemma on_user_unknown {A} (cn : str) (body : M (User * sys W) A)
    (c : Challenge) (s : sys W) :
  users c !! cn = None ->
  on_user cn body (c, s) = (Raise (KeyError cn), (c, s)).
Proof. intros Hu. unfold on_user, zoom. rewrite Hu. reflexivity. Qed.

Lemma on_challenge_known {A} (name : str) (body : M (Challenge * sys W) A)
    (m : Manager) (s : sys W) (c : Challenge) r c' s' :
  challenges m !! name = Some c ->
  body (c, s) = (r, (c', s')) ->
  on_challenge name body (m, s)
  = (r, ({| challenges := <[name := c']> (challenges m) |}, s')).
Proof.
  intros Hc Hbody. unfold on_challenge, zoom. rewrite Hc, Hbody. reflexivity.
Qed.

Lemma set_connections_id (u : User) : set_connections u (connections u) = u.
Proof. destruct u; reflexivity. Qed.

Lemma challenges_insert_id (m : Manager) (name : str) (c : Challenge) :
  challenges m !! name = Some c ->
  {| challenges := <[name := c]> (challenges m) |} = m.
Proof. intros Hc. destruct m as [cs]. simpl in *. f_equal. apply insert_id, Hc. Qed.

Lemma users_insert_id (c : Challenge) (cn : str) (u : User) :
  users c !! cn = Some u -> set_users c (<[cn := u]> (users c)) = c.
Proof. intros Hu. rewrite insert_id by exact Hu. apply set_users_id. Qed.

(** C10: when [cn] has no user yet and its decoding raises, get-or-create
    fails after the allocator has returned: [connect_user] and
    [disconnect_user] raise the decoding error, the users map is as it was,
    and the id the allocator returned stays in [vlans], where it is the VLAN
    of no user: a consistent allocator is no longer consistent. *)
Theorem failed_user_construction_leaks_vlan
    (fuel : nat) (cn address : str) (port : Z) (c : Challenge) (s : sys W)
    (e : exn) (v : Z) (c1 : Challenge) (s1 : sys W) :
  users c !! cn = None ->
  User_decode_cn cn = Raise e ->
  Challenge__next_vlan fuel (c, s) = (Ret v, (c1, s1)) ->
  Challenge_connect_user fuel cn address port (c, s) = (Raise e, (c1, s1))
  /\ Challenge_disconnect_user fuel cn address port (c, s)
     = (Raise e, (c1, s1))
  /\ users c1 = users c
  /\ vlans c1 = {[v]} ∪ vlans c
  /\ (v ∉ vlans c)
  /\ (allocator_consistent c ->
      (forall k u, users c1 !! k = Some u -> vlan u <> v)
      /\ ~ allocator_consistent c1).
Proof.
  intros Hnew Hdec Hvlan.
  assert (Hens : Challenge__ensure_user_exists fuel cn (c, s)
                 = (Raise e, (c1, s1))).
  { rewrite (ensure_user_exists_new _ _ _ _ _ _ _ Hnew Hvlan).
    rewrite (User_init_Raise _ _ _ _ Hdec). reflexivity. }
  destruct (next_vlan_Ret_inv _ _ _ _ _ _ Hvlan) as (_ & Hfresh & Hc1 & _).
  assert (Hothers : allocator_consistent c ->
            forall k u, users c1 !! k = Some u -> vlan u <> v).
  { intros [Hsub _] k u Hu Hv. subst c1. simpl in Hu.
    apply Hfresh. rewrite <- Hv. apply (Hsub k u Hu). }
  split; [| split; [| split; [| split; [| split; [| intros Hcons; split]]]]].
  - unfold Challenge_connect_user. apply bind_Raise, Hens.
  - unfold Challenge_disconnect_user. apply bind_Raise, Hens.
  - subst c1. reflexivity.
  - subst c1. reflexivity.
  - exact Hfresh.
  - apply Hothers, Hcons.
  - intros [_ Hsup].
    destruct (Hsup v) as (k & u & Hu & Hv).
    + subst c1. simpl. apply elem_of_union_l, elem_of_singleton. reflexivity.
    + exact (Hothers Hcons k u Hu Hv).
Qed.

(** C3 (as the code has it): a common name whose decoding raises makes
    [User.__init__] raise, whatever the VLAN and the challenge: there is no
    fall-back name.  For a [cn] that has no user yet, [connect_user] is
    aborted with the decoding error once the allocator has returned; no user
    is stored and nothing is logged. *)
Theorem decode_failure_aborts_connect
    (fuel : nat) (name cn address : str) (port : Z) (m : Manager)
    (s : sys W) (c : Challenge) (e : exn) (v : Z) (c1 : Challenge)
    (s1 : sys W) :
  challenges m !! name = Some c ->
  users c !! cn = None ->
  User_decode_cn cn = Raise e ->
  Challenge__next_vlan fuel (c, s) = (Ret v, (c1, s1)) ->
  (forall vlan r, User_init cn vlan r = Raise e)
  /\ Manager_connect_user fuel name cn address port (m, s)
     = (Raise e, ({| challenges := <[name := c1]> (challenges m) |}, s1))
  /\ users c1 !! cn = None
  /\ trace s1 = trace s.
Proof.
  intros Hc Hnew Hdec Hvlan.
  destruct (next_vlan_Ret_inv _ _ _ _ _ _ Hvlan) as (_ & _ & Hc1 & Htr).
  split; [| split; [| split]].
  - intros vlan r. apply User_init_Raise, Hdec.
  - unfold Manager_connect_user. apply (on_challenge_known _ _ _ _ _ _ _ _ Hc).
    unfold Challenge_connect_user. apply bind_Raise.
    rewrite (ensure_user_exists_new _ _ _ _ _ _ _ Hnew Hvlan).
    rewrite (User_init_Raise _ _ _ _ Hdec). reflexivity.
  - subst c1. exact Hnew.
  - exact Htr.
Qed.

(** C4 (as the code has it): on a registered challenge, [disconnect_user]
    for an address that is not recorded for [cn]
    - when [cn] has a user: returns [None], logs one warning and changes
      nothing;
    - when [cn] has no user yet, decodes, and the allocator returns: first
      creates the user, with the id the allocator returned, and then returns
      [None] with the same warning. *)
Theorem disconnect_user_unrecorded
    (fuel : nat) (chal cn address : str) (port : Z) (m : Manager)
    (s : sys W) (c : Challenge) :
  let addr := User__fmt_address address port in
  let warning (u : User) :=
    Log WARNING
      (pystr "attempting to remove non-existent connection of user %s to challenge %s (from %s)")
      [name u; ref_name (challenge u); addr] in
  challenges m !! chal = Some c ->
  (forall u, users c !! cn = Some u -> addr ∉ connections u) ->
  match users c !! cn with
  | Some u =>
      Manager_disconnect_user fuel chal cn address port (m, s)
      = (Ret tt, (m, Sys (world s) (trace s ++ [warning u])))
  | None =>
      forall nm v c1 s1,
        User_decode_cn cn = Ret nm ->
        Challenge__next_vlan fuel (c, s) = (Ret v, (c1, s1)) ->
        exists u,
          User_init cn v (Challenge_ref c) = Ret u
          /\ Manager_disconnect_user fuel chal cn address port (m, s)
             = (Ret tt,
                ({| challenges :=
                      <[chal := set_users c1 (<[cn := u]> (users c))]>
                        (challenges m) |},
                 Sys (world s1) (trace s1 ++ [warning u])))
          /\ vlans c1 = {[v]} ∪ vlans c
  end.
Proof.
  intros addr warning Hc Hnot.
  destruct (users c !! cn) as [u |] eqn:Hu.
  - unfold Manager_disconnect_user.
    rewrite <- (challenges_insert_id m chal c Hc) at 2.
    apply (on_challenge_known _ _ _ _ _ _ _ _ Hc).
    unfold Challenge_disconnect_user.
    rewrite (bind_Ret _ _ _ _ _ (ensure_user_exists_known fuel cn c s u Hu)).
    rewrite <- (users_insert_id c cn u Hu) at 2.
    apply (on_user_known _ _ _ _ _ _ _ _ Hu).
    apply remove_connection_unknown, Hnot. reflexivity.
  - intros nm v c1 s1 Hdec Hvlan.
    destruct (next_vlan_Ret_inv _ _ _ _ _ _ Hvlan) as (_ & _ & Hc1 & _).
    assert (Hinit : exists u, User_init cn v (Challenge_ref c) = Ret u).
    { unfold User_init. rewrite Hdec. eauto. }
    destruct Hinit as [u Hinit]. exists u.
    split; [exact Hinit |]. split; [| subst c1; reflexivity].
    unfold Manager_disconnect_user.
    apply (on_challenge_known _ _ _ _ _ _ _ _ Hc).
    unfold Challenge_disconnect_user.
    erewrite bind_Ret; cycle 1.
    { rewrite (ensure_user_exists_new _ _ _ _ _ _ _ Hu Hvlan), Hinit.
      reflexivity. }
    assert (Hlook : users (set_users c1 (<[cn := u]> (users c))) !! cn = Some u)
      by apply lookup_insert_eq.
    assert (Hfree : addr ∉ connections u).
    { destruct (User_init_Ret_inv _ _ _ _ Hinit) as (Hempty & _).
      rewrite Hempty. apply not_elem_of_empty. }
    rewrite (on_user_known _ _ _ _ _ _ _ _ Hlook
               (remove_connection_unknown address port u s1 Hfree)).
    simpl. rewrite insert_insert_eq. reflexivity.
Qed.

End Challenge_properties.

(** ** The name of the VLAN sub-interface *)

Lemma suffix_shape (v : Z) :
  10 <= v <= 4000 ->
  (3 <= length (pystr "." ++ str_of_int v) <= 5)%nat
  /\ is_ascii (pystr "." ++ str_of_int v).
Proof.
  intros Hv.
  assert (Hall : forallb suffix_ok (seqZ 10 3991) = true)
    by (vm_compute; reflexivity).
  rewrite forallb_forall in Hall.
  assert (Hok : suffix_ok v = true).
  { apply Hall, list_elem_of_In, elem_of_seqZ. lia. }
  unfold suffix_ok in Hok.
  apply andb_prop in Hok as [Hok Hascii]. apply andb_prop in Hok as [Hlo Hhi].
  apply Nat.leb_le in Hlo, Hhi. split; [lia |].
  unfold is_ascii. apply Forall_forall. intros c Hc.
  rewrite forallb_forall in Hascii. apply N.ltb_lt, Hascii, list_elem_of_In, Hc.
Qed.

Lemma utf8_encode_ascii (s : str) :
  is_ascii s -> exists b, utf8_encode s = Some b /\ length b = length s.
Proof.
  induction 1 as [| c r Hc Hr (b & Hb & Hlen)]; simpl.
  - exists []. auto.
  - unfold utf8_encode_cp. apply N.ltb_lt in Hc. rewrite Hc, Hb.
    eexists. split; [reflexivity |]. simpl. rewrite Hlen. reflexivity.
Qed.

(** C7 (as the code has it): for every VETH name and every VLAN id in
    [10, 4000], the sub-interface name is the VETH name cut to its first
    15 - len(".<vlan>") characters, followed by ".<vlan>"; it has at most 15
    characters, and at most 15 bytes when the VETH name is ASCII. *)
Theorem vlan_ifname_at_most_15 (host_ifname : str) (vlan : Z) :
  10 <= vlan <= 4000 ->
  let suffix := pystr "." ++ str_of_int vlan in
  vlan_ifname host_ifname vlan
    = take (15 - length suffix) host_ifname ++ suffix
  /\ (length (vlan_ifname host_ifname vlan) <= 15)%nat
  /\ (is_ascii host_ifname ->
      exists n, byte_length (vlan_ifname host_ifname vlan) = Some n
                /\ (n <= 15)%nat).
Proof.
  intros Hv suffix.
  destruct (suffix_shape vlan Hv) as (Hlen & Hascii). fold suffix in Hlen, Hascii.
  assert (Hname : vlan_ifname host_ifname vlan
                  = take (15 - length suffix) host_ifname ++ suffix).
  { unfold vlan_ifname, slice_to. fold suffix.
    destruct (Z.leb_spec 0 (15 - Z.of_nat (length suffix))); [| lia].
    do 2 f_equal. lia. }
  assert (Hchars : (length (vlan_ifname host_ifname vlan) <= 15)%nat).
  { rewrite Hname, length_app, length_take. lia. }
  split; [exact Hname |]. split; [exact Hchars |].
  intros Hhost.
  destruct (utf8_encode_ascii (vlan_ifname host_ifname vlan)) as (b & Hb & Hbl).
  { rewrite Hname. apply Forall_app. split; [| exact Hascii].
    apply Forall_take, Hhost. }
  exists (length b). unfold byte_length. rewrite Hb. split; [reflexivity | lia].
Qed.

(** ** The allocator, as the claim is amended *)

(** C1 (as the code has it): [_next_vlan] returns the first draw of
    [randint(10, 4000)] that is not in use, after adding it to [vlans], as
    soon as the loop is given more iterations than it takes to reach that
    draw; when every id of [10, 4000] is in use it neither returns nor
    raises, however many iterations it is given. *)
Theorem next_vlan_first_unused_draw_or_never
    {W : Type} `{Host W} (c : Challenge) (s : sys W) :
  (forall k fuel : nat,
     (forall j, (j < k)%nat -> nth_draw j (world s) ∈ vlans c) ->
     nth_draw k (world s) ∉ vlans c ->
     (k < fuel)%nat ->
     10 <= nth_draw k (world s) <= 4000
     /\ Challenge__next_vlan fuel (c, s)
        = (Ret (nth_draw k (world s)),
           (set_vlans c ({[nth_draw k (world s)]} ∪ vlans c),
            Sys (after_draws (S k) (world s)) (trace s))))
  /\ (all_vlans ⊆ vlans c ->
      forall fuel : nat,
        Challenge__next_vlan fuel (c, s)
        = (Diverge, (c, Sys (after_draws fuel (world s)) (trace s)))).
Proof.
  split.
  - intros k fuel Hused Hfree Hfuel. split.
    + apply nth_draw_range.
    + apply next_vlan_returns; assumption.
  - intros Hfull fuel. apply next_vlan_diverges, Hfull.
Qed.

(** ** Shutdown of the manager *)

Section Shutdown.
Context {W : Type} `{Host W}.

Lemma disconnect_all_no_users (c : Challenge) (s : sys W) :
  users c = ∅ -> Challenge_disconnect_all (c, s) = (Ret tt, (c, s)).
Proof.
  intros Hu. unfold Challenge_disconnect_all, bind, self. simpl.
  rewrite Hu, map_to_list_empty. reflexivity.
Qed.

Lemma for_each_raise_some {S X} (l : list X) (body : X -> M S unit) e s :
  (forall x, x ∈ l -> body x s = (Ret tt, s) \/ body x s = (Raise e, s)) ->
  (exists x, x ∈ l /\ body x s = (Raise e, s)) ->
  for_each l body s = (Raise e, s).
Proof.
  induction l as [| x r IH]; intros Hall (y & Hy & Hraise).
  - inversion Hy.
  - simpl. destruct (Hall x) as [Hx | Hx]; [left |..].
    + rewrite (bind_Ret _ _ _ _ _ Hx). apply IH.
      * intros z Hz. apply Hall. right. exact Hz.
      * apply elem_of_cons in Hy as [-> | Hy]; [congruence | eauto].
    + apply bind_Raise, Hx.
Qed.

Lemma Manager_stop_some_user (m : Manager) (s : sys W) (chal : str)
    (c : Challenge) :
  challenges m !! chal = Some c ->
  users c <> ∅ ->
  Manager__stop (m, s) = (Raise (AttributeError "str" "stop"), (m, s)).
Proof.
  intros Hc Hu. unfold Manager__stop. unfold bind at 1. simpl.
  apply bind_Raise. apply for_each_raise_some.
  - intros k Hk. apply list_elem_of_fmap in Hk as ([k' c'] & -> & Hk).
    apply elem_of_map_to_list in Hk. simpl.
    destruct (decide (users c' = ∅)) as [He | Hne].
    + left. rewrite <- (challenges_insert_id m k' c' Hk) at 2.
      apply (on_challenge_known _ _ _ _ _ _ _ _ Hk).
      apply disconnect_all_no_users, He.
    + right. rewrite <- (challenges_insert_id m k' c' Hk) at 2.
      apply (on_challenge_known _ _ _ _ _ _ _ _ Hk).
      apply disconnect_all_some_user, Hne.
  - exists chal. split.
    + apply list_elem_of_fmap. exists (chal, c). split; [reflexivity |].
      apply elem_of_map_to_list, Hc.
    + rewrite <- (challenges_insert_id m chal c Hc) at 2.
      apply (on_challenge_known _ _ _ _ _ _ _ _ Hc).
      apply disconnect_all_some_user, Hu.
Qed.

(** C9 (what the code does): [disconnect_all] runs over the keys of [users],
    which are [str]: as soon as the challenge has a user it raises
    [AttributeError] for [stop], before any [User.stop] is called and any
    compose command is run; [Manager._stop] ends with that error, the host
    untouched and the handles open. *)
Theorem disconnect_all_raises_on_keys (m : Manager) (s : sys W) (chal : str)
    (c : Challenge) :
  challenges m !! chal = Some c ->
  users c <> ∅ ->
  Challenge_disconnect_all (c, s)
    = (Raise (AttributeError "str" "stop"), (c, s))
  /\ Manager__stop (m, s) = (Raise (AttributeError "str" "stop"), (m, s)).
Proof.
  intros Hc Hu. split.
  - apply disconnect_all_some_user, Hu.
  - apply (Manager_stop_some_user m s chal c Hc Hu).
Qed.

End Shutdown.

(* ===================================================================== *)
(** * The manager on concrete inputs                                      *)
(* ===================================================================== *)

Lemma exhausted_full : all_vlans ⊆ vlans exhausted.
Proof.
  intros v Hv. apply elem_of_all_vlans in Hv.
  change (vlans exhausted)
    with ({[4000]} ∪ (list_to_set (seqZ 10 3990) : gset Z)).
  apply elem_of_union. rewrite elem_of_singleton, elem_of_list_to_set,
    elem_of_seqZ. lia.
Qed.

Lemma crowded_4000_free : 4000 ∉ vlans crowded.
Proof.
  change (vlans crowded) with (list_to_set (seqZ 10 3990) : gset Z).
  rewrite elem_of_list_to_set, elem_of_seqZ. lia.
Qed.

(** Against C1: the allocator with 3990 ids in use gives out the last one,
    4000, when it is drawn; from then on no number of iterations makes [_next_vlan] return
    or raise: there is no [ExhaustionError], and no bound on the retries. *)
Lemma allocator_exhausted_never_raises :
  Challenge__next_vlan 1 (crowded, Sim.boot [4000])
    = (Ret 4000, (exhausted, Sim.boot []))
  /\ ~ (exists (fuel : nat) (r : outcome Z) st,
          Challenge__next_vlan fuel (exhausted, Sim.boot []) = (r, st)
          /\ r <> Diverge).
Proof.
  split.
  - assert (Hdraw : nth_draw 0 (world (Sim.boot [4000])) = 4000)
      by reflexivity.
    rewrite (next_vlan_returns 0 1 crowded (Sim.boot [4000])).
    + rewrite Hdraw. reflexivity.
    + intros j Hj. lia.
    + rewrite Hdraw. exact crowded_4000_free.
    + lia.
  - intros (fuel & r & st & Hrun & Hr).
    rewrite (next_vlan_diverges fuel exhausted _ exhausted_full) in Hrun.
    inversion Hrun. congruence.
Qed.

(** Against C2: [connect_user] for a challenge that is not registered raises
    [KeyError], not an [UnknownChallengeError]. *)
Lemma unknown_challenge_is_KeyError :
  Manager_connect_user 1 (pystr "nope") (pystr "MFRGG") (pystr "10.8.0.2")
    49152 (example_manager, Sim.boot [])
  = (Raise (KeyError (pystr "nope")), (example_manager, Sim.boot []))
  /\ exn_class (KeyError (pystr "nope")) <> "UnknownChallengeError"%string.
Proof.
  split.
  - apply on_challenge_unknown. vm_compute. reflexivity.
  - simpl. discriminate.
Qed.

(** Against C3: a common name that is not base32 aborts [connect_user] with
    [binascii.Error]: nothing is logged, and no user is stored. *)
Lemma undecodable_cn_aborts_connect :
  undecodable_connect.1 = Raise BinasciiError
  /\ forallb (fun e => negb (is_warning e)) (trace undecodable_connect.2.2)
     = true
  /\ (challenges undecodable_connect.2.1 !! pystr "example"
        ≫= fun c => users c !! pystr "1") = None.
Proof. vm_compute. auto. Qed.

(** Against C4: [disconnect_user] for a common name the challenge has not
    seen returns [None], but not without a change of state: a user is created for it and
    a VLAN id is allocated. *)
Lemma unknown_disconnect_changes_state :
  unknown_disconnect.1 = Ret tt
  /\ (vlans <$> challenges example_manager !! pystr "example")
     = Some {[1234]}
  /\ (vlans <$> challenges unknown_disconnect.2.1 !! pystr "example")
     = Some {[77; 1234]}
  /\ (challenges example_manager !! pystr "example"
        ≫= fun c => vlan <$> users c !! pystr "MFRGGZDF") = None
  /\ (challenges unknown_disconnect.2.1 !! pystr "example"
        ≫= fun c => vlan <$> users c !! pystr "MFRGGZDF") = Some 77.
Proof. vm_compute. auto 6. Qed.

(** The scenario of an unknown disconnect with the common name [ZZZZ]: its
    base32 decoding, the bytes CE 73, is not UTF-8, so the call raises, and
    the id drawn for the user stays allocated. *)
Lemma unknown_disconnect_ZZZZ :
  let r := Manager_disconnect_user 1 (pystr "example") (pystr "ZZZZ")
             (pystr "1.2.3.4") 9 (example_manager, Sim.boot [77]) in
  r.1 = Raise UnicodeDecodeError
  /\ (vlans <$> challenges r.2.1 !! pystr "example") = Some {[77; 1234]}.
Proof. vm_compute. auto. Qed.

(** Against C7: a VETH name of 14 bytes whose sub-interface name for VLAN
    4000 takes 19 bytes. *)
Lemma vlan_ifname_over_15_bytes :
  byte_length accented_veth = Some 14%nat
  /\ byte_length (vlan_ifname accented_veth 4000) = Some 19%nat
  /\ ~ (19 <= 15)%nat.
Proof. split; [| split]; [vm_compute; reflexivity .. | lia]. Qed.

(** ** The theorems at concrete inputs *)

Lemma next_vlan_first_unused_draw_or_never_witness :
  (10 <= 4000 <= 4000
   /\ Challenge__next_vlan 1 (crowded, Sim.boot [4000])
      = (Ret 4000, (exhausted, Sim.boot [])))
  /\ Challenge__next_vlan 5 (exhausted, Sim.boot [])
     = (Diverge, (exhausted, Sim.boot [])).
Proof.
  split.
  - assert (Hnone : forall j, (j < 0)%nat ->
              nth_draw j (world (Sim.boot [4000])) ∈ vlans crowded)
      by (intros j Hj; lia).
    exact (proj1 (next_vlan_first_unused_draw_or_never crowded
                    (Sim.boot [4000])) 0%nat 1%nat Hnone crowded_4000_free
             (Nat.lt_0_succ 0)).
  - exact (proj2 (next_vlan_first_unused_draw_or_never exhausted
                    (Sim.boot [])) exhausted_full 5%nat).
Defined.

Lemma unknown_challenge_raises_KeyError_witness :
  challenges example_manager !! pystr "nope" = None
  /\ Manager_connect_user 1 (pystr "nope") (pystr "MFRGG") (pystr "10.8.0.2")
       49152 (example_manager, Sim.boot [])
     = (Raise (KeyError (pystr "nope")), (example_manager, Sim.boot []))
  /\ Manager_disconnect_user 1 (pystr "nope") (pystr "MFRGG")
       (pystr "10.8.0.2") 49152 (example_manager, Sim.boot [])
     = (Raise (KeyError (pystr "nope")), (example_manager, Sim.boot [])).
Proof.
  split; [vm_compute; reflexivity |].
  apply unknown_challenge_raises_KeyError. vm_compute. reflexivity.
Defined.

Lemma decode_failure_aborts_connect_witness :
  User_decode_cn (pystr "1") = Raise BinasciiError
  /\ undecodable_connect
     = (Raise BinasciiError,
        ({| challenges :=
              <[pystr "example" := set_vlans example_challenge {[77; 1234]}]>
                (challenges example_manager) |},
         Sim.boot [])).
Proof.
  split; [vm_compute; reflexivity |].
  apply (decode_failure_aborts_connect 1 (pystr "example") (pystr "1")
           (pystr "10.8.0.2") 49152 example_manager (Sim.boot [77])
           example_challenge BinasciiError 77
           (set_vlans example_challenge {[77; 1234]}) (Sim.boot []));
    vm_compute; reflexivity.
Defined.

Lemma disconnect_user_unrecorded_witness :
  (pystr "9.9.9.9:9" ∉ connections alice)
  /\ Manager_disconnect_user 1 (pystr "example") (pystr "MFRGG")
       (pystr "9.9.9.9") 9 (example_manager, Sim.boot [])
     = (Ret tt,
        (example_manager,
         Sys (world (Sim.boot []))
           [Log WARNING
              (pystr "attempting to remove non-existent connection of user %s to challenge %s (from %s)")
              [pystr "abc"; pystr "example"; pystr "9.9.9.9:9"]])).
Proof.
  assert (Hfree : pystr "9.9.9.9:9" ∉ connections alice).
  { change (connections alice) with ({[pystr "10.8.0.2:49152"]} : gset str).
    intros Hin. apply elem_of_singleton in Hin. vm_compute in Hin.
    discriminate. }
  split; [exact Hfree |].
  apply (disconnect_user_unrecorded 1 (pystr "example") (pystr "MFRGG")
           (pystr "9.9.9.9") 9 example_manager (Sim.boot [])
           example_challenge).
  - vm_compute. reflexivity.
  - intros u Hu. vm_compute in Hu. inversion Hu. exact Hfree.
Defined.

Lemma register_challenge_duplicate_noop_witness :
  challenges example_manager !! pystr "example" = Some example_challenge
  /\ Manager_register_challenge (pystr "example") (pystr "host0")
       [pystr "ex.yml"] (example_manager, Sim.boot [])
     = (Ret tt,
        (example_manager,
         Sys (world (Sim.boot []))
           [Log WARNING (pystr "challenge %s is already registered")
              [pystr "example"]])).
Proof.
  split; [vm_compute; reflexivity |].
  apply (register_challenge_duplicate_noop (pystr "example") (pystr "host0")
           [pystr "ex.yml"] example_manager (Sim.boot []) example_challenge).
  vm_compute. reflexivity.
Defined.

Lemma vlan_ifname_at_most_15_witness :
  10 <= 4000 <= 4000
  /\ vlan_ifname (pystr "a-rather-long-veth-name") 4000
     = pystr "a-rather-l.4000"
  /\ (length (vlan_ifname (pystr "a-rather-long-veth-name") 4000) <= 15)%nat.
Proof.
  split; [lia |].
  destruct (vlan_ifname_at_most_15 (pystr "a-rather-long-veth-name") 4000)
    as (Hname & Hlen & _); [lia |].
  split; [rewrite Hname; vm_compute; reflexivity | exact Hlen].
Defined.


Lemma disconnect_all_raises_on_keys_witness :
  users example_challenge <> ∅
  /\ Challenge_disconnect_all (example_challenge, Sim.boot [])
     = (Raise (AttributeError "str" "stop"), (example_challenge, Sim.boot []))
  /\ Manager__stop (example_manager, Sim.boot [])
     = (Raise (AttributeError "str" "stop"), (example_manager, Sim.boot [])).
Proof.
  assert (Hsome : users example_challenge <> ∅).
  { intros Hempty.
    assert (Hlook : users example_challenge !! pystr "MFRGG" = None)
      by (rewrite Hempty; apply lookup_empty).
    vm_compute in Hlook. discriminate. }
  split; [exact Hsome |].
  apply (disconnect_all_raises_on_keys example_manager (Sim.boot [])
           (pystr "example") example_challenge); [| exact Hsome].
  vm_compute. reflexivity.
Defined.

Lemma failed_user_construction_leaks_vlan_witness :
  User_decode_cn (pystr "ZZZZ") = Raise UnicodeDecodeError
  /\ Challenge_connect_user 1 (pystr "ZZZZ") (pystr "1.2.3.4") 9
       (example_challenge, Sim.boot [77])
     = (Raise UnicodeDecodeError,
        (set_vlans example_challenge {[77; 1234]}, Sim.boot []))
  /\ Challenge_disconnect_user 1 (pystr "ZZZZ") (pystr "1.2.3.4") 9
       (example_challenge, Sim.boot [77])
     = (Raise UnicodeDecodeError,
        (set_vlans example_challenge {[77; 1234]}, Sim.boot [])).
Proof.
  assert (Hdec : User_decode_cn (pystr "ZZZZ") = Raise UnicodeDecodeError)
    by (vm_compute; reflexivity).
  split; [exact Hdec |].
  destruct (failed_user_construction_leaks_vlan 1 (pystr "ZZZZ")
              (pystr "1.2.3.4") 9 example_challenge (Sim.boot [77])
              UnicodeDecodeError 77
              (set_vlans example_challenge {[77; 1234]}) (Sim.boot []))
    as (Hconnect & Hdisconnect & _);
    [vm_compute; reflexivity | exact Hdec | vm_compute; reflexivity |].
  split; [exact Hconnect | exact Hdisconnect].
Defined.

(* ===================================================================== *)
(** * Further properties of the manager                                   *)
(* ===================================================================== *)

(** ** Decimal numbers inside names *)

Lemma pystr_cons (a : ascii) (s : string) :
  pystr (String a s) = N_of_ascii a :: pystr s.
Proof. reflexivity. Qed.

Lemma pystr_inj (s t : string) : pystr s = pystr t -> s = t.
Proof.
  revert t. induction s as [| a s IH]; intros [| b t] Heq;
    try discriminate; [reflexivity |].
  rewrite !pystr_cons in Heq. inversion Heq as [[Hab Hst]].
  f_equal; [| apply IH, Hst].
  rewrite <- (ascii_N_embedding a), <- (ascii_N_embedding b), Hab.
  reflexivity.
Qed.

Lemma to_int_not_nil (z : Z) :
  Z.to_int z <> Decimal.Pos Decimal.Nil /\ Z.to_int z <> Decimal.Neg Decimal.Nil.
Proof.
  split; intros Hz; pose proof (DecimalZ.of_to z) as Hback;
    rewrite Hz in Hback; simpl in Hback; subst z; discriminate.
Qed.

Lemma str_of_int_inj (a b : Z) : str_of_int a = str_of_int b -> a = b.
Proof.
  unfold str_of_int. intros Heq. apply pystr_inj in Heq.
  apply DecimalZ.to_int_inj.
  destruct (to_int_not_nil a) as [Ha1 Ha2], (to_int_not_nil b) as [Hb1 Hb2].
  pose proof (NilZero.isi _ Ha1 Ha2) as Ha.
  pose proof (NilZero.isi _ Hb1 Hb2) as Hb.
  rewrite Heq in Ha. rewrite Ha in Hb. inversion Hb. reflexivity.
Qed.

(** The characters of a decimal number: digits, and [-]. *)
Definition decimal_char (c : N) : Prop := (48 <= c <= 57)%N \/ c = 45%N.

Lemma string_of_uint_chars (d : Decimal.uint) :
  Forall decimal_char (pystr (NilEmpty.string_of_uint d)).
Proof.
  induction d; simpl;
    [constructor
    | rewrite pystr_cons; constructor;
      [left; vm_compute; split; discriminate | assumption] ..].
Qed.

Lemma zero_chars : Forall decimal_char (pystr "0").
Proof.
  rewrite pystr_cons. constructor; [| constructor].
  left. vm_compute. split; discriminate.
Qed.

Lemma str_of_int_chars (z : Z) : Forall decimal_char (str_of_int z).
Proof.
  unfold str_of_int, NilZero.string_of_int, NilZero.string_of_uint.
  destruct (Z.to_int z) as [d | d].
  - destruct d.
    + exact zero_chars.
    + apply (string_of_uint_chars (Decimal.D0 d)).
    + apply (string_of_uint_chars (Decimal.D1 d)).
    + apply (string_of_uint_chars (Decimal.D2 d)).
    + apply (string_of_uint_chars (Decimal.D3 d)).
    + apply (string_of_uint_chars (Decimal.D4 d)).
    + apply (string_of_uint_chars (Decimal.D5 d)).
    + apply (string_of_uint_chars (Decimal.D6 d)).
    + apply (string_of_uint_chars (Decimal.D7 d)).
    + apply (string_of_uint_chars (Decimal.D8 d)).
    + apply (string_of_uint_chars (Decimal.D9 d)).
  - rewrite pystr_cons. constructor; [right; reflexivity |].
    destruct d.
    + exact zero_chars.
    + apply (string_of_uint_chars (Decimal.D0 d)).
    + apply (string_of_uint_chars (Decimal.D1 d)).
    + apply (string_of_uint_chars (Decimal.D2 d)).
    + apply (string_of_uint_chars (Decimal.D3 d)).
    + apply (string_of_uint_chars (Decimal.D4 d)).
    + apply (string_of_uint_chars (Decimal.D5 d)).
    + apply (string_of_uint_chars (Decimal.D6 d)).
    + apply (string_of_uint_chars (Decimal.D7 d)).
    + apply (string_of_uint_chars (Decimal.D8 d)).
    + apply (string_of_uint_chars (Decimal.D9 d)).
Qed.

(** Two texts that end in a separator and a part without the separator are
    equal only if both parts are. *)
Lemma split_at_last_sep (sep : N) (a1 a2 d1 d2 : str) :
  sep ∉ d1 -> sep ∉ d2 ->
  a1 ++ sep :: d1 = a2 ++ sep :: d2 -> a1 = a2 /\ d1 = d2.
Proof.
  intros H1 H2. revert a2.
  induction a1 as [| x a1 IH]; intros [| y a2] Heq; simpl in Heq.
  - inversion Heq. auto.
  - injection Heq as Hy Hd. exfalso. apply H1. rewrite Hd.
    apply elem_of_app. right. left.
  - injection Heq as Hx Hd. exfalso. apply H2. rewrite <- Hd.
    apply elem_of_app. right. left.
  - inversion Heq as [[Hxy Hrest]]. destruct (IH a2 Hrest) as [-> ->]. auto.
Qed.

Lemma decimal_without (sep : N) (z : Z) :
  ~ decimal_char sep -> sep ∉ str_of_int z.
Proof.
  intros Hsep Hin. pose proof (str_of_int_chars z) as Hall.
  rewrite Forall_forall in Hall. apply Hsep, Hall, Hin.
Qed.

(** X1: the key of a connection, ["address:port"], determines the address and
    the port: two tunnels are one entry of [connections] only if both are
    equal. *)
Theorem fmt_address_inj (a1 a2 : str) (p1 p2 : Z) :
  User__fmt_address a1 p1 = User__fmt_address a2 p2 -> a1 = a2 /\ p1 = p2.
Proof.
  unfold User__fmt_address. change (pystr ":") with [58%N]. simpl.
  intros Heq. apply split_at_last_sep in Heq as [Ha Hp].
  - split; [exact Ha | apply str_of_int_inj, Hp].
  - apply decimal_without. intros [[? ?] | ?]; lia.
  - apply decimal_without. intros [[? ?] | ?]; lia.
Qed.

(** X2: whatever the VETH names, the names of the sub-interfaces of two VLAN
    ids are equal only if the ids are: cutting the VETH name never makes two
    VLANs of a challenge share an interface name. *)
Theorem vlan_ifname_inj (h1 h2 : str) (v1 v2 : Z) :
  vlan_ifname h1 v1 = vlan_ifname h2 v2 -> v1 = v2.
Proof.
  unfold vlan_ifname. change (pystr ".") with [46%N]. simpl.
  intros Heq. apply split_at_last_sep in Heq as [_ Hv].
  - apply str_of_int_inj, Hv.
  - apply decimal_without. intros [[? ?] | ?]; lia.
  - apply decimal_without. intros [[? ?] | ?]; lia.
Qed.

(** ** Common names *)

(** The characters of padded base32 text: [A]-[Z], [2]-[7] and [=]. *)
Definition b32_char (c : N) : Prop :=
  (65 <= c <= 90)%N \/ (50 <= c <= 55)%N \/ c = 61%N.

Definition b32_byte (b : byte) : Prop := b32_char (Byte.to_N b).

Lemma to_N_byte_of_N (n : N) : Byte.to_N (byte_of_N n) = (n mod 256)%N.
Proof.
  unfold byte_of_N. destruct (Byte.of_N (n mod 256)) as [b |] eqn:Hb.
  - apply Byte.to_of_N, Hb.
  - apply Byte.of_N_None_iff in Hb.
    pose proof (N.mod_upper_bound n 256). lia.
Qed.

Lemma b32rev_char (c : byte) (d : N) : b32rev c = Some d -> b32_byte c.
Proof.
  unfold b32rev, in_range, b32_byte, b32_char.
  destruct (65 <=? Byte.to_N c)%N eqn:H1, (Byte.to_N c <=? 90)%N eqn:H2;
    simpl; try (intros _; left; split; apply N.leb_le; assumption);
    destruct (50 <=? Byte.to_N c)%N eqn:H3, (Byte.to_N c <=? 55)%N eqn:H4;
    simpl; try discriminate;
    intros _; right; left; split; apply N.leb_le; assumption.
Qed.

Lemma quantum_acc_chars (q : bytes) (acc r : N) :
  quantum_acc q acc = Some r -> Forall b32_byte q.
Proof.
  revert acc. induction q as [| c q IH]; intros acc Hq; [constructor |].
  simpl in Hq. destruct (b32rev c) as [d |] eqn:Hc; [| discriminate].
  constructor; [apply (b32rev_char c d Hc) | apply (IH _ Hq)].
Qed.

Lemma b32_quanta_chars (qs : list bytes) (dec : bytes) (acc : N) r :
  b32_quanta qs dec acc = Some r -> Forall b32_byte (concat qs).
Proof.
  revert dec acc. induction qs as [| q qs IH]; intros dec acc Hqs;
    [constructor |].
  simpl in Hqs. destruct (quantum_acc q 0) as [acc' |] eqn:Hq; [| discriminate].
  simpl. apply Forall_app. split.
  - apply (quantum_acc_chars q 0%N acc' Hq).
  - apply (IH _ _ Hqs).
Qed.

Lemma quanta_concat (n : nat) (s : bytes) :
  (length s <= n)%nat -> concat (quanta n s) = s.
Proof.
  revert s. induction n as [| n IH]; intros s Hlen.
  - destruct s; [reflexivity | simpl in Hlen; lia].
  - destruct s as [| b s]; [reflexivity |].
    change (quanta (S n) (b :: s))
      with (take 8 (b :: s) :: quanta n (drop 8 (b :: s))).
    assert (Hd : (length (drop 8 (b :: s)) <= n)%nat)
      by (rewrite length_drop; simpl in *; lia).
    generalize dependent (b :: s). intros l _ Hd.
    rewrite concat_cons, IH by exact Hd. apply take_drop.
Qed.

Lemma lstrip_pad_spec (l : bytes) :
  exists k, l = replicate k "="%byte ++ lstrip_pad l.
Proof.
  induction l as [| a l (k & IH)]; [exists O; reflexivity |].
  destruct a; try (exists O; reflexivity).
  exists (S k). simpl. f_equal. exact IH.
Qed.

Lemma rev_replicate {A} (k : nat) (x : A) :
  rev (replicate k x) = replicate k x.
Proof.
  induction k as [| k IH]; [reflexivity |].
  simpl. rewrite IH. symmetry. apply replicate_cons_app.
Qed.

Lemma rstrip_pad_spec (s : bytes) :
  exists k, s = rstrip_pad s ++ replicate k "="%byte.
Proof.
  destruct (lstrip_pad_spec (rev s)) as (k & Hk). exists k.
  unfold rstrip_pad. set (t := lstrip_pad (rev s)) in *.
  apply (f_equal (@rev byte)) in Hk.
  rewrite rev_involutive, rev_app_distr, rev_replicate in Hk. exact Hk.
Qed.

Lemma b32decode_chars (s : bytes) (d : bytes) :
  b32decode s = Some d -> Forall b32_byte s.
Proof.
  unfold b32decode.
  destruct (negb (length s mod 8 =? 0)%nat); [discriminate |].
  destruct (b32_quanta (quanta (length (rstrip_pad s)) (rstrip_pad s)) [] 0)
    as [[decoded acc] |] eqn:Hq; [| discriminate].
  intros _. apply b32_quanta_chars in Hq.
  rewrite quanta_concat in Hq by lia.
  destruct (rstrip_pad_spec s) as (k & Hk). rewrite Hk.
  apply Forall_app. split; [exact Hq |].
  apply Forall_forall. intros b Hb. apply elem_of_replicate in Hb as [-> _].
  right. right. reflexivity.
Qed.

Lemma utf8_encode_cp_first (c : N) (b : bytes) :
  utf8_encode_cp c = Some b ->
  (c < 128)%N /\ b = [byte_of_N c]
  \/ exists b0 r, b = b0 :: r /\ (192 <= Byte.to_N b0)%N.
Proof.
  unfold utf8_encode_cp.
  destruct (N.ltb_spec c 128); [intros [= <-]; left; auto |].
  destruct (N.ltb_spec c 2048).
  { intros [= <-]. right. eexists _, _. split; [reflexivity |].
    rewrite to_N_byte_of_N.
    assert (c / 64 < 32)%N by (apply N.Div0.div_lt_upper_bound; lia).
    rewrite N.mod_small by lia. etransitivity; [| apply N.le_add_r]. lia. }
  destruct ((55296 <=? c) && (c <=? 57343))%N; [discriminate |].
  destruct (N.ltb_spec c 65536).
  { intros [= <-]. right. eexists _, _. split; [reflexivity |].
    rewrite to_N_byte_of_N.
    assert (c / 4096 < 16)%N by (apply N.Div0.div_lt_upper_bound; lia).
    rewrite N.mod_small by lia. etransitivity; [| apply N.le_add_r]. lia. }
  destruct (N.ltb_spec c 1114112); [| discriminate].
  intros [= <-]. right. eexists _, _. split; [reflexivity |].
  rewrite to_N_byte_of_N.
  assert (c / 262144 < 5)%N by (apply N.Div0.div_lt_upper_bound; lia).
  rewrite N.mod_small by lia. etransitivity; [| apply N.le_add_r]. lia.
Qed.

Lemma utf8_encode_b32_chars (s : str) (b : bytes) :
  utf8_encode s = Some b -> Forall b32_byte b -> Forall b32_char s.
Proof.
  revert b. induction s as [| c s IH]; intros b Henc Hb; [constructor |].
  simpl in Henc.
  destruct (utf8_encode_cp c) as [bc |] eqn:Hc; [| discriminate].
  destruct (utf8_encode s) as [bs |] eqn:Hs; [| discriminate].
  inversion Henc; subst b. apply Forall_app in Hb as [Hbc Hbs].
  constructor; [| apply (IH bs eq_refl Hbs)].
  destruct (utf8_encode_cp_first c bc Hc) as [[Hlt ->] | (b0 & r & -> & Hb0)].
  - inversion Hbc as [| ? ? Hc0 _]; subst. unfold b32_byte in Hc0.
    rewrite to_N_byte_of_N, N.mod_small in Hc0 by lia. exact Hc0.
  - inversion Hbc as [| ? ? Hc0 _]; subst. unfold b32_byte, b32_char in Hc0.
    lia.
Qed.

Lemma decode_cn_chars (cn nm : str) :
  User_decode_cn cn = Ret nm -> Forall b32_char cn.
Proof.
  unfold User_decode_cn.
  set (padded := if negb (length cn mod 8 =? 0)%nat
                 then cn ++ str_repeat (pystr "=") (8 - length cn mod 8)
                 else cn).
  destruct (utf8_encode padded) as [b |] eqn:Hb; [| discriminate].
  destruct (b32decode b) as [d |] eqn:Hd; [| discriminate].
  intros _. apply b32decode_chars in Hd.
  pose proof (utf8_encode_b32_chars padded b Hb Hd) as Hp.
  unfold padded in Hp.
  destruct (negb (length cn mod 8 =? 0)%nat); [| exact Hp].
  apply Forall_app in Hp as [Hcn _]. exact Hcn.
Qed.

(** X3: a common name that [decode_cn] decodes has no character but [A]-[Z],
    [2]-[7] and [=]: any other character (a lower-case letter, a digit 0, 1,
    8 or 9, anything outside ASCII) makes it raise. *)
Theorem decode_cn_alphabet (cn nm : str) :
  User_decode_cn cn = Ret nm -> Forall b32_char cn.
Proof. apply decode_cn_chars. Qed.


Lemma length_str_repeat_pad (k : nat) : length (str_repeat (pystr "=") k) = k.
Proof.
  unfold str_repeat. induction k as [| k IH]; [reflexivity |].
  change (replicate (S k) (pystr "="))
    with (pystr "=" :: replicate k (pystr "=")).
  rewrite concat_cons, length_app, IH. reflexivity.
Qed.

(** X4: [decode_cn] restores the padding itself: a common name whose length
    is not a multiple of 8 decodes (or fails) exactly as the same name with
    its [=] padding written out. *)
Theorem decode_cn_padding (cn : str) :
  (length cn mod 8)%nat <> O ->
  User_decode_cn (cn ++ str_repeat (pystr "=") (8 - length cn mod 8))
  = User_decode_cn cn.
Proof.
  intros Hmod. unfold User_decode_cn.
  rewrite length_app, length_str_repeat_pad.
  assert (Hpadded : ((length cn + (8 - length cn mod 8)) mod 8 = 0)%nat).
  { pose proof (Nat.mod_upper_bound (length cn) 8).
    rewrite (Nat.div_mod_eq (length cn) 8) at 1.
    replace (8 * (length cn / 8) + length cn mod 8 + (8 - length cn mod 8))%nat
      with (8 + (length cn / 8) * 8)%nat by lia.
    rewrite Nat.Div0.mod_add. reflexivity. }
  rewrite Hpadded. simpl negb at 1.
  destruct (Nat.eqb_spec (length cn mod 8) 0) as [H0 | _]; [contradiction |].
  reflexivity.
Qed.

(** The common name part of a project id has no ['_']. *)
Lemma split_at_first_sep (sep : N) (a1 a2 d1 d2 : str) :
  sep ∉ a1 -> sep ∉ a2 ->
  a1 ++ sep :: d1 = a2 ++ sep :: d2 -> a1 = a2 /\ d1 = d2.
Proof.
  revert a2. induction a1 as [| x a1 IH]; intros [| y a2] H1 H2 Heq;
    simpl in Heq.
  - inversion Heq. auto.
  - injection Heq as Hy Hd. exfalso. apply H2. rewrite <- Hy. left.
  - injection Heq as Hx Hd. exfalso. apply H1. rewrite Hx. left.
  - injection Heq as Hxy Hrest. subst y.
    destruct (IH a2) as [-> ->]; auto.
    + intros Hin. apply H1. right. exact Hin.
    + intros Hin. apply H2. right. exact Hin.
Qed.

Lemma lower_cp_b32 (c : N) :
  b32_char c ->
  ((97 <= lower_cp c <= 122)%N /\ lower_cp c = (c + 32)%N /\ (65 <= c <= 90)%N)
  \/ (((50 <= lower_cp c <= 55)%N \/ lower_cp c = 61%N) /\ lower_cp c = c).
Proof.
  unfold b32_char, lower_cp. intros Hc.
  destruct (N.leb_spec 65 c) as [H1 | H1];
    destruct (N.leb_spec c 90) as [H2 | H2]; simpl; lia.
Qed.

Lemma lower_b32_without (s : str) : Forall b32_char s -> 95%N ∉ lower s.
Proof.
  intros Hs Hin. unfold lower in Hin.
  apply list_elem_of_fmap in Hin as (c & Hc & Hin).
  rewrite Forall_forall in Hs.
  destruct (lower_cp_b32 c (Hs c Hin)) as [? | ?]; lia.
Qed.

Lemma lower_b32_inj (s1 s2 : str) :
  Forall b32_char s1 -> Forall b32_char s2 -> lower s1 = lower s2 -> s1 = s2.
Proof.
  intros H1. revert s2.
  induction H1 as [| c1 s1 Hc1 _ IH]; intros s2 H2 Heq;
    destruct H2 as [| c2 s2 Hc2 H2]; simpl in Heq; try discriminate;
    [reflexivity |].
  injection Heq as Hc Hs. f_equal; [| apply (IH s2 H2 Hs)].
  destruct (lower_cp_b32 c1 Hc1) as [? | ?];
    destruct (lower_cp_b32 c2 Hc2) as [? | ?]; lia.
Qed.

(** X5: the compose project id of a user, [lower(cn)_challenge], belongs to
    that user only: two users that were constructed share a project id only
    if they have the same common name and challenges of the same name, so no
    two users of a registry run one compose project. *)
Theorem project_id_inj (cn1 cn2 : str) (v1 v2 : Z) (r1 r2 : ChallengeRef)
    (u1 u2 : User) :
  User_init cn1 v1 r1 = Ret u1 -> User_init cn2 v2 r2 = Ret u2 ->
  id u1 = id u2 -> cn1 = cn2 /\ ref_name r1 = ref_name r2.
Proof.
  unfold User_init. intros Hu1 Hu2.
  destruct (User_decode_cn cn1) as [n1 | e |] eqn:Hd1; try discriminate.
  destruct (User_decode_cn cn2) as [n2 | e |] eqn:Hd2; try discriminate.
  inversion Hu1; subst u1. inversion Hu2; subst u2. simpl.
  apply decode_cn_chars in Hd1, Hd2.
  change (pystr "_") with [95%N]. simpl. intros Heq.
  apply split_at_first_sep in Heq as [Hcn Hname];
    [| apply lower_b32_without; assumption ..].
  split; [apply lower_b32_inj; assumption | exact Hname].
Qed.

(** ** What the registry keeps *)

(** A user stored under the key [k] of the challenge [c] is the user that
    [User.__init__] built for [k] and [c], up to its connections, and its
    VLAN is recorded as in use. *)
Definition User_wf (c : Challenge) (k : str) (u : User) : Prop :=
  cn u = k
  /\ challenge u = Challenge_ref c
  /\ id u = lower k ++ pystr "_" ++ c_name c
  /\ User_decode_cn k = Ret (name u)
  /\ vlan u ∈ vlans c.

(** The ids in use are in [10, 4000], every user is well formed, and no two
    users have the same VLAN. *)
Definition Challenge_wf (c : Challenge) : Prop :=
  (forall v, v ∈ vlans c -> 10 <= v <= 4000)
  /\ (forall k u, users c !! k = Some u -> User_wf c k u)
  /\ (forall k1 k2 u1 u2,
        users c !! k1 = Some u1 -> users c !! k2 = Some u2 ->
        vlan u1 = vlan u2 -> k1 = k2).

Definition Manager_wf (m : Manager) : Prop :=
  forall n c, challenges m !! n = Some c -> c_name c = n /\ Challenge_wf c.

(** [u'] is [u] with, at most, other connections. *)
Definition User_kept (u u' : User) : Prop :=
  exists conns, u' = set_connections u conns.

(** [c'] has the name, the VETH and the compose files of [c], every id and
    every user of [c], each user with its VLAN, names and id. *)
Definition Challenge_kept (c c' : Challenge) : Prop :=
  Challenge_ref c' = Challenge_ref c
  /\ vlans c ⊆ vlans c'
  /\ (forall k u, users c !! k = Some u ->
        exists u', users c' !! k = Some u' /\ User_kept u u').

Definition Manager_kept (m m' : Manager) : Prop :=
  forall n c, challenges m !! n = Some c ->
    exists c', challenges m' !! n = Some c' /\ Challenge_kept c c'.

(** What get-or-create of [cn] makes of a challenge, by outcome. *)
Inductive ensured (cn : str) (c : Challenge)
  : outcome unit -> Challenge -> Prop :=
| ensured_known (u : User) :
    users c !! cn = Some u -> ensured cn c (Ret tt) c
| ensured_stuck :
    users c !! cn = None -> ensured cn c Diverge c
| ensured_failed (v : Z) (e : exn) :
    users c !! cn = None -> 10 <= v <= 4000 -> v ∉ vlans c ->
    User_decode_cn cn = Raise e ->
    ensured cn c (Raise e) (set_vlans c ({[v]} ∪ vlans c))
| ensured_created (v : Z) (u : User) :
    users c !! cn = None -> 10 <= v <= 4000 -> v ∉ vlans c ->
    User_init cn v (Challenge_ref c) = Ret u ->
    ensured cn c (Ret tt)
      (set_users (set_vlans c ({[v]} ∪ vlans c)) (<[cn := u]> (users c))).

(** What [connect_user] and [disconnect_user] for [cn] make of a challenge:
    get-or-create, and then at most other connections for the user of
    [cn]. *)
Inductive touched (cn : str) (c : Challenge) : Challenge -> Prop :=
| touched_ensured r c' : ensured cn c r c' -> touched cn c c'
| touched_user c' u conns :
    ensured cn c (Ret tt) c' -> users c' !! cn = Some u ->
    touched cn c
      (set_users c' (<[cn := set_connections u conns]> (users c'))).

Section Registry.
Context {W : Type} `{Host W}.

Lemma next_vlan_loop_any (fuel : nat) (vlan : option Z) (c : Challenge)
    (s : sys W) :
  vlan = None \/ vlan = Some 0 ->
  match Challenge__next_vlan_loop fuel vlan (c, s) with
  | (Ret v, (c', s')) =>
      10 <= v <= 4000 /\ (v ∉ vlans c)
      /\ c' = set_vlans c ({[v]} ∪ vlans c) /\ trace s' = trace s
  | (Raise _, _) => False
  | (Diverge, (c', s')) => c' = c /\ trace s' = trace s
  end.
Proof.
  intros Hv. revert s. induction fuel as [| fuel IH]; intros s.
  - destruct Hv as [-> | ->]; simpl; auto.
  - rewrite next_vlan_loop_step by exact Hv. simpl.
    pose proof (randint_range 10 4000 (world s)) as Hr.
    destruct (randint 10 4000 (world s)) as [p w'] eqn:Hp. simpl in *.
    destruct (bool_decide (p ∈ vlans c)) eqn:Hin.
    + apply (IH (Sys w' (trace s))).
    + apply bool_decide_eq_false in Hin.
      assert (Hp0 : (p =? 0) = false) by (apply Z.eqb_neq; lia).
      destruct fuel; simpl; rewrite Hp0; (split; [lia | auto]).
Qed.

Lemma User_init_cases (cn : str) (v : Z) (r : ChallengeRef) :
  (exists u, User_init cn v r = Ret u)
  \/ (exists e, User_init cn v r = Raise e /\ User_decode_cn cn = Raise e).
Proof.
  unfold User_init. destruct (User_decode_cn cn) as [nm | e |] eqn:Hd; eauto.
  exfalso. revert Hd. unfold User_decode_cn.
  repeat match goal with
         | |- context [match ?x with _ => _ end] => destruct x
         end; discriminate.
Qed.

(** Get-or-create, whatever its outcome. *)
Lemma ensure_user_exists_ensured (fuel : nat) (cn : str) (c : Challenge)
    (s : sys W) r c' s' :
  Challenge__ensure_user_exists fuel cn (c, s) = (r, (c', s')) ->
  ensured cn c r c' /\ trace s' = trace s.
Proof.
  intros Hrun. destruct (users c !! cn) as [u |] eqn:Hu.
  - rewrite (ensure_user_exists_known _ _ _ _ _ Hu) in Hrun.
    inversion Hrun; subst. split; [eapply ensured_known, Hu | reflexivity].
  - pose proof (next_vlan_loop_any fuel None c s (or_introl eq_refl)) as Hany.
    fold (Challenge__next_vlan fuel (c, s)) in Hany.
    destruct (Challenge__next_vlan fuel (c, s)) as [[v | e |] [c1 s1]] eqn:Hv.
    + destruct Hany as (Hrange & Hfresh & -> & Htr).
      rewrite (ensure_user_exists_new _ _ _ _ _ _ _ Hu Hv) in Hrun.
      destruct (User_init_cases cn v (Challenge_ref c))
        as [(u & Hinit) | (e & Hinit & Hdec)]; rewrite Hinit in Hrun;
        inversion Hrun; subst; (split; [| exact Htr]).
      * apply ensured_created; assumption.
      * apply ensured_failed; assumption.
    + contradiction.
    + destruct Hany as (-> & Htr).
      rewrite (ensure_user_exists_stuck _ _ _ _ _ _ Hu Hv) in Hrun.
      inversion Hrun; subst. split; [apply ensured_stuck, Hu | exact Htr].
Qed.

End Registry.

Lemma User_kept_refl (u : User) : User_kept u u.
Proof. exists (connections u). symmetry. apply set_connections_id. Qed.

Lemma Challenge_kept_refl (c : Challenge) : Challenge_kept c c.
Proof.
  split; [reflexivity |]. split; [reflexivity |].
  intros k u Hu. exists u. split; [exact Hu | apply User_kept_refl].
Qed.

Lemma ensured_kept (cn : str) (c : Challenge) r c' :
  ensured cn c r c' -> Challenge_kept c c'.
Proof.
  intros [u Hu | Hu | v e Hu Hv Hfresh Hdec | v u Hu Hv Hfresh Hinit];
    try apply Challenge_kept_refl.
  - split; [reflexivity |]. split; [apply union_subseteq_r |].
    intros k u0 Hk. exists u0. split; [exact Hk | apply User_kept_refl].
  - split; [reflexivity |]. split; [apply union_subseteq_r |].
    intros k u0 Hk. exists u0. split; [| apply User_kept_refl].
    simpl. rewrite lookup_insert_ne; [exact Hk | congruence].
Qed.

Lemma ensured_frame (cn : str) (c : Challenge) r c' (k : str) :
  ensured cn c r c' -> k <> cn -> users c' !! k = users c !! k.
Proof.
  intros [u Hu | Hu | v e Hu Hv Hfresh Hdec | v u Hu Hv Hfresh Hinit] Hk;
    try reflexivity.
  simpl. apply lookup_insert_ne. congruence.
Qed.

Lemma ensured_wf (cn : str) (c : Challenge) r c' :
  Challenge_wf c -> ensured cn c r c' -> Challenge_wf c'.
Proof.
  intros (Hrange & Husers & Hdistinct)
    [u Hu | Hu | v e Hu Hv Hfresh Hdec | v u Hu Hv Hfresh Hinit];
    try (split; [exact Hrange | split; [exact Husers | exact Hdistinct]]).
  - split; [| split].
    + intros w Hw. simpl in Hw. apply elem_of_union in Hw as [Hw | Hw].
      * apply elem_of_singleton in Hw. lia.
      * apply Hrange, Hw.
    + intros k u0 Hk. destruct (Husers k u0 Hk) as (? & ? & ? & ? & ?).
      repeat split; try assumption. simpl. apply elem_of_union_r. assumption.
    + exact Hdistinct.
  - assert (Hu_wf : User_wf (set_users (set_vlans c ({[v]} ∪ vlans c))
                               (<[cn := u]> (users c))) cn u).
    { unfold User_init in Hinit.
      destruct (User_decode_cn cn) as [nm | |] eqn:Hd; try discriminate.
      inversion Hinit; subst u. unfold User_wf. simpl.
      split; [reflexivity |]. split; [reflexivity |].
      split; [reflexivity |]. split; [exact Hd |].
      apply elem_of_union_l, elem_of_singleton. reflexivity. }
    split; [| split].
    + intros w Hw. simpl in Hw. apply elem_of_union in Hw as [Hw | Hw].
      * apply elem_of_singleton in Hw. lia.
      * apply Hrange, Hw.
    + intros k u0 Hk. simpl in Hk.
      destruct (decide (k = cn)) as [-> | Hne].
      * rewrite lookup_insert_eq in Hk. inversion Hk; subst u0. exact Hu_wf.
      * rewrite lookup_insert_ne in Hk by congruence.
        destruct (Husers k u0 Hk) as (? & ? & ? & ? & ?).
        repeat split; try assumption. simpl. apply elem_of_union_r.
        assumption.
    + destruct (User_init_Ret_inv _ _ _ _ Hinit) as (_ & Hvlan & _).
      assert (Hold : forall k u0, users c !! k = Some u0 -> vlan u0 <> v).
      { intros k u0 Hk Heq. apply Hfresh. rewrite <- Heq.
        apply (Husers k u0 Hk). }
      intros k1 k2 u1 u2 H1 H2 Heq. simpl in H1, H2.
      destruct (decide (k1 = cn)) as [-> | Hne1],
               (decide (k2 = cn)) as [-> | Hne2]; [reflexivity | | |].
      * rewrite lookup_insert_eq in H1. inversion H1; subst u1.
        rewrite lookup_insert_ne in H2 by congruence.
        exfalso. apply (Hold k2 u2 H2). congruence.
      * rewrite lookup_insert_eq in H2. inversion H2; subst u2.
        rewrite lookup_insert_ne in H1 by congruence.
        exfalso. apply (Hold k1 u1 H1). congruence.
      * rewrite lookup_insert_ne in H1, H2 by congruence.
        apply (Hdistinct k1 k2 u1 u2 H1 H2 Heq).
Qed.

Lemma ensured_Ret_known (cn : str) (c c' : Challenge) :
  ensured cn c (Ret tt) c' -> is_Some (users c' !! cn).
Proof.
  intros Hens. inversion Hens; subst.
  - eauto.
  - simpl. rewrite lookup_insert_eq. eauto.
Qed.

Lemma set_connections_wf (c : Challenge) (k : str) (u : User) conns :
  Challenge_wf c -> users c !! k = Some u ->
  Challenge_wf (set_users c (<[k := set_connections u conns]> (users c))).
Proof.
  intros (Hrange & Husers & Hdistinct) Hu.
  assert (Hlook : forall k0 u0,
            <[k := set_connections u conns]> (users c) !! k0 = Some u0 ->
            exists u1, users c !! k0 = Some u1 /\ User_kept u1 u0).
  { intros k0 u0 Hk0. destruct (decide (k0 = k)) as [-> | Hne].
    - rewrite lookup_insert_eq in Hk0. inversion Hk0; subst.
      exists u. split; [exact Hu | exists conns; reflexivity].
    - rewrite lookup_insert_ne in Hk0 by congruence.
      exists u0. split; [exact Hk0 | apply User_kept_refl]. }
  split; [exact Hrange |]. split.
  - intros k0 u0 Hk0. simpl in Hk0.
    destruct (Hlook k0 u0 Hk0) as (u1 & Hk1 & (cs & ->)).
    destruct (Husers k0 u1 Hk1) as (? & ? & ? & ? & ?).
    repeat split; assumption.
  - intros k1 k2 u1 u2 H1 H2 Heq. simpl in H1, H2.
    destruct (Hlook k1 u1 H1) as (v1 & Hv1 & (cs1 & ->)).
    destruct (Hlook k2 u2 H2) as (v2 & Hv2 & (cs2 & ->)).
    apply (Hdistinct k1 k2 v1 v2 Hv1 Hv2 Heq).
Qed.

Lemma touched_wf (cn : str) (c c' : Challenge) :
  Challenge_wf c -> touched cn c c' -> Challenge_wf c'.
Proof.
  intros Hwf [r c1 Hens | c1 u conns Hens Hu].
  - apply (ensured_wf cn c r c1 Hwf Hens).
  - apply set_connections_wf; [apply (ensured_wf cn c _ c1 Hwf Hens) | exact Hu].
Qed.

Lemma touched_kept (cn : str) (c c' : Challenge) :
  touched cn c c' -> Challenge_kept c c'.
Proof.
  intros [r c1 Hens | c1 u conns Hens Hu].
  - apply (ensured_kept cn c r c1 Hens).
  - destruct (ensured_kept cn c _ c1 Hens) as (Href & Hsub & Hkeep).
    split; [exact Href |]. split; [exact Hsub |].
    intros k u0 Hk. destruct (Hkeep k u0 Hk) as (u1 & Hk1 & (cs & ->)).
    simpl. destruct (decide (k = cn)) as [-> | Hne].
    + rewrite lookup_insert_eq. rewrite Hu in Hk1. inversion Hk1; subst u.
      eexists. split; [reflexivity |]. exists conns. reflexivity.
    + rewrite lookup_insert_ne by congruence.
      eexists. split; [exact Hk1 |]. exists cs. reflexivity.
Qed.

Lemma touched_frame (cn : str) (c c' : Challenge) (k : str) :
  touched cn c c' -> k <> cn -> users c' !! k = users c !! k.
Proof.
  intros [r c1 Hens | c1 u conns Hens Hu] Hk.
  - apply (ensured_frame cn c r c1 k Hens Hk).
  - simpl. rewrite lookup_insert_ne by congruence.
    apply (ensured_frame cn c _ c1 k Hens Hk).
Qed.

(** ** Connections, whatever the host answers *)

(** The call came back with a value. *)
Definition returned {A} (r : outcome A) : Prop := exists a, r = Ret a.

Section Connections.
Context {W : Type} `{Host W}.

Create HintDb kept.
#[local] Hint Resolve keeps_ret keeps_raise keeps_get keeps_call keeps_query
  keeps_log keeps_logging keeps_ipdb_contains keeps_ipdb_getitem
  keeps__get_compose_cmd keeps_is_running keeps_stop_compose
  keeps__get_bridge_iface keeps_ensure_vlan_bridged keeps_ensure_vlan_gone
  : kept.

Ltac kept_self :=
  repeat first
    [ progress auto with kept
    | apply keeps_bind; [| intros ?]
    | match goal with
      | |- keeps_self _ (if ?b then _ else _) => destruct b
      end ].

Lemma keeps_self_run {A} (m : M (User * sys W) A) u s r u' s' :
  keeps_self W m -> m (u, s) = (r, (u', s')) -> u' = u.
Proof. intros Hk Hrun. specialize (Hk u s). rewrite Hrun in Hk. exact Hk. Qed.

Lemma bind_keeps_cases {A B} (m : M (User * sys W) A)
    (k : A -> M (User * sys W) B) u s r u' s' :
  keeps_self W m ->
  bind m k (u, s) = (r, (u', s')) ->
  (exists a s1, m (u, s) = (Ret a, (u, s1)) /\ k a (u, s1) = (r, (u', s')))
  \/ (~ returned r /\ u' = u).
Proof.
  intros Hk Hrun. unfold bind in Hrun.
  destruct (m (u, s)) as [[a | e |] [u1 s1]] eqn:Hm;
    pose proof (keeps_self_run m u s _ u1 s1 Hk Hm) as ->.
  - left. eauto.
  - inversion Hrun; subst. right.
    split; [intros [b Hb]; discriminate | reflexivity].
  - inversion Hrun; subst. right.
    split; [intros [b Hb]; discriminate | reflexivity].
Qed.

Lemma add_connection_any (address : str) (port : Z) (u : User)
    (s : sys W) (r : outcome unit) (u' : User) (s' : sys W) :
  User_add_connection address port (u, s) = (r, (u', s')) ->
  (r = Ret tt
   /\ u' = set_connections u
           ({[User__fmt_address address port]} ∪ connections u))
  \/ (~ returned r /\ u' = u).
Proof.
  unfold User_add_connection. unfold bind at 1. simpl. intros Hrun.
  apply bind_keeps_cases in Hrun as [(a & s1 & _ & Hrest) | Hfail];
    [| right; exact Hfail | kept_self].
  left. unfold bind, logging, log, modify_self in Hrest. simpl in Hrest.
  inversion Hrest. auto.
Qed.

Lemma remove_connection_any (address : str) (port : Z) (u : User)
    (s : sys W) (r : outcome unit) (u' : User) (s' : sys W) :
  User_remove_connection address port (u, s) = (r, (u', s')) ->
  u' = set_connections u (connections u ∖ {[User__fmt_address address port]}).
Proof.
  unfold User_remove_connection. unfold bind at 1. simpl.
  destruct (bool_decide (User__fmt_address address port ∈ connections u))
    eqn:Hin; simpl.
  - unfold bind at 1. simpl. unfold bind at 1. simpl. unfold bind at 1. simpl.
    intros Hrun. eapply keeps_self_run; [| exact Hrun]. kept_self.
  - apply bool_decide_eq_false in Hin. intros Hrun. inversion Hrun; subst.
    rewrite difference_disjoint_L by (apply disjoint_singleton_r, Hin).
    symmetry. apply set_connections_id.
Qed.

(** X6: [add_connection] records the address exactly when it returns: when
    it raises (compose or netlink failed) or does not come back, the
    connection is not added.  Whatever happens, nothing else of the user
    changes. *)
Theorem add_connection_outcome (address : str) (port : Z) (u : User)
    (s : sys W) (r : outcome unit) (u' : User) (s' : sys W) :
  User_add_connection address port (u, s) = (r, (u', s')) ->
  (r = Ret tt
   /\ u' = set_connections u
           ({[User__fmt_address address port]} ∪ connections u))
  \/ (~ returned r /\ u' = u).
Proof. apply add_connection_any. Qed.

(** X7: [remove_connection] always leaves the user without the address, also
    when the check or the stop of the cluster fails after the address was
    dropped; nothing else of the user ever changes. *)
Theorem remove_connection_outcome (address : str) (port : Z) (u : User)
    (s : sys W) (r : outcome unit) (u' : User) (s' : sys W) :
  User_remove_connection address port (u, s) = (r, (u', s')) ->
  u' = set_connections u (connections u ∖ {[User__fmt_address address port]}).
Proof. apply remove_connection_any. Qed.

(** ** The registry, whatever the host answers *)

Lemma connect_user_touched (fuel : nat) (cn address : str) (port : Z)
    (c : Challenge) (s : sys W) r c' s' :
  Challenge_connect_user fuel cn address port (c, s) = (r, (c', s')) ->
  touched cn c c'
  /\ (forall v, r = Ret v ->
        exists u, users c' !! cn = Some u /\ vlan u = v
                  /\ User__fmt_address address port ∈ connections u).
Proof.
  unfold Challenge_connect_user, bind at 1. intros Hrun.
  destruct (Challenge__ensure_user_exists fuel cn (c, s))
    as [[[] | e |] [c1 s1]] eqn:Hens;
    apply ensure_user_exists_ensured in Hens as [Hens _].
  - destruct (ensured_Ret_known cn c c1 Hens) as [u Hu].
    destruct ((User_add_connection address port ;;
               user <- self ;; ret (vlan user)) (u, s1))
      as [r' [u' s2]] eqn:Hbody.
    rewrite (on_user_known _ _ _ _ _ _ _ _ Hu Hbody) in Hrun.
    inversion Hrun; subst r' c' s2. clear Hrun.
    unfold bind at 1 in Hbody.
    destruct (User_add_connection address port (u, s1))
      as [ra [u1 s3]] eqn:Hadd.
    destruct (add_connection_any _ _ _ _ _ _ _ Hadd) as [[-> ->] | [Hnot ->]].
    + unfold bind, self, ret in Hbody. simpl in Hbody.
      inversion Hbody; subst. split.
      * apply (touched_user cn c c1 u _ Hens Hu).
      * intros v [= <-]. eexists. simpl. rewrite lookup_insert_eq.
        split; [reflexivity |]. split; [reflexivity |].
        apply elem_of_union_l, elem_of_singleton. reflexivity.
    + destruct ra as [[] | e |];
        [exfalso; apply Hnot; eexists; reflexivity | |];
        inversion Hbody; subst;
        (split; [rewrite users_insert_id by exact Hu;
                 apply (touched_ensured cn c _ _ Hens) | discriminate]).
  - inversion Hrun; subst.
    split; [apply (touched_ensured cn c _ _ Hens) | discriminate].
  - inversion Hrun; subst.
    split; [apply (touched_ensured cn c _ _ Hens) | discriminate].
Qed.

Lemma disconnect_user_touched (fuel : nat) (cn address : str) (port : Z)
    (c : Challenge) (s : sys W) r c' s' :
  Challenge_disconnect_user fuel cn address port (c, s) = (r, (c', s')) ->
  touched cn c c'.
Proof.
  unfold Challenge_disconnect_user, bind at 1. intros Hrun.
  destruct (Challenge__ensure_user_exists fuel cn (c, s))
    as [[[] | e |] [c1 s1]] eqn:Hens;
    apply ensure_user_exists_ensured in Hens as [Hens _].
  - destruct (ensured_Ret_known cn c c1 Hens) as [u Hu].
    destruct (User_remove_connection address port (u, s1))
      as [r' [u' s2]] eqn:Hbody.
    rewrite (on_user_known _ _ _ _ _ _ _ _ Hu Hbody) in Hrun.
    inversion Hrun; subst r' c' s2. clear Hrun.
    apply remove_connection_any in Hbody as ->.
    apply (touched_user cn c c1 u _ Hens Hu).
  - inversion Hrun; subst. apply (touched_ensured cn c _ _ Hens).
  - inversion Hrun; subst. apply (touched_ensured cn c _ _ Hens).
Qed.

End Connections.

(** Every challenge but [name], and every user of [name] but [cn], is in
    [m'] what it is in [m]. *)
Definition others_untouched (name cn : str) (m m' : Manager) : Prop :=
  (forall n, n <> name -> challenges m' !! n = challenges m !! n)
  /\ (forall c c' k, challenges m !! name = Some c ->
        challenges m' !! name = Some c' -> k <> cn ->
        users c' !! k = users c !! k).

(** What [connect_user] and [disconnect_user] for the challenge [n] and the
    common name [cn] make of the manager. *)
Inductive Manager_step (n cn : str) (m : Manager) : Manager -> Prop :=
| step_unknown :
    challenges m !! n = None -> Manager_step n cn m m
| step_known c c' :
    challenges m !! n = Some c -> touched cn c c' ->
    Manager_step n cn m {| challenges := <[n := c']> (challenges m) |}.

(** The states of the registry that calls of the four methods of [Manager]
    lead to from [Manager()], whatever the host is and does in between. *)
Inductive reachable {W : Type} `{Host W} : Manager -> Prop :=
| reach_init : reachable Manager_init
| reach_register m s name host_veth compose_files :
    reachable m ->
    reachable
      (Manager_register_challenge name host_veth compose_files (m, s)).2.1
| reach_connect m s fuel name cn address port :
    reachable m ->
    reachable (Manager_connect_user fuel name cn address port (m, s)).2.1
| reach_disconnect m s fuel name cn address port :
    reachable m ->
    reachable (Manager_disconnect_user fuel name cn address port (m, s)).2.1
| reach_stop m s :
    reachable m -> reachable (Manager__stop (m, s)).2.1.

Section Registry_steps.
Context {W : Type} `{Host W}.

Lemma Manager_connect_user_step (fuel : nat) (n cn address : str) (port : Z)
    (m : Manager) (s : sys W) r m' s' :
  Manager_connect_user fuel n cn address port (m, s) = (r, (m', s')) ->
  Manager_step n cn m m'
  /\ (forall v, r = Ret v ->
        exists c' u, challenges m' !! n = Some c' /\ users c' !! cn = Some u
                     /\ vlan u = v
                     /\ User__fmt_address address port ∈ connections u).
Proof.
  unfold Manager_connect_user. intros Hrun.
  destruct (challenges m !! n) as [c |] eqn:Hc.
  - destruct (Challenge_connect_user fuel cn address port (c, s))
      as [r' [c' s1]] eqn:Hcc.
    rewrite (on_challenge_known _ _ _ _ _ _ _ _ Hc Hcc) in Hrun.
    inversion Hrun; subst. apply connect_user_touched in Hcc as [Ht Hv].
    split; [apply (step_known n cn m c c' Hc Ht) |].
    intros v Hr. destruct (Hv v Hr) as (u & Hu & Hvlan & Hin).
    exists c', u. simpl. rewrite lookup_insert_eq. auto.
  - rewrite (on_challenge_unknown _ _ _ _ Hc) in Hrun. inversion Hrun; subst.
    split; [apply step_unknown, Hc | discriminate].
Qed.

Lemma Manager_disconnect_user_step (fuel : nat) (n cn address : str)
    (port : Z) (m : Manager) (s : sys W) r m' s' :
  Manager_disconnect_user fuel n cn address port (m, s) = (r, (m', s')) ->
  Manager_step n cn m m'.
Proof.
  unfold Manager_disconnect_user. intros Hrun.
  destruct (challenges m !! n) as [c |] eqn:Hc.
  - destruct (Challenge_disconnect_user fuel cn address port (c, s))
      as [r' [c' s1]] eqn:Hcc.
    rewrite (on_challenge_known _ _ _ _ _ _ _ _ Hc Hcc) in Hrun.
    inversion Hrun; subst. apply disconnect_user_touched in Hcc.
    apply (step_known n cn m c c' Hc Hcc).
  - rewrite (on_challenge_unknown _ _ _ _ Hc) in Hrun. inversion Hrun; subst.
    apply step_unknown, Hc.
Qed.

Lemma Manager_step_wf (n cn : str) (m m' : Manager) :
  Manager_wf m -> Manager_step n cn m m' -> Manager_wf m'.
Proof.
  intros Hwf [Hn | c c' Hc Ht]; [exact Hwf |].
  intros n0 c0 Hn0. simpl in Hn0.
  destruct (decide (n0 = n)) as [-> | Hne].
  - rewrite lookup_insert_eq in Hn0. inversion Hn0; subst c0.
    destruct (Hwf n c Hc) as [Hname Hcwf].
    split; [| apply (touched_wf cn c c' Hcwf Ht)].
    destruct (touched_kept cn c c' Ht) as (Href & _).
    rewrite <- Hname.
    change (ref_name (Challenge_ref c') = ref_name (Challenge_ref c)).
    rewrite Href. reflexivity.
  - rewrite lookup_insert_ne in Hn0 by congruence. apply (Hwf n0 c0 Hn0).
Qed.

Lemma Manager_step_kept (n cn : str) (m m' : Manager) :
  Manager_step n cn m m' -> Manager_kept m m'.
Proof.
  intros [Hn | c c' Hc Ht] n0 c0 Hn0.
  - exists c0. split; [exact Hn0 | apply Challenge_kept_refl].
  - simpl. destruct (decide (n0 = n)) as [-> | Hne].
    + rewrite lookup_insert_eq. rewrite Hc in Hn0. inversion Hn0; subst c0.
      exists c'. split; [reflexivity | apply (touched_kept cn c c' Ht)].
    + rewrite lookup_insert_ne by congruence.
      exists c0. split; [exact Hn0 | apply Challenge_kept_refl].
Qed.

Lemma Manager_step_frame (n cn : str) (m m' : Manager) :
  Manager_step n cn m m' ->
  (forall n0, n0 <> n -> challenges m' !! n0 = challenges m !! n0)
  /\ (forall c c' k, challenges m !! n = Some c ->
        challenges m' !! n = Some c' -> k <> cn ->
        users c' !! k = users c !! k).
Proof.
  intros [Hn | c c' Hc Ht]; split.
  - reflexivity.
  - intros c c' k Hc. rewrite Hn in Hc. discriminate.
  - intros n0 Hne. simpl. apply lookup_insert_ne. congruence.
  - intros c0 c0' k Hc0 Hc0' Hk. simpl in Hc0'.
    rewrite lookup_insert_eq in Hc0'. rewrite Hc in Hc0.
    inversion Hc0; inversion Hc0'; subst.
    apply (touched_frame cn c0 c0' k Ht Hk).
Qed.

(** [register_challenge], whatever its outcome. *)
Lemma register_challenge_any (name host_veth : str) (compose_files : list str)
    (m : Manager) (s : sys W) r m' s' :
  Manager_register_challenge name host_veth compose_files (m, s)
    = (r, (m', s')) ->
  (m' = m /\ (challenges m !! name = None -> ~ returned r))
  \/ (r = Ret tt /\ challenges m !! name = None
      /\ exists veth up w,
           ipdb_interfaces host_veth (world s) = Some veth
           /\ iface_up veth (world s) = (Ret up, w)
           /\ m' = {| challenges :=
                        <[name := {| c_host_veth := up; c_name := name;
                                     c_compose_files := compose_files;
                                     vlans := ∅; users := ∅ |}]>
                          (challenges m) |}).
Proof.
  unfold Manager_register_challenge. unfold bind at 1. simpl.
  destruct (challenges m !! name) as [c |] eqn:Hc.
  - rewrite (dict_contains_true _ _ _ Hc). intros Hrun.
    inversion Hrun. left. split; [reflexivity | discriminate].
  - rewrite (dict_contains_false _ _ Hc).
    unfold Challenge_init, ipdb_getitem, logging, log.
    unfold bind, query, call, modify_self, ret, raise. simpl.
    destruct (ipdb_interfaces host_veth (world s)) as [veth |] eqn:Hveth;
      simpl;
      [| intros Hrun; inversion Hrun; left;
         split; [reflexivity | intros _ [? ?]; discriminate]].
    destruct (iface_up veth (world s)) as [[i | e |] w'] eqn:Hup; simpl;
      intros Hrun; inversion Hrun; subst;
      try (left; split; [reflexivity | intros _ [? ?]; discriminate]).
    right. split; [reflexivity |]. split; [reflexivity |].
    exists veth, i, w'. auto.
Qed.

Lemma disconnect_all_state (c : Challenge) (s : sys W) r c' s' :
  Challenge_disconnect_all (c, s) = (r, (c', s')) -> c' = c /\ s' = s.
Proof.
  destruct (decide (users c = ∅)) as [He | Hne]; intros Hrun.
  - rewrite (disconnect_all_no_users c s He) in Hrun. inversion Hrun. auto.
  - rewrite (disconnect_all_some_user c s Hne) in Hrun. inversion Hrun. auto.
Qed.

Lemma stop_challenges_state (l : list str) (m : Manager) (s : sys W) r m' s' :
  for_each l (fun name => on_challenge name Challenge_disconnect_all) (m, s)
    = (r, (m', s')) ->
  m' = m /\ s' = s.
Proof.
  revert r m' s'. induction l as [| n l IH]; intros r m' s' Hrun.
  - inversion Hrun. auto.
  - simpl in Hrun. unfold bind in Hrun.
    destruct (on_challenge n Challenge_disconnect_all (m, s))
      as [r1 [m1 s1]] eqn:Hstep.
    assert (Hsame : m1 = m /\ s1 = s).
    { destruct (challenges m !! n) as [c |] eqn:Hc.
      - destruct (Challenge_disconnect_all (c, s)) as [r2 [c2 s2]] eqn:Hd.
        rewrite (on_challenge_known _ _ _ _ _ _ _ _ Hc Hd) in Hstep.
        apply disconnect_all_state in Hd as [-> ->].
        inversion Hstep; subst. split; [| reflexivity].
        apply challenges_insert_id, Hc.
      - rewrite (on_challenge_unknown _ _ _ _ Hc) in Hstep.
        inversion Hstep. auto. }
    destruct Hsame as [-> ->].
    destruct r1 as [[] | e |]; [apply (IH _ _ _ Hrun) | |];
      inversion Hrun; auto.
Qed.

Lemma Manager_stop_any (m : Manager) (s : sys W) r m' s' :
  Manager__stop (m, s) = (r, (m', s')) -> m' = m.
Proof.
  unfold Manager__stop. unfold bind at 1. simpl. unfold bind at 1.
  destruct (for_each (map fst (map_to_list (challenges m)))
              (fun name => on_challenge name Challenge_disconnect_all) (m, s))
    as [r1 [m1 s1]] eqn:Hloop.
  apply stop_challenges_state in Hloop as [-> ->].
  destruct r1 as [[] | e |]; [| intros Hrun; inversion Hrun; reflexivity ..].
  unfold bind, call.
  destruct (close DockerClient (world s)) as [[[] | e |] w1]; simpl;
    [| intros Hrun; inversion Hrun; reflexivity ..].
  destruct (close Ipdb w1) as [[[] | e |] w2]; simpl;
    [| intros Hrun; inversion Hrun; reflexivity ..].
  destruct (close HostNs w2) as [r3 w3]; simpl.
  intros Hrun; inversion Hrun; reflexivity.
Qed.

End Registry_steps.

Section Registry_theorems.
Context {W : Type} `{Host W}.

Lemma register_challenge_wf (name host_veth : str) (compose_files : list str)
    (m : Manager) (s : sys W) :
  Manager_wf m ->
  Manager_wf
    (Manager_register_challenge name host_veth compose_files (m, s)).2.1.
Proof.
  intros Hwf.
  destruct (Manager_register_challenge name host_veth compose_files (m, s))
    as [r [m' s']] eqn:Hrun. simpl.
  apply register_challenge_any in Hrun
    as [[-> _] | (_ & Hnew & veth & up & w & _ & _ & ->)]; [exact Hwf |].
  intros n c Hn. simpl in Hn. destruct (decide (n = name)) as [-> | Hne].
  - rewrite lookup_insert_eq in Hn. inversion Hn; subst c. simpl.
    split; [reflexivity |]. split; [| split].
    + intros v Hv. simpl in Hv. exfalso. exact (not_elem_of_empty _ Hv).
    + intros k u Hk. simpl in Hk. rewrite lookup_empty in Hk. discriminate.
    + intros k1 k2 u1 u2 Hk. simpl in Hk. rewrite lookup_empty in Hk.
      discriminate.
  - rewrite lookup_insert_ne in Hn by congruence. apply (Hwf n c Hn).
Qed.

Lemma register_challenge_kept (name host_veth : str)
    (compose_files : list str) (m : Manager) (s : sys W) :
  Manager_kept m
    (Manager_register_challenge name host_veth compose_files (m, s)).2.1.
Proof.
  destruct (Manager_register_challenge name host_veth compose_files (m, s))
    as [r [m' s']] eqn:Hrun. simpl.
  apply register_challenge_any in Hrun
    as [[-> _] | (_ & Hnew & veth & up & w & _ & _ & ->)];
    intros n c Hn; exists c; (split; [| apply Challenge_kept_refl]);
    [exact Hn |].
  simpl. rewrite lookup_insert_ne; [exact Hn | congruence].
Qed.

(** X8: in every state of the registry that [register_challenge],
    [connect_user], [disconnect_user] and [_stop] lead to from [Manager()],
    whatever the host answers and whether the calls return or raise: a
    challenge is stored under its name; the ids in use are in [10, 4000];
    every user is stored under its common name, refers to its challenge, has
    the project id [lower(cn)_challenge], a VLAN that is in use, and no two
    users of a challenge have the same VLAN. *)
Theorem reachable_wf (m : Manager) : reachable m -> Manager_wf m.
Proof.
  induction 1 as [| m s name hv files _ IH | m s fuel name cn a p _ IH
                  | m s fuel name cn a p _ IH | m s _ IH].
  - intros n c Hn. simpl in Hn. rewrite lookup_empty in Hn. discriminate.
  - apply register_challenge_wf, IH.
  - destruct (Manager_connect_user fuel name cn a p (m, s))
      as [r [m' s']] eqn:Hrun. simpl.
    apply Manager_connect_user_step in Hrun as [Hstep _].
    apply (Manager_step_wf name cn m m' IH Hstep).
  - destruct (Manager_disconnect_user fuel name cn a p (m, s))
      as [r [m' s']] eqn:Hrun. simpl.
    apply Manager_disconnect_user_step in Hrun.
    apply (Manager_step_wf name cn m m' IH Hrun).
  - destruct (Manager__stop (m, s)) as [r [m' s']] eqn:Hrun. simpl.
    apply Manager_stop_any in Hrun as ->. exact IH.
Qed.

(** X9: no call of the manager removes or replaces anything: after
    [register_challenge], [connect_user], [disconnect_user] or [_stop],
    returned or not, every challenge is still registered with its name, VETH
    and compose files, every id in use is still in use (ids are never
    released), and every user is still there with its VLAN, names and
    project id. *)
Theorem registry_only_grows (m : Manager) (s : sys W) :
  (forall name host_veth compose_files,
     Manager_kept m
       (Manager_register_challenge name host_veth compose_files (m, s)).2.1)
  /\ (forall fuel name cn address port,
        Manager_kept m
          (Manager_connect_user fuel name cn address port (m, s)).2.1)
  /\ (forall fuel name cn address port,
        Manager_kept m
          (Manager_disconnect_user fuel name cn address port (m, s)).2.1)
  /\ (Manager__stop (m, s)).2.1 = m.
Proof.
  split; [| split; [| split]].
  - intros name hv files. apply register_challenge_kept.
  - intros fuel name cn a p.
    destruct (Manager_connect_user fuel name cn a p (m, s))
      as [r [m' s']] eqn:Hrun. simpl.
    apply Manager_connect_user_step in Hrun as [Hstep _].
    apply (Manager_step_kept name cn m m' Hstep).
  - intros fuel name cn a p.
    destruct (Manager_disconnect_user fuel name cn a p (m, s))
      as [r [m' s']] eqn:Hrun. simpl.
    apply Manager_disconnect_user_step in Hrun.
    apply (Manager_step_kept name cn m m' Hrun).
  - destruct (Manager__stop (m, s)) as [r [m' s']] eqn:Hrun. simpl.
    apply (Manager_stop_any m s r m' s' Hrun).
Qed.

(** X10: [connect_user] and [disconnect_user] for a challenge and a common
    name touch that user of that challenge only: every other challenge and
    every other user of the challenge is exactly as before, returned or
    not. *)
Theorem calls_touch_one_user (fuel : nat) (name cn address : str) (port : Z)
    (m : Manager) (s : sys W) :
  others_untouched name cn m
    (Manager_connect_user fuel name cn address port (m, s)).2.1
  /\ others_untouched name cn m
       (Manager_disconnect_user fuel name cn address port (m, s)).2.1.
Proof.
  split.
  - destruct (Manager_connect_user fuel name cn address port (m, s))
      as [r [m' s']] eqn:Hrun. simpl.
    apply Manager_connect_user_step in Hrun as [Hstep _].
    apply (Manager_step_frame name cn m m' Hstep).
  - destruct (Manager_disconnect_user fuel name cn address port (m, s))
      as [r [m' s']] eqn:Hrun. simpl.
    apply Manager_disconnect_user_step in Hrun.
    apply (Manager_step_frame name cn m m' Hrun).
Qed.

(** X11: a [connect_user] that returns gives the VLAN of the user stored for
    that common name, who has the address in its connections; for a user
    that existed already it is the VLAN the user had (a user keeps its VLAN
    over reconnections), and in a well-formed registry it is in
    [10, 4000]. *)
Theorem connect_user_returns_vlan (fuel : nat) (name cn address : str)
    (port : Z) (m : Manager) (s : sys W) (v : Z) (m' : Manager)
    (s' : sys W) :
  Manager_connect_user fuel name cn address port (m, s) = (Ret v, (m', s')) ->
  (exists c' u', challenges m' !! name = Some c' /\ users c' !! cn = Some u'
                 /\ vlan u' = v
                 /\ User__fmt_address address port ∈ connections u')
  /\ (forall c u, challenges m !! name = Some c -> users c !! cn = Some u ->
        vlan u = v)
  /\ (Manager_wf m -> 10 <= v <= 4000).
Proof.
  intros Hrun. apply Manager_connect_user_step in Hrun as [Hstep Hret].
  destruct (Hret v eq_refl) as (c' & u' & Hc' & Hu' & Hv & Hin).
  split; [exists c', u'; auto |]. split.
  - intros c u Hc Hu.
    destruct (Manager_step_kept name cn m m' Hstep name c Hc)
      as (c1 & Hc1 & _ & _ & Hkeep).
    rewrite Hc' in Hc1. inversion Hc1; subst c1.
    destruct (Hkeep cn u Hu) as (u1 & Hu1 & (conns & ->)).
    rewrite Hu' in Hu1. inversion Hu1; subst u'. exact Hv.
  - intros Hwf.
    destruct (Manager_step_wf name cn m m' Hwf Hstep name c' Hc')
      as (_ & Hrange & Husers & _).
    apply Hrange. rewrite <- Hv. apply (Husers cn u' Hu').
Qed.

End Registry_theorems.

Section Allocation_theorems.
Context {W : Type} `{Host W}.

(** X12: [_next_vlan] never raises, logs nothing and touches nothing of the
    challenge but [vlans]: when it returns, the id is in [10, 4000], was not
    in use and has been added to [vlans]; as long as it has not returned,
    the challenge is unchanged. *)
Theorem next_vlan_outcome (fuel : nat) (c : Challenge) (s : sys W) :
  match Challenge__next_vlan fuel (c, s) with
  | (Ret v, (c', s')) =>
      10 <= v <= 4000 /\ (v ∉ vlans c)
      /\ c' = set_vlans c ({[v]} ∪ vlans c) /\ trace s' = trace s
  | (Raise _, _) => False
  | (Diverge, (c', s')) => c' = c /\ trace s' = trace s
  end.
Proof. apply (next_vlan_loop_any fuel None c s). left. reflexivity. Qed.

(** X13: get-or-create allocates at most once: when [_ensure_user_exists]
    returns, the user is there, at most one id has been added to [vlans],
    nothing was logged, and a second [_ensure_user_exists] for the same
    common name returns at once and changes nothing, not even the random
    generator. *)
Theorem ensure_user_exists_once (fuel fuel' : nat) (cn : str) (c : Challenge)
    (s : sys W) (c' : Challenge) (s' : sys W) :
  Challenge__ensure_user_exists fuel cn (c, s) = (Ret tt, (c', s')) ->
  is_Some (users c' !! cn)
  /\ (vlans c' = vlans c \/ exists v, (v ∉ vlans c) /\ vlans c' = {[v]} ∪ vlans c)
  /\ trace s' = trace s
  /\ Challenge__ensure_user_exists fuel' cn (c', s') = (Ret tt, (c', s')).
Proof.
  intros Hrun. apply ensure_user_exists_ensured in Hrun as [Hens Htr].
  destruct (ensured_Ret_known cn c c' Hens) as [u Hu].
  split; [eauto |]. split; [| split; [exact Htr |]].
  - inversion Hens; subst; [left; reflexivity | right; eauto].
  - apply (ensure_user_exists_known fuel' cn c' s' u Hu).
Qed.

Lemma for_each_all_ret {S X} (l : list X) (body : X -> M S unit) (st : S) :
  (forall x, x ∈ l -> body x st = (Ret tt, st)) ->
  for_each l body st = (Ret tt, st).
Proof.
  induction l as [| x l IH]; intros Hall; [reflexivity |].
  simpl. rewrite (bind_Ret _ _ _ _ _ (Hall x (list_elem_of_here x l))).
  apply IH. intros y Hy. apply Hall. right. exact Hy.
Qed.

(** X14: a new name is registered only when the VETH exists and was brought
    up: then the challenge is stored with its name and compose files, no
    user and no id in use; when the VETH is missing the call raises
    [KeyError] for it after one lookup; whenever the call does not return,
    the registry is unchanged. *)
Theorem register_challenge_new (name host_veth : str)
    (compose_files : list str) (m : Manager) (s : sys W)
    (r : outcome unit) (m' : Manager) (s' : sys W) :
  challenges m !! name = None ->
  Manager_register_challenge name host_veth compose_files (m, s)
    = (r, (m', s')) ->
  (returned r ->
     exists veth up w,
       ipdb_interfaces host_veth (world s) = Some veth
       /\ iface_up veth (world s) = (Ret up, w)
       /\ challenges m' !! name
          = Some {| c_host_veth := up; c_name := name;
                    c_compose_files := compose_files;
                    vlans := ∅; users := ∅ |})
  /\ (~ returned r -> m' = m)
  /\ (ipdb_interfaces host_veth (world s) = None ->
      r = Raise (KeyError host_veth)
      /\ s' = Sys (world s)
                (trace s ++ [Log INFO (pystr "registering challenge %s") [name];
                             IpdbLookup host_veth])).
Proof.
  intros Hnew Hrun. split; [| split].
  - intros Hret. apply register_challenge_any in Hrun
      as [[_ Hnot] | (_ & _ & veth & up & w & Hveth & Hup & ->)].
    + exfalso. apply (Hnot Hnew Hret).
    + exists veth, up, w. simpl. rewrite lookup_insert_eq. auto.
  - intros Hnot. apply register_challenge_any in Hrun
      as [[-> _] | (-> & _)]; [reflexivity |].
    exfalso. apply Hnot. exists tt. reflexivity.
  - intros Hmissing. revert Hrun.
    unfold Manager_register_challenge. unfold bind at 1. simpl.
    rewrite (dict_contains_false _ _ Hnew).
    unfold Challenge_init, ipdb_getitem, logging, log.
    unfold bind, query, call, modify_self, ret, raise. simpl.
    rewrite Hmissing. simpl. rewrite <- app_assoc. simpl.
    intros Hrun. inversion Hrun. auto.
Qed.

(** X15: when no challenge has a user, [_stop] stops nothing and closes the
    docker client, the netlink database and the network namespace, in this
    order; the registry is unchanged. *)
Theorem Manager_stop_no_users (m : Manager) (s : sys W) (w1 w2 w3 : W)
    (r : outcome unit) :
  (forall n c, challenges m !! n = Some c -> users c = ∅) ->
  close DockerClient (world s) = (Ret tt, w1) ->
  close Ipdb w1 = (Ret tt, w2) ->
  close HostNs w2 = (r, w3) ->
  Manager__stop (m, s)
  = (r, (m, Sys w3 (trace s ++ [Close DockerClient; Close Ipdb; Close HostNs]))).
Proof.
  intros Hnone H1 H2 H3. unfold Manager__stop. unfold bind at 1. simpl.
  rewrite (bind_Ret _ _ (m, s) tt (m, s)).
  - unfold bind, call. simpl. rewrite H1. simpl. rewrite H2. simpl.
    rewrite H3. rewrite <- !app_assoc. reflexivity.
  - apply for_each_all_ret. intros n Hn.
    apply list_elem_of_fmap in Hn as ([n' c] & -> & Hn).
    apply elem_of_map_to_list in Hn. simpl.
    rewrite <- (challenges_insert_id m n' c Hn) at 2.
    apply (on_challenge_known _ _ _ _ _ _ _ _ Hn).
    apply disconnect_all_no_users, (Hnone n' c Hn).
Qed.

End Allocation_theorems.

(** ** The life of a connection *)

Lemma bind_assoc {S A B C} (m : M S A) (k : A -> M S B) (k' : B -> M S C) s :
  bind (bind m k) k' s = bind m (fun a => bind (k a) k') s.
Proof. unfold bind. destruct (m s) as [[a | e |] s1]; reflexivity. Qed.

Section Connection_theorems.
Context {W : Type} `{Host W}.

Lemma self_run {X} (x : X) (s : sys W) : self (x, s) = (Ret x, (x, s)).
Proof. reflexivity. Qed.

Lemma log_run {X} lvl msg args (x : X) (s : sys W) :
  log lvl msg args (x, s)
  = (Ret tt, (x, Sys (world s) (trace s ++ [Log lvl msg args]))).
Proof. reflexivity. Qed.

Lemma logging_run {X} lvl msg args (x : X) (s : sys W) :
  logging lvl msg args (x, s)
  = (Ret tt, (x, Sys (world s) (trace s ++ [Log lvl (pystr msg) args]))).
Proof. reflexivity. Qed.

Lemma call_run {X A} ev (op : W -> outcome A * W) (x : X) (s : sys W) r w :
  op (world s) = (r, w) ->
  call ev op (x, s) = (r, (x, Sys w (trace s ++ [ev]))).
Proof. intros Hop. unfold call. rewrite Hop. reflexivity. Qed.

Lemma query_run {X A} ev (f : W -> A) (x : X) (s : sys W) :
  query ev f (x, s)
  = (Ret (f (world s)), (x, Sys (world s) (trace s ++ [ev]))).
Proof. reflexivity. Qed.

Lemma get_compose_cmd_run (args : list str) (u : User) (s : sys W) :
  User__get_compose_cmd args (u, s)
  = (Ret (compose_cmd u args),
     (u, Sys (world s)
           (trace s ++ [Log DEBUG (join (pystr " ") (compose_cmd u args)) []]))).
Proof. reflexivity. Qed.

Ltac run lem :=
  rewrite ?bind_assoc; erewrite bind_Ret; [| lem]; cbv beta iota.

(** X16: the first connection of a user boots its cluster in this order:
    [docker-compose top]; when that prints something, a warning and
    [docker-compose down --timeout 3]; then [docker-compose up --detach];
    only then is the VLAN bridged and the address recorded.  When
    [up --detach] fails, the error is raised with no netlink access and the
    connection is not recorded. *)
Theorem add_connection_boot_sequence
    (address : str) (port : Z) (u : User) (s : sys W)
    (out : bytes) (text : str) (w1 : W) :
  let top := compose_cmd u [pystr "top"] in
  let down := compose_cmd u [pystr "down"; pystr "--timeout"; pystr "3"] in
  let up := compose_cmd u [pystr "up"; pystr "--detach"] in
  let who := [name u; ref_name (challenge u)] in
  let asked :=
    [Log INFO
       (pystr "first connection of user %s to challenge %s, booting cluster...")
       who;
     Log DEBUG (join (pystr " ") top) [];
     CheckOutput top] in
  let cleaned :=
    [Log WARNING
       (pystr "cluster for user %s's %s challenge is already running, stopping it now...")
       who;
     Log DEBUG (join (pystr " ") down) [];
     CheckCall down;
     Log DEBUG (pystr "cluster down for %s's %s challenge") who] in
  let started := [Log DEBUG (join (pystr " ") up) []; CheckCall up] in
  let bridge_and_record (w : W) (before : list event) :=
    (User_ensure_vlan_bridged ;;
     logging INFO "user %s connected from %s to challenge %s"
       [name u; User__fmt_address address port; ref_name (challenge u)] ;;
     modify_self (fun u =>
       set_connections u
         ({[User__fmt_address address port]} ∪ connections u)))
      (u, Sys w (trace s ++ before ++ started
                 ++ [Log DEBUG (pystr "cluster up for %s's %s challenge")
                       who])) in
  connections u = ∅ ->
  check_output top (world s) = (Ret out, w1) ->
  utf8_decode out = Some text ->
  (strip text <> [] ->
   forall w2 w3,
     check_call down w1 = (Ret tt, w2) -> check_call up w2 = (Ret tt, w3) ->
     User_add_connection address port (u, s)
     = bridge_and_record w3 (asked ++ cleaned))
  /\ (strip text = [] ->
      forall w3, check_call up w1 = (Ret tt, w3) ->
      User_add_connection address port (u, s) = bridge_and_record w3 asked)
  /\ (strip text = [] ->
      forall e w3, check_call up w1 = (Raise e, w3) ->
      User_add_connection address port (u, s)
      = (Raise e, (u, Sys w3 (trace s ++ asked ++ started)))).
Proof.
  intros top down up who asked cleaned started bridge_and_record
    Hempty Hout Htext.
  assert (Hblank : strip text <> [] -> (0 <? length (strip text))%nat = true).
  { intros Hne. apply Nat.ltb_lt. destruct (strip text);
      [congruence | simpl; lia]. }
  unfold User_add_connection. run ltac:(apply self_run).
  rewrite Hempty, size_empty. change (0 =? 0)%nat with true. cbv iota.
  run ltac:(apply logging_run).
  run ltac:(apply (is_running_spec u (Sys (world s) _) out w1 text Hout Htext)).
  split; [| split].
  - intros Hrunning w2 w3 Hdown Hup. rewrite (Hblank Hrunning). cbv iota.
    run ltac:(apply logging_run).
    run ltac:(apply (stop_compose_spec u (Sys w1 _) 3 w2 Hdown)).
    run ltac:(apply get_compose_cmd_run).
    run ltac:(apply (call_run _ _ u (Sys w2 _) _ _ Hup)).
    run ltac:(apply logging_run).
    unfold bridge_and_record. simpl world. simpl trace.
    rewrite <- !app_assoc. reflexivity.
  - intros Hnone w3 Hup. rewrite Hnone. simpl Nat.ltb. cbv iota.
    run ltac:(reflexivity).
    run ltac:(apply get_compose_cmd_run).
    run ltac:(apply (call_run _ _ u (Sys w1 _) _ _ Hup)).
    run ltac:(apply logging_run).
    unfold bridge_and_record. simpl world. simpl trace.
    rewrite <- !app_assoc. reflexivity.
  - intros Hnone e w3 Hup. rewrite Hnone. simpl Nat.ltb. cbv iota.
    run ltac:(reflexivity).
    run ltac:(apply get_compose_cmd_run).
    rewrite ?bind_assoc.
    erewrite bind_Raise; [| apply (call_run _ _ u (Sys w1 _) _ _ Hup)].
    simpl world. simpl trace. rewrite <- !app_assoc. reflexivity.
Qed.

Lemma remove_connection_others_left (address : str) (port : Z) (u : User)
    (s : sys W) :
  let addr := User__fmt_address address port in
  addr ∈ connections u ->
  connections u ∖ {[addr]} <> ∅ ->
  User_remove_connection address port (u, s)
  = (Ret tt,
     (set_connections u (connections u ∖ {[addr]}),
      Sys (world s)
        (trace s
         ++ [Log INFO (pystr "user %s (at %s) disconnected from challenge %s ")
               [name u; addr; ref_name (challenge u)]]))).
Proof.
  intros addr Hin Hrest. unfold User_remove_connection.
  run ltac:(apply self_run). fold addr.
  rewrite bool_decide_eq_true_2 by exact Hin. cbv beta iota delta [negb].
  run ltac:(apply logging_run).
  run ltac:(reflexivity).
  run ltac:(apply self_run).
  assert (Hsize : (size (connections u ∖ {[addr]}) =? 0)%nat = false).
  { apply Nat.eqb_neq. intros Hsize.
    apply Hrest, leibniz_equiv, size_empty_iff, Hsize. }
  cbn [connections set_connections]. rewrite Hsize. reflexivity.
Qed.

(** X17: removing a connection that is not the last one only logs and drops
    the address: the cluster is not asked about nor stopped, and netlink is
    not read. *)
Theorem remove_connection_not_last (address : str) (port : Z) (u : User)
    (s : sys W) :
  let addr := User__fmt_address address port in
  addr ∈ connections u ->
  connections u ∖ {[addr]} <> ∅ ->
  User_remove_connection address port (u, s)
  = (Ret tt,
     (set_connections u (connections u ∖ {[addr]}),
      Sys (world s)
        (trace s
         ++ [Log INFO (pystr "user %s (at %s) disconnected from challenge %s ")
               [name u; addr; ref_name (challenge u)]]))).
Proof. apply remove_connection_others_left. Qed.

(** X18: on a user that has other connections, a connection that is added and
    then removed leaves the user exactly as it was; the two calls only log,
    and the host is not touched. *)
Theorem add_then_remove_connection (address : str) (port : Z) (u : User)
    (s : sys W) :
  let addr := User__fmt_address address port in
  connections u <> ∅ ->
  addr ∉ connections u ->
  (User_add_connection address port ;; User_remove_connection address port)
    (u, s)
  = (Ret tt,
     (u,
      Sys (world s)
        (trace s
         ++ [Log INFO (pystr "user %s connected from %s to challenge %s")
               [name u; addr; ref_name (challenge u)];
             Log INFO (pystr "user %s (at %s) disconnected from challenge %s ")
               [name u; addr; ref_name (challenge u)]]))).
Proof.
  intros addr Hlive Hnew.
  run ltac:(apply (add_connection_live address port u s Hlive)).
  fold addr.
  assert (Hback : ({[addr]} ∪ connections u) ∖ {[addr]} = connections u).
  { apply set_eq. intros x.
    rewrite elem_of_difference, elem_of_union, elem_of_singleton.
    split; [intros [[-> | Hx] Hne]; [contradiction | exact Hx] |].
    intros Hx. split; [right; exact Hx | intros ->; contradiction]. }
  rewrite remove_connection_others_left; fold addr;
    cbn [connections name challenge set_connections world trace].
  - rewrite Hback, <- app_assoc. clear. destruct u. reflexivity.
  - apply elem_of_union_l, elem_of_singleton. reflexivity.
  - rewrite Hback. exact Hlive.
Qed.

(** *** Is the cluster running? *)

Lemma lstrip_spec (t : str) :
  exists pre, t = pre ++ lstrip t /\ Forall (fun c => isspace c = true) pre.
Proof.
  induction t as [| c t (pre & Hpre & Hall)]; [exists []; auto |].
  simpl. destruct (isspace c) eqn:Hc.
  - exists (c :: pre). split; [simpl; f_equal; exact Hpre | auto].
  - exists []. auto.
Qed.

Lemma lstrip_nil (t : str) :
  lstrip t = [] <-> Forall (fun c => isspace c = true) t.
Proof.
  split.
  - intros Hnil. destruct (lstrip_spec t) as (pre & Hpre & Hall).
    rewrite Hnil, app_nil_r in Hpre. subst. exact Hall.
  - induction 1 as [| c t Hc _ IH]; [reflexivity |].
    simpl. rewrite Hc. exact IH.
Qed.

Lemma strip_nil (t : str) :
  strip t = [] <-> Forall (fun c => isspace c = true) t.
Proof.
  unfold strip, rstrip. split.
  - intros Hnil. apply (f_equal (@rev N)) in Hnil.
    rewrite rev_involutive in Hnil. simpl in Hnil.
    apply lstrip_nil in Hnil.
    destruct (lstrip_spec t) as (pre & Hpre & Hall). rewrite Hpre.
    apply Forall_app. split; [exact Hall |].
    rewrite <- (rev_involutive (lstrip t)). apply Forall_rev, Hnil.
  - intros Hall. apply lstrip_nil in Hall. rewrite Hall. reflexivity.
Qed.

Lemma blank_or_not (t : str) :
  Forall (fun c => isspace c = true) t
  \/ Exists (fun c => isspace c = false) t.
Proof.
  induction t as [| c t [IH | IH]]; [left; constructor | |].
  - destruct (isspace c) eqn:Hc; [left | right]; constructor; assumption.
  - right. apply Exists_cons_tl, IH.
Qed.

(** X19: [is_running] asks [docker-compose top] and answers [True] exactly
    when the output, read as UTF-8, has a character that is not white
    space; output that is not UTF-8 makes it raise [UnicodeDecodeError]. *)
Theorem is_running_nonblank (u : User) (s : sys W) (out : bytes) (w1 : W) :
  let top := compose_cmd u [pystr "top"] in
  let asked :=
    Sys w1 (trace s ++ [Log DEBUG (join (pystr " ") top) [];
                        CheckOutput top]) in
  check_output top (world s) = (Ret out, w1) ->
  match utf8_decode out with
  | Some text =>
      exists b, User_is_running (u, s) = (Ret b, (u, asked))
                /\ (b = true <-> Exists (fun c => isspace c = false) text)
  | None => User_is_running (u, s) = (Raise UnicodeDecodeError, (u, asked))
  end.
Proof.
  intros top asked Hout. destruct (utf8_decode out) as [text |] eqn:Htext.
  - exists (0 <? length (strip text))%nat.
    split; [apply (is_running_spec u s out w1 text Hout Htext) |].
    rewrite Nat.ltb_lt. split.
    + intros Hlen. destruct (blank_or_not text) as [Hall | Hex];
        [| exact Hex].
      apply strip_nil in Hall. rewrite Hall in Hlen. simpl in Hlen. lia.
    + intros Hex. destruct (strip text) eqn:Hstrip; [| simpl; lia].
      exfalso. apply strip_nil in Hstrip.
      apply Exists_exists in Hex as (c & Hc & Hsp).
      rewrite Forall_forall in Hstrip. rewrite (Hstrip c Hc) in Hsp.
      discriminate.
  - unfold User_is_running. run ltac:(apply get_compose_cmd_run).
    run ltac:(apply (call_run _ _ u (Sys (world s) _) _ _ Hout)).
    rewrite Htext. unfold raise, asked. cbn [world trace].
    rewrite <- app_assoc. reflexivity.
Qed.

(** *** The bridge of the cluster *)

Lemma get_bridge_iface_run (u : User) (s : sys W) (nets : list Network)
    (w1 : W) :
  let names := [id u ++ pystr "_default"] in
  networks_list names (world s) = (Ret nets, w1) ->
  User__get_bridge_iface (u, s)
  = match nets with
    | [] =>
        (Raise (ValueError (pystr "No default network up for " ++ id u)),
         (u, Sys w1 (trace s ++ [NetworksList names])))
    | net0 :: _ =>
        let bridge := pystr "br-" ++ take 12 (net_id net0) in
        (match ipdb_interfaces bridge w1 with
         | Some i => Ret i
         | None => Raise (KeyError bridge)
         end,
         (u, Sys w1 (trace s ++ [NetworksList names; IpdbLookup bridge])))
    end.
Proof.
  intros names Hnets. unfold User__get_bridge_iface.
  run ltac:(apply self_run).
  run ltac:(apply (call_run _ _ u s _ _ Hnets)).
  destruct nets as [| net0 rest]; [reflexivity |].
  unfold ipdb_getitem. run ltac:(apply query_run).
  cbn [world trace]. rewrite <- app_assoc.
  change (slice_to (net_id net0) 12) with (take 12 (net_id net0)).
  destruct (ipdb_interfaces _ w1); reflexivity.
Qed.

(** X20: [_get_bridge_iface] asks docker for the networks named
    [<project id>_default]: with none it raises [ValueError] without looking
    at netlink; otherwise it looks up the interface ["br-"] followed by the
    first 12 characters of the id of the first network, and raises
    [KeyError] for that name when netlink has no such interface. *)
Theorem get_bridge_iface_cases (u : User) (s : sys W) (nets : list Network)
    (w1 : W) :
  let names := [id u ++ pystr "_default"] in
  networks_list names (world s) = (Ret nets, w1) ->
  User__get_bridge_iface (u, s)
  = match nets with
    | [] =>
        (Raise (ValueError (pystr "No default network up for " ++ id u)),
         (u, Sys w1 (trace s ++ [NetworksList names])))
    | net0 :: _ =>
        let bridge := pystr "br-" ++ take 12 (net_id net0) in
        (match ipdb_interfaces bridge w1 with
         | Some i => Ret i
         | None => Raise (KeyError bridge)
         end,
         (u, Sys w1 (trace s ++ [NetworksList names; IpdbLookup bridge])))
    end.
Proof. apply get_bridge_iface_run. Qed.

(** *** Bridging the VLAN *)

Ltac run_in Hrun lem :=
  rewrite ?bind_assoc in Hrun; erewrite bind_Ret in Hrun; [| lem];
  cbv beta iota in Hrun.

Lemma call_Ret_inv {X A} ev (op : W -> outcome A * W) (x : X) (s : sys W)
    a x' s' :
  call ev op (x, s) = (Ret a, (x', s')) ->
  op (world s) = (Ret a, world s') /\ x' = x /\ trace s' = trace s ++ [ev].
Proof.
  unfold call. destruct (op (world s)) as [r w]. intros Hrun.
  inversion Hrun; subst. auto.
Qed.

Lemma get_bridge_iface_Ret_inv (u : User) (s : sys W) bi u' s' :
  User__get_bridge_iface (u, s) = (Ret bi, (u', s')) ->
  exists net0 nets,
    networks_list [id u ++ pystr "_default"] (world s)
      = (Ret (net0 :: nets), world s')
    /\ ipdb_interfaces (pystr "br-" ++ take 12 (net_id net0)) (world s')
       = Some bi
    /\ u' = u
    /\ trace s'
       = trace s ++ [NetworksList [id u ++ pystr "_default"];
                     IpdbLookup (pystr "br-" ++ take 12 (net_id net0))].
Proof.
  destruct (networks_list [id u ++ pystr "_default"] (world s))
    as [[nets | e |] w1] eqn:Hnets.
  - rewrite (get_bridge_iface_run u s nets w1 Hnets).
    destruct nets as [| net0 rest]; [discriminate |]. cbv zeta.
    destruct (ipdb_interfaces (pystr "br-" ++ take 12 (net_id net0)) w1)
      as [i |] eqn:Hbridge; [| discriminate].
    intros Hrun. inversion Hrun; subst. exists net0, rest. auto.
  - unfold User__get_bridge_iface. run ltac:(apply self_run).
    erewrite bind_Raise; [discriminate |].
    apply (call_run _ _ u s _ _ Hnets).
  - unfold User__get_bridge_iface. run ltac:(apply self_run).
    erewrite bind_Diverge; [discriminate |].
    apply (call_run _ _ u s _ _ Hnets).
Qed.

Lemma get_bridge_iface_found (u : User) (s : sys W) net0 nets w1 bi :
  networks_list [id u ++ pystr "_default"] (world s)
    = (Ret (net0 :: nets), w1) ->
  ipdb_interfaces (pystr "br-" ++ take 12 (net_id net0)) w1 = Some bi ->
  User__get_bridge_iface (u, s)
  = (Ret bi,
     (u, Sys w1 (trace s
                 ++ [NetworksList [id u ++ pystr "_default"];
                     IpdbLookup (pystr "br-" ++ take 12 (net_id net0))]))).
Proof.
  intros Hnets Hbridge.
  rewrite (get_bridge_iface_run u s _ w1 Hnets). cbv zeta.
  rewrite Hbridge. reflexivity.
Qed.

(** [for addr, mask in bridge_if.ipaddr: bridge_if.del_ip(addr, mask)], on
    the host alone. *)
Fixpoint del_ips (bridge_if : Iface) (l : list (str * Z)) (w : W)
  : outcome unit * W :=
  match l with
  | [] => (Ret tt, w)
  | (addr, mask) :: l =>
      match iface_del_ip bridge_if addr mask w with
      | (Ret _, w1) => del_ips bridge_if l w1
      | failed => failed
      end
  end.

Lemma strip_addresses_Ret_inv (bridge_if : Iface) (l : list (str * Z))
    (u : User) (s : sys W) u' s' :
  for_each l (fun '(addr, mask) =>
      call (IfaceDelIp bridge_if addr mask)
           (iface_del_ip bridge_if addr mask)) (u, s)
    = (Ret tt, (u', s')) ->
  del_ips bridge_if l (world s) = (Ret tt, world s')
  /\ u' = u
  /\ trace s' = trace s ++ map (fun am => IfaceDelIp bridge_if am.1 am.2) l.
Proof.
  revert s. induction l as [| [addr mask] l IH]; intros s Hrun.
  - inversion Hrun. rewrite app_nil_r. auto.
  - simpl in Hrun. apply bind_Ret_inv in Hrun as ([] & [u1 s1] & Hcall & Hrest).
    apply call_Ret_inv in Hcall as (Hop & -> & Htr).
    apply IH in Hrest as (Hdel & -> & Htr').
    split; [simpl; rewrite Hop; exact Hdel |]. split; [reflexivity |].
    rewrite Htr', Htr, <- app_assoc. reflexivity.
Qed.

Lemma strip_addresses_run (bridge_if : Iface) (l : list (str * Z))
    (u : User) (s : sys W) w' :
  del_ips bridge_if l (world s) = (Ret tt, w') ->
  for_each l (fun '(addr, mask) =>
      call (IfaceDelIp bridge_if addr mask)
           (iface_del_ip bridge_if addr mask)) (u, s)
  = (Ret tt,
     (u, Sys w' (trace s
                 ++ map (fun am => IfaceDelIp bridge_if am.1 am.2) l))).
Proof.
  revert s. induction l as [| [addr mask] l IH]; intros s Hdel.
  - simpl in Hdel. inversion Hdel; subst. destruct s as [w tr].
    simpl. rewrite app_nil_r. reflexivity.
  - simpl in Hdel.
    destruct (iface_del_ip bridge_if addr mask (world s))
      as [[[] | e |] w1] eqn:Hop; try discriminate.
    simpl. rewrite (bind_Ret _ _ _ _ _ (call_run _ _ u s _ _ Hop)).
    rewrite (IH (Sys w1 _) Hdel). cbn [trace]. rewrite <- app_assoc.
    reflexivity.
Qed.

(** The events of [ensure_vlan_bridged] up to the comparison of the master
    of the VLAN interface with the bridge. *)
Definition bridging_found (u : User) (created : bool) (i0 : Iface)
    (bridge : str) : list event :=
  let ifn := User__vlan_ifname u in
  [IpdbLookup ifn]
  ++ (if created
      then [Log INFO (pystr "creating vlan %s") [ifn];
            IpdbCreateVlan ifn (ref_host_veth (challenge u)) (vlan u)]
      else [IpdbLookup ifn])
  ++ [IfaceUp i0; NetworksList [id u ++ pystr "_default"]; IpdbLookup bridge].

(** The events of [ensure_vlan_bridged] from there on. *)
Definition bridging_done (u : User) (vlan_if bridge_if : Iface) : list event :=
  if bool_decide (master vlan_if = Some (index bridge_if)) then []
  else
    Log INFO (pystr "adding vlan %s to bridge %s")
      [User__vlan_ifname u; ifname bridge_if]
    :: map (fun am => IfaceDelIp bridge_if am.1 am.2) (ipaddr bridge_if)
    ++ [IfaceAddPort bridge_if vlan_if].

(** What a returning [ensure_vlan_bridged] of [u] has asked of the host and
    was answered, from the world [w] to the world [w'], and the events
    [evs] it left:
    - [i0] is the VLAN interface netlink had under the name of [u]'s
      sub-interface, or, when it had none, the one that was created on the
      VETH with the VLAN id of [u];
    - [vlan_if] is [i0] as it is once brought up;
    - docker listed [net0] first for [<id>_default], and [bridge_if] is the
      interface netlink has for ["br-"] and the first 12 characters of its
      id;
    - when the master of [vlan_if] is the index of [bridge_if] nothing more
      was done; otherwise every address of [bridge_if] was deleted, in
      order, and then [vlan_if] was made a port of [bridge_if]. *)
Definition vlan_bridged (u : User) (w : W) (evs : list event) (w' : W)
  : Prop :=
  let ifn := User__vlan_ifname u in
  let names := [id u ++ pystr "_default"] in
  exists (created : bool) (i0 vlan_if bridge_if : Iface) (net0 : Network)
         (nets : list Network) (w1 w2 w3 : W),
    let bridge := pystr "br-" ++ take 12 (net_id net0) in
    (if created
     then ipdb_interfaces ifn w = None
          /\ ipdb_create_vlan ifn (ref_host_veth (challenge u)) (vlan u) w
             = (Ret i0, w1)
     else ipdb_interfaces ifn w = Some i0 /\ w1 = w)
    /\ iface_up i0 w1 = (Ret vlan_if, w2)
    /\ networks_list names w2 = (Ret (net0 :: nets), w3)
    /\ ipdb_interfaces bridge w3 = Some bridge_if
    /\ (if bool_decide (master vlan_if = Some (index bridge_if))
        then w' = w3
        else exists w4,
               del_ips bridge_if (ipaddr bridge_if) w3 = (Ret tt, w4)
               /\ iface_add_port bridge_if vlan_if w4 = (Ret tt, w'))
    /\ evs = bridging_found u created i0 bridge
             ++ bridging_done u vlan_if bridge_if.

Lemma ensure_vlan_bridged_Ret_inv (u : User) (s : sys W) (u' : User)
    (s' : sys W) :
  User_ensure_vlan_bridged (u, s) = (Ret tt, (u', s')) ->
  u' = u
  /\ exists evs, vlan_bridged u (world s) evs (world s')
                 /\ trace s' = trace s ++ evs.
Proof.
  unfold User_ensure_vlan_bridged. intros Hrun.
  run_in Hrun ltac:(apply self_run).
  unfold ipdb_contains in Hrun.
  run_in Hrun ltac:(apply query_run).
  run_in Hrun ltac:(reflexivity).
  cbn [world trace] in Hrun.
  set (ifn := User__vlan_ifname u) in *.
  assert (Hfound : exists (created : bool) (i0 : Iface) (s1 : sys W)
                     (rest : Iface -> M (User * sys W) unit),
            (if created
             then ipdb_interfaces ifn (world s) = None
                  /\ ipdb_create_vlan ifn (ref_host_veth (challenge u))
                       (vlan u) (world s) = (Ret i0, world s1)
             else ipdb_interfaces ifn (world s) = Some i0
                  /\ world s1 = world s)
            /\ trace s1
               = trace s ++ [IpdbLookup ifn]
                 ++ (if created
                     then [Log INFO (pystr "creating vlan %s") [ifn];
                           IpdbCreateVlan ifn (ref_host_veth (challenge u))
                             (vlan u)]
                     else [IpdbLookup ifn])
            /\ rest = (fun vlan_if =>
                 vlan_if <- call (IfaceUp vlan_if) (iface_up vlan_if) ;;
                 bridge_if <- User__get_bridge_iface ;;
                 when negb (bool_decide
                              (master vlan_if = Some (index bridge_if))) then
                   (logging INFO "adding vlan %s to bridge %s"
                      [ifn; ifname bridge_if] ;;
                    for_each (ipaddr bridge_if) (fun '(addr, mask) =>
                      call (IfaceDelIp bridge_if addr mask)
                           (iface_del_ip bridge_if addr mask)) ;;
                    call (IfaceAddPort bridge_if vlan_if)
                         (iface_add_port bridge_if vlan_if)))
            /\ rest i0 (u, s1) = (Ret tt, (u', s'))).
  { destruct (ipdb_interfaces ifn (world s)) as [i |] eqn:Hlook.
    - rewrite bool_decide_eq_true_2 in Hrun by eauto.
      cbv beta iota delta [negb] in Hrun. unfold ipdb_getitem in Hrun.
      run_in Hrun ltac:(apply query_run). cbn [world trace] in Hrun.
      rewrite Hlook in Hrun. run_in Hrun ltac:(reflexivity).
      eexists false, i, _, _.
      (split; [| split; [| split; [reflexivity | exact Hrun]]]);
        [split; reflexivity |].
      cbn [trace]. rewrite <- app_assoc. reflexivity.
    - rewrite bool_decide_eq_false_2 in Hrun
        by (intros [? ?]; discriminate).
      cbv beta iota delta [negb] in Hrun.
      run_in Hrun ltac:(apply logging_run). cbn [world trace] in Hrun.
      rewrite ?bind_assoc in Hrun.
      apply bind_Ret_inv in Hrun as (i0 & [u1 s1] & Hcreate & Hrun).
      apply call_Ret_inv in Hcreate as (Hop & -> & Htr).
      cbn [world trace] in Hop, Htr.
      eexists true, i0, s1, _.
      split; [split; [reflexivity | exact Hop] |].
      split; [| split; [reflexivity | exact Hrun]].
      rewrite Htr. rewrite <- !app_assoc. reflexivity. }
  clear Hrun.
  destruct Hfound as (created & i0 & s1 & rest & Hcreated & Htr1 & -> & Hrun).
  apply bind_Ret_inv in Hrun as (vlan_if & [u2 s2] & Hup & Hrun).
  apply call_Ret_inv in Hup as (Hup & -> & Htr2).
  apply bind_Ret_inv in Hrun as (bridge_if & [u3 s3] & Hbridge & Hrun).
  apply get_bridge_iface_Ret_inv in Hbridge
    as (net0 & nets & Hnets & Hbridge & -> & Htr3).
  assert (Hdone : u' = u
                  /\ (if bool_decide (master vlan_if = Some (index bridge_if))
                      then world s' = world s3
                      else exists w4,
                             del_ips bridge_if (ipaddr bridge_if) (world s3)
                               = (Ret tt, w4)
                             /\ iface_add_port bridge_if vlan_if w4
                                = (Ret tt, world s'))
                  /\ trace s' = trace s3 ++ bridging_done u vlan_if bridge_if).
  { unfold bridging_done. fold ifn.
    destruct (bool_decide (master vlan_if = Some (index bridge_if))).
    - inversion Hrun. rewrite app_nil_r. auto.
    - cbv beta iota delta [negb] in Hrun.
      run_in Hrun ltac:(apply logging_run).
      rewrite ?bind_assoc in Hrun.
      apply bind_Ret_inv in Hrun as ([] & [u4 s4] & Hstrip & Hport).
      apply strip_addresses_Ret_inv in Hstrip as (Hdel & -> & Htr4).
      apply call_Ret_inv in Hport as (Hport & -> & Htr5).
      cbn [world trace] in Hdel, Htr4.
      split; [reflexivity |]. split; [exists (world s4); auto |].
      rewrite Htr5, Htr4. rewrite <- !app_assoc. reflexivity. }
  destruct Hdone as (-> & Hdone & Htr'). split; [reflexivity |].
  exists (bridging_found u created i0 (pystr "br-" ++ take 12 (net_id net0))
          ++ bridging_done u vlan_if bridge_if).
  split.
  - exists created, i0, vlan_if, bridge_if, net0, nets,
      (world s1), (world s2), (world s3).
    fold ifn. auto 10.
  - rewrite Htr', Htr3, Htr2, Htr1. unfold bridging_found. fold ifn.
    rewrite <- !app_assoc. reflexivity.
Qed.

(** X21: when [ensure_vlan_bridged] returns, the user is unchanged and the
    host was asked this, in this order, and answered: the VLAN interface is
    the one netlink had under its name, or was created on the VETH with the
    VLAN id exactly when netlink had none; it was brought up; the bridge is
    the interface netlink has for ["br-"] and the first 12 characters of the
    id of the first network docker lists for [<id>_default]; and when the
    master of the VLAN interface, as it is once up, is not that bridge,
    every address of the bridge was deleted and then the VLAN interface was
    made a port of the bridge; when it is, nothing more was done. *)
Theorem ensure_vlan_bridged_returns (u : User) (s : sys W) (u' : User)
    (s' : sys W) :
  User_ensure_vlan_bridged (u, s) = (Ret tt, (u', s')) <->
  u' = u
  /\ exists evs, vlan_bridged u (world s) evs (world s')
                 /\ trace s' = trace s ++ evs.
Proof.
  split; [apply ensure_vlan_bridged_Ret_inv |].
  intros (-> & evs & Hbridged & Htrace).
  destruct s' as [w' tr']. cbn [world trace] in Hbridged, Htrace. subst tr'.
  destruct Hbridged as (created & i0 & vlan_if & bridge_if & net0 & nets
                        & w1 & w2 & w3 & Hvlan & Hup & Hnets & Hbridge
                        & Hport & ->).
  unfold User_ensure_vlan_bridged. run ltac:(apply self_run).
  unfold ipdb_contains. run ltac:(apply query_run). run ltac:(reflexivity).
  cbn [world trace]. set (ifn := User__vlan_ifname u) in *.
  assert (Hfound :
    forall rest : Iface -> M (User * sys W) unit,
      (vlan_if <-
         (if negb (bool_decide (is_Some (ipdb_interfaces ifn (world s))))
          then
            logging INFO "creating vlan %s" [ifn] ;;
            call (IpdbCreateVlan ifn (ref_host_veth (challenge u)) (vlan u))
              (ipdb_create_vlan ifn (ref_host_veth (challenge u)) (vlan u))
          else ipdb_getitem ifn) ;;
       rest vlan_if)
        (u, Sys (world s) (trace s ++ [IpdbLookup ifn]))
      = rest i0
          (u, Sys w1
                (trace s ++ [IpdbLookup ifn]
                 ++ (if created
                     then [Log INFO (pystr "creating vlan %s") [ifn];
                           IpdbCreateVlan ifn (ref_host_veth (challenge u))
                             (vlan u)]
                     else [IpdbLookup ifn])))).
  { intros rest. destruct created.
    - destruct Hvlan as [Hnone Hcreate]. rewrite Hnone.
      rewrite bool_decide_eq_false_2 by (intros [? ?]; discriminate).
      cbv beta iota delta [negb].
      run ltac:(apply logging_run).
      run ltac:(apply (call_run _ _ u (Sys (world s) _) _ _ Hcreate)).
      cbn [world trace]. rewrite <- !app_assoc. reflexivity.
    - destruct Hvlan as [Hsome ->]. rewrite Hsome.
      rewrite bool_decide_eq_true_2 by eauto.
      cbv beta iota delta [negb]. unfold ipdb_getitem.
      run ltac:(apply query_run). cbn [world trace]. rewrite Hsome.
      run ltac:(reflexivity). rewrite <- !app_assoc. reflexivity. }
  rewrite Hfound. clear Hfound.
  run ltac:(apply (call_run _ _ u (Sys w1 _) _ _ Hup)).
  run ltac:(apply (get_bridge_iface_found u (Sys w2 _) net0 nets w3 bridge_if
                     Hnets Hbridge)).
  unfold bridging_found, bridging_done. fold ifn. cbn [world trace].
  destruct (bool_decide (master vlan_if = Some (index bridge_if))).
  - subst w'. cbv beta iota delta [negb]. unfold ret.
    rewrite app_nil_r, <- !app_assoc. reflexivity.
  - destruct Hport as (w4 & Hdel & Hport). cbv beta iota delta [negb].
    run ltac:(apply logging_run).
    run ltac:(apply (strip_addresses_run bridge_if (ipaddr bridge_if) u
                       (Sys w3 _) w4 Hdel)).
    rewrite (call_run _ _ u (Sys w4 _) _ _ Hport). cbn [world trace].
    rewrite <- !app_assoc. reflexivity.
Qed.

(** *** The first connection and the next *)

Lemma is_running_Ret_inv (u : User) (s : sys W) b u' s' :
  User_is_running (u, s) = (Ret b, (u', s')) ->
  exists out text,
    check_output (compose_cmd u [pystr "top"]) (world s) = (Ret out, world s')
    /\ utf8_decode out = Some text
    /\ b = (0 <? length (strip text))%nat
    /\ u' = u
    /\ trace s'
       = trace s
         ++ [Log DEBUG (join (pystr " ") (compose_cmd u [pystr "top"])) [];
             CheckOutput (compose_cmd u [pystr "top"])].
Proof.
  unfold User_is_running. intros Hrun.
  run_in Hrun ltac:(apply get_compose_cmd_run).
  apply bind_Ret_inv in Hrun as (out & [u1 s1] & Hcall & Hrun).
  apply call_Ret_inv in Hcall as (Hout & -> & Htr).
  cbn [world trace] in Hout, Htr.
  destruct (utf8_decode out) as [text |] eqn:Htext; [| discriminate].
  inversion Hrun; subst. exists out, text.
  rewrite Htr, <- app_assoc. auto.
Qed.

Lemma stop_compose_Ret_inv (timeout : Z) (u : User) (s : sys W) u' s' :
  let cmd := compose_cmd u
               [pystr "down"; pystr "--timeout"; str_of_int timeout] in
  User_stop_compose timeout (u, s) = (Ret tt, (u', s')) ->
  check_call cmd (world s) = (Ret tt, world s')
  /\ u' = u
  /\ trace s'
     = trace s
       ++ [Log DEBUG (join (pystr " ") cmd) [];
           CheckCall cmd;
           Log DEBUG (pystr "cluster down for %s's %s challenge")
             [name u; ref_name (challenge u)]].
Proof.
  intros cmd. unfold User_stop_compose. intros Hrun.
  run_in Hrun ltac:(apply self_run).
  run_in Hrun ltac:(apply get_compose_cmd_run).
  apply bind_Ret_inv in Hrun as ([] & [u1 s1] & Hcall & Hrun).
  apply call_Ret_inv in Hcall as (Hdown & -> & Htr).
  cbn [world trace] in Hdown, Htr.
  inversion Hrun; subst. cbn [world trace].
  rewrite Htr, <- !app_assoc. auto.
Qed.

(** What a returning first [add_connection] of [u] (one that found
    [connections] empty) has asked of the host and was answered before it
    recorded the connection, from the world [w] to the world [w'], and the
    events [evs] it left: [docker-compose top] printed [out]; when that is
    not blank, [down --timeout 3] succeeded; [up --detach] succeeded; and
    then the VLAN was bridged. *)
Definition cluster_booted (u : User) (w : W) (evs : list event) (w' : W)
  : Prop :=
  let top := compose_cmd u [pystr "top"] in
  let down := compose_cmd u [pystr "down"; pystr "--timeout"; pystr "3"] in
  let up := compose_cmd u [pystr "up"; pystr "--detach"] in
  let who := [name u; ref_name (challenge u)] in
  exists (out : bytes) (text : str) (w1 w2 w3 : W) (bridging : list event),
    check_output top w = (Ret out, w1)
    /\ utf8_decode out = Some text
    /\ (if (0 <? length (strip text))%nat
        then check_call down w1 = (Ret tt, w2)
        else w2 = w1)
    /\ check_call up w2 = (Ret tt, w3)
    /\ vlan_bridged u w3 bridging w'
    /\ evs
       = [Log INFO
            (pystr "first connection of user %s to challenge %s, booting cluster...")
            who;
          Log DEBUG (join (pystr " ") top) [];
          CheckOutput top]
         ++ (if (0 <? length (strip text))%nat
             then [Log WARNING
                     (pystr "cluster for user %s's %s challenge is already running, stopping it now...")
                     who;
                   Log DEBUG (join (pystr " ") down) [];
                   CheckCall down;
                   Log DEBUG (pystr "cluster down for %s's %s challenge") who]
             else [])
         ++ [Log DEBUG (join (pystr " ") up) [];
             CheckCall up;
             Log DEBUG (pystr "cluster up for %s's %s challenge") who]
         ++ bridging.

Lemma add_connection_first_Ret_inv (address : str) (port : Z) (u : User)
    (s : sys W) x u' s' :
  connections u = ∅ ->
  User_add_connection address port (u, s) = (Ret x, (u', s')) ->
  exists evs,
    cluster_booted u (world s) evs (world s')
    /\ trace s'
       = trace s ++ evs
         ++ [Log INFO (pystr "user %s connected from %s to challenge %s")
               [name u; User__fmt_address address port;
                ref_name (challenge u)]].
Proof.
  intros Hempty Hrun. unfold User_add_connection in Hrun.
  run_in Hrun ltac:(apply self_run).
  rewrite Hempty, size_empty in Hrun.
  change (0 =? 0)%nat with true in Hrun. cbv iota in Hrun.
  run_in Hrun ltac:(apply logging_run).
  rewrite ?bind_assoc in Hrun.
  apply bind_Ret_inv in Hrun as (running & [u1 s1] & Hrunning & Hrun).
  apply is_running_Ret_inv in Hrunning
    as (out & text & Hout & Htext & -> & -> & Htr1).
  cbn [world trace] in Hout, Htr1.
  assert (Hclean : exists s2,
            (if (0 <? length (strip text))%nat
             then check_call
                    (compose_cmd u [pystr "down"; pystr "--timeout"; pystr "3"])
                    (world s1) = (Ret tt, world s2)
             else world s2 = world s1)
            /\ trace s2
               = trace s1
                 ++ (if (0 <? length (strip text))%nat
                     then [Log WARNING
                             (pystr "cluster for user %s's %s challenge is already running, stopping it now...")
                             [name u; ref_name (challenge u)];
                           Log DEBUG
                             (join (pystr " ")
                                (compose_cmd u
                                   [pystr "down"; pystr "--timeout";
                                    pystr "3"])) [];
                           CheckCall
                             (compose_cmd u
                                [pystr "down"; pystr "--timeout"; pystr "3"]);
                           Log DEBUG
                             (pystr "cluster down for %s's %s challenge")
                             [name u; ref_name (challenge u)]]
                     else [])
            /\ ((cmd <- User__get_compose_cmd [pystr "up"; pystr "--detach"] ;;
                 call (CheckCall cmd) (check_call cmd) ;;
                 logging DEBUG "cluster up for %s's %s challenge"
                   [name u; ref_name (challenge u)] ;;
                 User_ensure_vlan_bridged) ;;
                logging INFO "user %s connected from %s to challenge %s"
                  [name u; User__fmt_address address port;
                   ref_name (challenge u)] ;;
                modify_self (fun u =>
                  set_connections u
                    ({[User__fmt_address address port]} ∪ connections u)))
                 (u, s2)
               = (Ret x, (u', s'))).
  { destruct (0 <? length (strip text))%nat.
    - run_in Hrun ltac:(apply logging_run).
      rewrite ?bind_assoc in Hrun.
      apply bind_Ret_inv in Hrun as ([] & [u2 s2] & Hstop & Hrun).
      apply stop_compose_Ret_inv in Hstop as (Hdown & -> & Htr2).
      cbn [world trace] in Hdown, Htr2.
      exists s2. split; [exact Hdown |]. split; [| exact Hrun].
      rewrite Htr2, <- app_assoc. reflexivity.
    - run_in Hrun ltac:(reflexivity).
      exists s1. split; [reflexivity |]. split; [| exact Hrun].
      rewrite app_nil_r. reflexivity. }
  clear Hrun. destruct Hclean as (s2 & Hdown & Htr2 & Hrun).
  run_in Hrun ltac:(apply get_compose_cmd_run).
  rewrite ?bind_assoc in Hrun.
  apply bind_Ret_inv in Hrun as ([] & [u3 s3] & Hcall & Hrun).
  apply call_Ret_inv in Hcall as (Hup & -> & Htr3).
  cbn [world trace] in Hup, Htr3.
  run_in Hrun ltac:(apply logging_run).
  rewrite ?bind_assoc in Hrun.
  apply bind_Ret_inv in Hrun as ([] & [u4 s4] & Hbridged & Hrun).
  apply ensure_vlan_bridged_Ret_inv in Hbridged
    as (-> & bridging & Hbridged & Htr4).
  cbn [world trace] in Hbridged, Htr4.
  run_in Hrun ltac:(apply logging_run).
  inversion Hrun; subst. cbn [world trace].
  eexists. split.
  - exists out, text, (world s1), (world s2), (world s3), bridging.
    split; [exact Hout |]. split; [exact Htext |].
    split; [exact Hdown |]. split; [exact Hup |].
    split; [exact Hbridged | reflexivity].
  - rewrite Htr4, Htr3, Htr2, Htr1. rewrite <- !app_assoc. reflexivity.
Qed.

(** C5: when [connect_user] returns, the user has the address in its
    connection set, and
    - if the user had no connection before (it is new, or was idle), the
      call was the 0-to-1 transition: the address is now its one connection,
      and the call has booted the cluster and bridged the VLAN on the host
      before it recorded the connection ([docker-compose top]; [down
      --timeout 3] when something was running; [up --detach], which
      succeeded; the VLAN interface found or created, brought up, and made
      a port of the bridge of the cluster unless it was one already): the
      user is LIVE;
    - if the user had a connection before, the call only logged the
      connection: the host was not touched;
    - a second [connect_user] with the same challenge, common name, address
      and port returns the same VLAN id, leaves the manager exactly as it
      was and does nothing but log the connection: no compose command is
      run and netlink is not used. *)
Theorem connect_user_twice
    (fuel fuel' : nat) (chal cn address : str) (port : Z)
    (m : Manager) (s : sys W) (v : Z) (m1 : Manager) (s1 : sys W) :
  let addr := User__fmt_address address port in
  Manager_connect_user fuel chal cn address port (m, s) = (Ret v, (m1, s1)) ->
  exists c c1 u1,
    let connected :=
      [Log INFO (pystr "user %s connected from %s to challenge %s")
         [name u1; addr; ref_name (challenge u1)]] in
    challenges m !! chal = Some c
    /\ challenges m1 !! chal = Some c1
    /\ users c1 !! cn = Some u1
    /\ vlan u1 = v
    /\ (addr ∈ connections u1)
    /\ User_state u1 = LIVE
    /\ ((forall u, users c !! cn = Some u -> connections u = ∅) ->
        connections u1 = {[addr]} /\ size (connections u1) = 1%nat
        /\ exists evs,
             cluster_booted u1
               (world (Challenge__ensure_user_exists fuel cn (c, s)).2.2)
               evs (world s1)
             /\ trace s1 = trace s ++ evs ++ connected)
    /\ (forall u, users c !! cn = Some u -> connections u <> ∅ ->
        s1 = Sys (world s) (trace s ++ connected))
    /\ Manager_connect_user fuel' chal cn address port (m1, s1)
       = (Ret v, (m1, Sys (world s1) (trace s1 ++ connected))).
Proof.
  intros addr Hfirst. unfold Manager_connect_user in Hfirst.
  destruct (challenges m !! chal) as [c |] eqn:Hc;
    [| rewrite (on_challenge_unknown _ _ _ _ Hc) in Hfirst; discriminate].
  destruct (Challenge_connect_user fuel cn address port (c, s))
    as [r [c1 s1']] eqn:Hcc.
  rewrite (on_challenge_known _ _ _ _ _ _ _ _ Hc Hcc) in Hfirst.
  inversion Hfirst; subst r m1 s1'. clear Hfirst.
  unfold Challenge_connect_user in Hcc.
  apply bind_Ret_inv in Hcc as (x & [ca sa] & Hens & Hon).
  destruct (users ca !! cn) as [u0 |] eqn:Hu0;
    [| rewrite (on_user_unknown _ _ _ _ Hu0) in Hon; discriminate].
  destruct ((User_add_connection address port ;;
             user <- self ;; ret (vlan user)) (u0, sa))
    as [r [u1 s1']] eqn:Hbody.
  rewrite (on_user_known _ _ _ _ _ _ _ _ Hu0 Hbody) in Hon.
  inversion Hon; subst r c1 s1'. clear Hon.
  apply bind_Ret_inv in Hbody as (y & [u1' s1'] & Hadd & Hret).
  unfold bind, self, ret in Hret. simpl in Hret.
  inversion Hret; subst u1' s1' v. clear Hret.
  pose proof (add_connection_Ret_inv _ _ _ _ _ _ _ Hadd) as Hu1.
  assert (Hin : addr ∈ connections u1).
  { rewrite Hu1. simpl. apply elem_of_union_l, elem_of_singleton. reflexivity. }
  assert (Hlive : connections u1 <> ∅).
  { intros Hempty. rewrite Hempty in Hin. exact (not_elem_of_empty _ Hin). }
  set (c1 := set_users ca (<[cn := u1]> (users ca))).
  set (m1 := {| challenges := <[chal := c1]> (challenges m) |}).
  assert (Hc1 : challenges m1 !! chal = Some c1) by apply lookup_insert_eq.
  assert (Hcn : users c1 !! cn = Some u1) by apply lookup_insert_eq.
  assert (Hsame : name u1 = name u0 /\ challenge u1 = challenge u0)
    by (rewrite Hu1; split; reflexivity).
  destruct Hsame as [Hname Hchal].
  exists c, c1, u1. cbv zeta.
  split; [reflexivity |]. split; [exact Hc1 |]. split; [exact Hcn |].
  split; [reflexivity |]. split; [exact Hin |]. split.
  { unfold User_state. destruct (decide (connections u1 = ∅)); congruence. }
  split; [| split].
  - intros Hnone.
    assert (Hu0e : connections u0 = ∅).
    { destruct (ensure_user_exists_Ret_inv _ _ _ _ _ _ _ Hens)
        as [(u & Hu & -> & ->) | (Hnew & v & u & Hinit & ->)].
      - rewrite Hu in Hu0. inversion Hu0; subst u0. exact (Hnone u Hu).
      - simpl in Hu0. rewrite lookup_insert_eq in Hu0. inversion Hu0; subst u0.
        apply (User_init_Ret_inv _ _ _ _ Hinit). }
    assert (Hone : connections u1 = {[addr]}).
    { rewrite Hu1. simpl. rewrite Hu0e. apply (right_id_L ∅ (∪)). }
    split; [exact Hone |]. split; [rewrite Hone; apply size_singleton |].
    destruct (add_connection_first_Ret_inv _ _ _ _ _ _ _ Hu0e Hadd)
      as (evs & Hboot & Htr).
    exists evs. rewrite Hens. cbn [fst snd].
    split.
    + rewrite Hu1. exact Hboot.
    + rewrite Htr, Hname, Hchal.
      apply ensure_user_exists_ensured in Hens as [_ ->]. reflexivity.
  - intros u Hu Hconn.
    rewrite (ensure_user_exists_known _ _ _ _ _ Hu) in Hens.
    inversion Hens; subst ca sa. rewrite Hu in Hu0. inversion Hu0; subst u0.
    rewrite (add_connection_live _ _ _ _ Hconn) in Hadd.
    inversion Hadd; subst. reflexivity.
  - unfold Manager_connect_user.
    rewrite <- (challenges_insert_id m1 chal c1 Hc1) at 2.
    apply (on_challenge_known _ _ _ _ _ _ _ _ Hc1).
    unfold Challenge_connect_user.
    rewrite (bind_Ret _ _ _ _ _
               (ensure_user_exists_known fuel' cn c1 s1 u1 Hcn)).
    rewrite <- (users_insert_id c1 cn u1 Hcn) at 2.
    apply (on_user_known _ _ _ _ _ _ _ _ Hcn).
    rewrite (bind_Ret _ _ _ _ _ (add_connection_live address port u1 s1 Hlive)).
    unfold bind, self, ret. simpl. fold addr.
    replace ({[addr]} ∪ connections u1) with (connections u1).
    + rewrite set_connections_id. reflexivity.
    + symmetry. apply subseteq_union_1_L, singleton_subseteq_l, Hin.
Qed.

End Connection_theorems.

(* ===================================================================== *)
(** * The further properties on concrete inputs                           *)
(* ===================================================================== *)

(** [alice] before her first connection, and with a second tunnel. *)
Definition idle_alice : User := set_connections alice ∅.
Definition alice_twice : User :=
  set_connections alice {[pystr "10.8.0.2:49152"; pystr "10.8.0.2:49153"]}.

(** A host on which the cluster of [alice] was left running. *)
Definition stale_world : Sim.world :=
  Sim.World [] {[pystr "mfrgg_example"]} [Sim.host0].

(** A host on which the cluster of [alice] is up and her VLAN is not made
    yet: the bridge of the cluster has the address docker gave it. *)
Definition docker_bridge : Iface :=
  {| ifname := pystr "br-6d667267675f"; index := 2; master := None;
     ipaddr := [(pystr "172.18.0.1", 16)] |}.

Definition booted_world : Sim.world :=
  Sim.World [] {[pystr "mfrgg_example"]} [Sim.host0; docker_bridge].

(** The VLAN interface of [alice] as it is created. *)
Definition alice_vlan_if : Iface :=
  {| ifname := pystr "host0.1234"; index := 3; master := None; ipaddr := [] |}.

Definition top_output : bytes :=
  default [] (utf8_encode (pystr "web_1  UID  PID  CMD")).

Lemma run_eta {S A} (f : M S A) (x : S) : f x = ((f x).1, (f x).2).
Proof. destruct (f x). reflexivity. Qed.

Lemma run_eta2 {S T A} (f : M (S * T) A) (x : S * T) :
  f x = ((f x).1, ((f x).2.1, (f x).2.2)).
Proof. destruct (f x) as [r [a b]]. reflexivity. Qed.

Lemma fmt_address_inj_witness :
  User__fmt_address (pystr "10.8.0.2") 49152
    = User__fmt_address (pystr "10.8.0.2") 49152
  /\ pystr "10.8.0.2" = pystr "10.8.0.2" /\ 49152 = 49152.
Proof.
  split; [reflexivity |].
  apply (fmt_address_inj (pystr "10.8.0.2") (pystr "10.8.0.2") 49152 49152).
  reflexivity.
Defined.

Lemma vlan_ifname_inj_witness :
  vlan_ifname (pystr "a-rather-long-veth-name") 4000
    = vlan_ifname (pystr "a-rather-long-veth-pair") 4000
  /\ 4000 = 4000.
Proof.
  assert (Hsame : vlan_ifname (pystr "a-rather-long-veth-name") 4000
                  = vlan_ifname (pystr "a-rather-long-veth-pair") 4000)
    by (vm_compute; reflexivity).
  split; [exact Hsame |].
  apply (vlan_ifname_inj _ _ _ _ Hsame).
Defined.

Lemma decode_cn_alphabet_witness :
  User_decode_cn (pystr "MFRGG") = Ret (pystr "abc")
  /\ Forall b32_char (pystr "MFRGG").
Proof.
  assert (Hdec : User_decode_cn (pystr "MFRGG") = Ret (pystr "abc"))
    by (vm_compute; reflexivity).
  split; [exact Hdec | apply (decode_cn_alphabet _ _ Hdec)].
Defined.

Lemma decode_cn_padding_witness :
  (length (pystr "MFRGG") mod 8)%nat <> O
  /\ User_decode_cn (pystr "MFRGG" ++ str_repeat (pystr "=") 3)
     = User_decode_cn (pystr "MFRGG").
Proof.
  assert (Hmod : (length (pystr "MFRGG") mod 8)%nat <> O)
    by (vm_compute; discriminate).
  split; [exact Hmod | apply (decode_cn_padding (pystr "MFRGG") Hmod)].
Defined.

Lemma add_connection_outcome_witness :
  (User_add_connection (pystr "10.8.0.2") 49153 (alice, Sys live_world [])).1
    = Ret tt
  /\ (User_add_connection (pystr "10.8.0.2") 49153
        (alice, Sys live_world [])).2.1
     = alice_twice.
Proof.
  assert (Hret : (User_add_connection (pystr "10.8.0.2") 49153
                    (alice, Sys live_world [])).1 = Ret tt)
    by (vm_compute; reflexivity).
  split; [exact Hret |].
  destruct (add_connection_outcome (pystr "10.8.0.2") 49153 alice
              (Sys live_world []) _ _ _ (run_eta2 _ _))
    as [[_ Hadded] | [Hnot _]].
  - rewrite Hadded. vm_compute. reflexivity.
  - exfalso. apply Hnot. exists tt. exact Hret.
Defined.

Lemma remove_connection_outcome_witness :
  (User_remove_connection (pystr "10.8.0.2") 49152
     (alice, Sys live_world [])).2.1
  = idle_alice.
Proof.
  rewrite (remove_connection_outcome (pystr "10.8.0.2") 49152 alice
             (Sys live_world []) _ _ _ (run_eta2 _ _)).
  vm_compute. reflexivity.
Defined.

Lemma fresh_manager_reachable : @reachable Sim.world _ fresh_manager.
Proof.
  replace fresh_manager
    with (Manager_register_challenge (pystr "example") (pystr "host0")
            [pystr "ex.yml"] (Manager_init, Sim.boot [])).2.1
    by (vm_compute; reflexivity).
  apply reach_register, reach_init.
Qed.

Lemma fresh_manager_wf : Manager_wf fresh_manager.
Proof.
  replace fresh_manager
    with (Manager_register_challenge (pystr "example") (pystr "host0")
            [pystr "ex.yml"] (Manager_init, Sim.boot [])).2.1
    by (vm_compute; reflexivity).
  apply register_challenge_wf.
  intros n c Hn. simpl in Hn. rewrite lookup_empty in Hn. discriminate.
Qed.

Lemma reachable_wf_witness :
  @reachable Sim.world _ first_connect.2.1 /\ Manager_wf first_connect.2.1.
Proof.
  assert (Hreach : @reachable Sim.world _ first_connect.2.1)
    by (apply reach_connect, fresh_manager_reachable).
  split; [exact Hreach | apply (reachable_wf _ Hreach)].
Defined.

Lemma connect_user_returns_vlan_witness :
  first_connect.1 = Ret 1234 /\ 10 <= 1234 <= 4000.
Proof.
  assert (Hret : first_connect.1 = Ret 1234) by (vm_compute; reflexivity).
  split; [exact Hret |].
  assert (Hrun : first_connect
                 = (Ret 1234, (first_connect.2.1, first_connect.2.2)))
    by (rewrite <- Hret; apply run_eta2).
  destruct (connect_user_returns_vlan 1 (pystr "example") (pystr "MFRGG")
              (pystr "10.8.0.2") 49152 fresh_manager (Sim.boot [1234]) 1234
              _ _ Hrun) as (_ & _ & Hrange).
  apply Hrange, fresh_manager_wf.
Defined.

Lemma ensure_user_exists_once_witness :
  (Challenge__ensure_user_exists 1 (pystr "MFRGG")
     (empty_challenge, Sim.boot [1234])).1 = Ret tt
  /\ vlans (Challenge__ensure_user_exists 1 (pystr "MFRGG")
             (empty_challenge, Sim.boot [1234])).2.1 = {[1234]}
  /\ Challenge__ensure_user_exists 7 (pystr "MFRGG")
       (Challenge__ensure_user_exists 1 (pystr "MFRGG")
          (empty_challenge, Sim.boot [1234])).2
     = (Ret tt,
        (Challenge__ensure_user_exists 1 (pystr "MFRGG")
           (empty_challenge, Sim.boot [1234])).2).
Proof.
  assert (Hret : (Challenge__ensure_user_exists 1 (pystr "MFRGG")
                    (empty_challenge, Sim.boot [1234])).1 = Ret tt)
    by (vm_compute; reflexivity).
  split; [exact Hret |]. split; [vm_compute; reflexivity |].
  assert (Hrun : Challenge__ensure_user_exists 1 (pystr "MFRGG")
                   (empty_challenge, Sim.boot [1234])
                 = (Ret tt,
                    ((Challenge__ensure_user_exists 1 (pystr "MFRGG")
                        (empty_challenge, Sim.boot [1234])).2.1,
                     (Challenge__ensure_user_exists 1 (pystr "MFRGG")
                        (empty_challenge, Sim.boot [1234])).2.2)))
    by (rewrite <- Hret; apply run_eta2).
  destruct (ensure_user_exists_once 1 7 (pystr "MFRGG") empty_challenge
              (Sim.boot [1234]) _ _ Hrun) as (_ & _ & _ & Hagain).
  destruct (Challenge__ensure_user_exists 1 (pystr "MFRGG")
              (empty_challenge, Sim.boot [1234])) as [r [c s]].
  exact Hagain.
Defined.

Lemma register_challenge_new_witness :
  challenges Manager_init !! pystr "example" = None
  /\ challenges
       (Manager_register_challenge (pystr "example") (pystr "host0")
          [pystr "ex.yml"] (Manager_init, Sim.boot [])).2.1
     !! pystr "example"
     = Some empty_challenge
  /\ (Manager_register_challenge (pystr "example") (pystr "eth9")
        [pystr "ex.yml"] (Manager_init, Sim.boot [])).1
     = Raise (KeyError (pystr "eth9")).
Proof.
  assert (Hnew : challenges (Manager_init) !! pystr "example" = None)
    by (vm_compute; reflexivity).
  split; [exact Hnew |]. split.
  - destruct (register_challenge_new (pystr "example") (pystr "host0")
                [pystr "ex.yml"] Manager_init (Sim.boot []) _ _ _ Hnew
                (run_eta2 _ _)) as (Hstored & _).
    destruct Hstored as (veth & up & w & Hveth & Hup & Hlook);
      [exists tt; vm_compute; reflexivity |].
    rewrite Hlook. vm_compute in Hveth, Hup.
    inversion Hveth; subst veth. inversion Hup; subst up. reflexivity.
  - destruct (register_challenge_new (pystr "example") (pystr "eth9")
                [pystr "ex.yml"] Manager_init (Sim.boot []) _ _ _ Hnew
                (run_eta2 _ _)) as (_ & _ & Hmissing).
    apply Hmissing. vm_compute. reflexivity.
Defined.

Lemma Manager_stop_no_users_witness :
  (forall n c, challenges fresh_manager !! n = Some c -> users c = ∅)
  /\ Manager__stop (fresh_manager, Sim.boot [])
     = (Ret tt,
        (fresh_manager,
         Sys (world (Sim.boot []))
           [Close DockerClient; Close Ipdb; Close HostNs])).
Proof.
  assert (Hnone : forall n c,
            challenges fresh_manager !! n = Some c -> users c = ∅).
  { intros n c Hn.
    change (challenges fresh_manager)
      with ({[pystr "example" := empty_challenge]} : gmap str Challenge) in Hn.
    apply lookup_singleton_Some in Hn as [_ <-]. reflexivity. }
  split; [exact Hnone |].
  apply (Manager_stop_no_users fresh_manager (Sim.boot [])
           (world (Sim.boot [])) (world (Sim.boot [])) (world (Sim.boot []))
           (Ret tt) Hnone); reflexivity.
Defined.

Lemma add_connection_boot_sequence_witness :
  connections idle_alice = ∅
  /\ strip (pystr "web_1  UID  PID  CMD") <> []
  /\ (User_add_connection (pystr "10.8.0.2") 49152
        (idle_alice, Sys stale_world [])).1 = Ret tt
  /\ List.filter is_compose
       (trace (User_add_connection (pystr "10.8.0.2") 49152
                 (idle_alice, Sys stale_world [])).2.2)
     = [CheckOutput (compose_cmd alice [pystr "top"]);
        CheckCall (compose_cmd alice
                     [pystr "down"; pystr "--timeout"; pystr "3"]);
        CheckCall (compose_cmd alice [pystr "up"; pystr "--detach"])].
Proof.
  assert (Hempty : connections idle_alice = ∅) by reflexivity.
  assert (Hblank : strip (pystr "web_1  UID  PID  CMD") <> [])
    by (vm_compute; discriminate).
  split; [exact Hempty |]. split; [exact Hblank |].
  destruct (add_connection_boot_sequence (pystr "10.8.0.2") 49152 idle_alice
              (Sys stale_world []) top_output
              (pystr "web_1  UID  PID  CMD") stale_world Hempty)
    as (Hstale & _); [vm_compute; reflexivity .. |].
  rewrite (Hstale Hblank
             (Sim.World [] ∅ [Sim.host0])
             (check_call (compose_cmd idle_alice
                            [pystr "up"; pystr "--detach"])
                (Sim.World [] ∅ [Sim.host0])).2)
    by (vm_compute; reflexivity).
  split; vm_compute; reflexivity.
Defined.

Lemma remove_connection_not_last_witness :
  (pystr "10.8.0.2:49153" ∈ connections alice_twice)
  /\ User_remove_connection (pystr "10.8.0.2") 49153
       (alice_twice, Sys live_world [])
     = (Ret tt,
        (alice,
         Sys live_world
           [Log INFO
              (pystr "user %s (at %s) disconnected from challenge %s ")
              [pystr "abc"; pystr "10.8.0.2:49153"; pystr "example"]])).
Proof.
  assert (Hin : User__fmt_address (pystr "10.8.0.2") 49153
                ∈ connections alice_twice).
  { change (connections alice_twice)
      with ({[pystr "10.8.0.2:49152"; pystr "10.8.0.2:49153"]} : gset str).
    apply elem_of_union_r, elem_of_singleton. vm_compute. reflexivity. }
  split; [exact Hin |].
  rewrite (remove_connection_not_last (pystr "10.8.0.2") 49153 alice_twice
             (Sys live_world []) Hin).
  - vm_compute. reflexivity.
  - intros Hempty.
    assert (Hsize : size (connections alice_twice
                          ∖ {[User__fmt_address (pystr "10.8.0.2") 49153]})
                    = 1%nat) by (vm_compute; reflexivity).
    rewrite Hempty, size_empty in Hsize. discriminate.
Defined.

Lemma add_then_remove_connection_witness :
  connections alice <> ∅
  /\ (User_add_connection (pystr "10.8.0.2") 49153 ;;
      User_remove_connection (pystr "10.8.0.2") 49153)
       (alice, Sys live_world [])
     = (Ret tt,
        (alice,
         Sys live_world
           [Log INFO (pystr "user %s connected from %s to challenge %s")
              [pystr "abc"; pystr "10.8.0.2:49153"; pystr "example"];
            Log INFO
              (pystr "user %s (at %s) disconnected from challenge %s ")
              [pystr "abc"; pystr "10.8.0.2:49153"; pystr "example"]])).
Proof.
  assert (Hlive : connections alice <> ∅).
  { intros Hempty.
    assert (Hsize : size (connections alice) = 1%nat)
      by (vm_compute; reflexivity).
    rewrite Hempty, size_empty in Hsize. discriminate. }
  split; [exact Hlive |].
  rewrite (add_then_remove_connection (pystr "10.8.0.2") 49153 alice
             (Sys live_world []) Hlive).
  - vm_compute. reflexivity.
  - change (connections alice) with ({[pystr "10.8.0.2:49152"]} : gset str).
    intros Hin. apply elem_of_singleton in Hin. vm_compute in Hin.
    discriminate.
Defined.

Lemma is_running_nonblank_witness :
  check_output (compose_cmd alice [pystr "top"]) live_world
    = (Ret top_output, live_world)
  /\ (User_is_running (alice, Sys live_world [])).1 = Ret true.
Proof.
  assert (Hout : check_output (compose_cmd alice [pystr "top"]) live_world
                 = (Ret top_output, live_world)) by (vm_compute; reflexivity).
  split; [exact Hout |].
  pose proof (is_running_nonblank alice (Sys live_world []) top_output
                live_world Hout) as Hrun.
  replace (utf8_decode top_output)
    with (Some (pystr "web_1  UID  PID  CMD")) in Hrun
    by (vm_compute; reflexivity).
  destruct Hrun as (b & -> & Hb). simpl. f_equal. apply Hb.
  apply Exists_cons_hd. vm_compute. reflexivity.
Defined.

Lemma get_bridge_iface_cases_witness :
  networks_list [id alice ++ pystr "_default"] live_world
    = (Ret [{| net_id := pystr "6d667267675f6578616d706c65" |}], live_world)
  /\ (User__get_bridge_iface (alice, Sys live_world [])).1
     = Ret {| ifname := pystr "br-6d667267675f"; index := 2; master := None;
              ipaddr := [] |}.
Proof.
  assert (Hnets : networks_list [id alice ++ pystr "_default"] live_world
                  = (Ret [{| net_id := pystr "6d667267675f6578616d706c65" |}],
                     live_world)) by (vm_compute; reflexivity).
  split; [exact Hnets |].
  rewrite (get_bridge_iface_cases alice (Sys live_world []) _ live_world Hnets).
  vm_compute. reflexivity.
Defined.


Lemma project_id_inj_witness :
  User_init (pystr "MFRGG") 1234 example_ref = Ret idle_alice
  /\ (pystr "MFRGG" = pystr "MFRGG" /\ ref_name example_ref = ref_name example_ref).
Proof.
  assert (Hu : User_init (pystr "MFRGG") 1234 example_ref = Ret idle_alice)
    by (vm_compute; reflexivity).
  split; [exact Hu |].
  apply (project_id_inj _ _ 1234 1234 _ _ idle_alice idle_alice Hu Hu).
  reflexivity.
Defined.

Lemma ensure_vlan_bridged_returns_witness :
  User_ensure_vlan_bridged (alice, Sys booted_world [])
  = (Ret tt,
     (alice,
      Sys live_world
        [IpdbLookup (pystr "host0.1234");
         Log INFO (pystr "creating vlan %s") [pystr "host0.1234"];
         IpdbCreateVlan (pystr "host0.1234") Sim.host0 1234;
         IfaceUp alice_vlan_if;
         NetworksList [pystr "mfrgg_example_default"];
         IpdbLookup (pystr "br-6d667267675f");
         Log INFO (pystr "adding vlan %s to bridge %s")
           [pystr "host0.1234"; pystr "br-6d667267675f"];
         IfaceDelIp docker_bridge (pystr "172.18.0.1") 16;
         IfaceAddPort docker_bridge alice_vlan_if]))
  /\ exists evs,
       vlan_bridged alice booted_world evs live_world
       /\ [IpdbLookup (pystr "host0.1234");
           Log INFO (pystr "creating vlan %s") [pystr "host0.1234"];
           IpdbCreateVlan (pystr "host0.1234") Sim.host0 1234;
           IfaceUp alice_vlan_if;
           NetworksList [pystr "mfrgg_example_default"];
           IpdbLookup (pystr "br-6d667267675f");
           Log INFO (pystr "adding vlan %s to bridge %s")
             [pystr "host0.1234"; pystr "br-6d667267675f"];
           IfaceDelIp docker_bridge (pystr "172.18.0.1") 16;
           IfaceAddPort docker_bridge alice_vlan_if]
          = evs.
Proof.
  pose proof (ensure_vlan_bridged_returns alice (Sys booted_world []) alice
                (Sys live_world
                   [IpdbLookup (pystr "host0.1234");
                    Log INFO (pystr "creating vlan %s") [pystr "host0.1234"];
                    IpdbCreateVlan (pystr "host0.1234") Sim.host0 1234;
                    IfaceUp alice_vlan_if;
                    NetworksList [pystr "mfrgg_example_default"];
                    IpdbLookup (pystr "br-6d667267675f");
                    Log INFO (pystr "adding vlan %s to bridge %s")
                      [pystr "host0.1234"; pystr "br-6d667267675f"];
                    IfaceDelIp docker_bridge (pystr "172.18.0.1") 16;
                    IfaceAddPort docker_bridge alice_vlan_if]))
    as Hreturns.
  assert (Hrun : User_ensure_vlan_bridged (alice, Sys booted_world [])
                 = (Ret tt,
                    (alice,
                     Sys live_world
                       [IpdbLookup (pystr "host0.1234");
                        Log INFO (pystr "creating vlan %s")
                          [pystr "host0.1234"];
                        IpdbCreateVlan (pystr "host0.1234") Sim.host0 1234;
                        IfaceUp alice_vlan_if;
                        NetworksList [pystr "mfrgg_example_default"];
                        IpdbLookup (pystr "br-6d667267675f");
                        Log INFO (pystr "adding vlan %s to bridge %s")
                          [pystr "host0.1234"; pystr "br-6d667267675f"];
                        IfaceDelIp docker_bridge (pystr "172.18.0.1") 16;
                        IfaceAddPort docker_bridge alice_vlan_if])))
    by (vm_compute; reflexivity).
  split; [exact Hrun |].
  destruct (proj1 Hreturns Hrun) as (_ & evs & Hbridged & Htrace).
  exists evs. split; [exact Hbridged | exact Htrace].
Defined.

Lemma connect_user_twice_witness :
  first_connect.1 = Ret 1234
  /\ world first_connect.2.2 = live_world
  /\ List.filter is_compose (trace first_connect.2.2)
     = [CheckOutput (compose_cmd alice [pystr "top"]);
        CheckCall (compose_cmd alice [pystr "up"; pystr "--detach"])]
  /\ exists c1 u1,
       challenges first_connect.2.1 !! pystr "example" = Some c1
       /\ users c1 !! pystr "MFRGG" = Some u1
       /\ connections u1 = {[pystr "10.8.0.2:49152"]}
       /\ size (connections u1) = 1%nat
       /\ (exists evs,
             cluster_booted u1
               (world (Challenge__ensure_user_exists 1 (pystr "MFRGG")
                         (empty_challenge, Sim.boot [1234])).2.2)
               evs (world first_connect.2.2)
             /\ trace first_connect.2.2
                = evs
                  ++ [Log INFO
                        (pystr "user %s connected from %s to challenge %s")
                        [name u1; pystr "10.8.0.2:49152";
                         ref_name (challenge u1)]])
       /\ Manager_connect_user 1 (pystr "example") (pystr "MFRGG")
            (pystr "10.8.0.2") 49152 first_connect.2
          = (Ret 1234,
             (first_connect.2.1,
              Sys (world first_connect.2.2)
                (trace first_connect.2.2
                 ++ [Log INFO
                       (pystr "user %s connected from %s to challenge %s")
                       [name u1; pystr "10.8.0.2:49152";
                        ref_name (challenge u1)]]))).
Proof.
  assert (Hfirst : first_connect
                   = (Ret 1234, (first_connect.2.1, first_connect.2.2)))
    by (vm_compute; reflexivity).
  split; [vm_compute; reflexivity |].
  split; [vm_compute; reflexivity |].
  split; [vm_compute; reflexivity |].
  destruct (connect_user_twice 1 1 (pystr "example") (pystr "MFRGG")
              (pystr "10.8.0.2") 49152 fresh_manager (Sim.boot [1234]) 1234
              first_connect.2.1 first_connect.2.2 Hfirst)
    as (c & c1 & u1 & Hc & Hc1 & Hu1 & _ & _ & _ & Hone & _ & Hsecond).
  assert (Hc0 : c = empty_challenge).
  { change (challenges fresh_manager)
      with ({[pystr "example" := empty_challenge]} : gmap str Challenge) in Hc.
    apply lookup_singleton_Some in Hc as [_ <-]. reflexivity. }
  subst c.
  exists c1, u1.
  destruct Hone as (Hone & Hsize & evs & Hboot & Htrace).
  { intros u Hu. change (users empty_challenge) with (∅ : gmap str User) in Hu.
    rewrite lookup_empty in Hu. discriminate. }
  split; [exact Hc1 |]. split; [exact Hu1 |]. split; [exact Hone |].
  split; [exact Hsize |].
  split; [exists evs; split; [exact Hboot | exact Htrace] |].
  destruct first_connect as [r [m1 s1]]. exact Hsecond.
Defined.
